(** * PLDM platform event poller, platform responder and BIOS registry

    A shallow embedding of

    - [EventHandlerInterface] (the per-EID platform event poller),
    - [pldm::responder::platform::Handler] ([getPDR],
      [platformEventMessage], [sensorEvent], the repository change
      event, the effecter commands, the D-Bus object maps and the PDR
      generation),
    - [bios_parser] ([setupConfig] and the [getAttrValue] functions),

    together with the properties the specification states about them.
    Constants and helpers that come from libpldm or from headers outside
    the modelled sources are fields of an environment class per module. *)

From Stdlib Require Import ZArith List Lia Bool.
From stdpp Require Import base option gmap strings list fin_maps sorting.
Import ListNotations.

Local Open Scope Z_scope.

(** ** C++ containers *)

(** [std::vector::insert(begin() + pos, first, last)]: the new elements go
    in front of position [pos].  An iterator past [end()] is undefined
    behaviour in C++, which the model reports as [None]. *)
Definition vector_insert {A} (v : list A) (pos : Z) (xs : list A)
  : option (list A) :=
  if (0 <=? pos) && (pos <=? Z.of_nat (length v))
  then Some (take (Z.to_nat pos) v ++ xs ++ drop (Z.to_nat pos) v)
  else None.

(** [std::map::emplace]: inserts only when the key is absent. *)
Definition map_emplace `{Countable K} {V} (k : K) (v : V) (m : gmap K V)
  : gmap K V :=
  match m !! k with
  | Some _ => m
  | None => <[k := v]> m
  end.

(** Unsigned wrap-around of a [w]-bit integer. *)
Definition wrap (w : Z) (x : Z) : Z := x mod 2 ^ w.

(** * The platform event poller *)

Module Poller.

(** [struct ReqPollInfo] *)
Record ReqPollInfo := mkReq {
  operationFlag : Z;        (* uint8_t *)
  dataTransferHandle : Z;   (* uint32_t *)
  eventIdToAck : Z          (* uint16_t *)
}.

(** [struct RecvPollInfo] *)
Record RecvPollInfo := mkRecv {
  eventClass : Z;           (* uint8_t *)
  totalSize : Z;            (* uint32_t *)
  data : list Z             (* std::vector<uint8_t> *)
}.

(** The outputs of [decode_poll_for_platform_event_message_resp]: its
    return code and the decoded fields.  [retEventData] is the prefix
    [tmp[0 .. retEventDataSize)] of the scratch vector the decoder fills. *)
Record PollResp := mkResp {
  rc : Z;
  retTid : Z;
  retEventId : Z;
  retNextDataTransferHandle : Z;
  retTransferFlag : Z;
  retEventClass : Z;
  retEventData : list Z;
  retEventDataIntegrityChecksum : Z
}.

Definition retEventDataSize (r : PollResp) : Z :=
  Z.of_nat (length (retEventData r)).

(** Constants of [config.h] and of libpldm, and the collaborators the
    poller calls. *)
Class Env := {
  (** [config.h] *)
  MAX_QUEUE_SIZE : nat;
  (** libpldm: completion code, [transfer_resp_flag], [transfer_op_flag] *)
  PLDM_SUCCESS : Z;
  PLDM_START : Z;
  PLDM_MIDDLE : Z;
  PLDM_END : Z;
  PLDM_START_AND_END : Z;
  PLDM_GET_FIRSTPART : Z;
  PLDM_GET_NEXTPART : Z;
  PLDM_ACKNOWLEDGEMENT_ONLY : Z;
  (** libpldm: [crc32(data, size)] *)
  crc32 : list Z -> Z
}.

(** [HandlerFunc], the type of the registered class handlers; they are
    external callbacks and only their invocation is observed. *)
Class Handlers := HandlerFunc : Type.

Section EventHandlerInterface.

Context {env : Env} {handlers : Handlers}.

(** What the poller does to its collaborators. *)
Inductive Effect :=
| MarkFree (iid : Z)                              (* requester.markFree *)
| GetInstanceId (iid : Z)                         (* requester.getInstanceId *)
| RegisterRequest (iid op handle evid : Z)        (* handler->registerRequest *)
| InvokeHandler (h : HandlerFunc) (tid cls evid : Z) (bytes : list Z).

(** The members of [EventHandlerInterface] the callbacks read or write. *)
Record State := mkState {
  isProcessPolling : bool;
  isPolling : bool;
  responseReceived : bool;
  isCritical : bool;
  reqData : ReqPollInfo;
  recvData : RecvPollInfo;
  critEventQueue : list Z;                 (* std::deque<uint16_t> *)
  instanceId : Z;
  eventHndls : gmap Z HandlerFunc;
  pollEventReqTimer : bool;                (* enabled *)
  pollReqTimeoutTimer : bool               (* running *)
}.

Definition set_req (q : ReqPollInfo) (s : State) : State :=
  mkState (isProcessPolling s) (isPolling s) (responseReceived s)
    (isCritical s) q (recvData s) (critEventQueue s) (instanceId s)
    (eventHndls s) (pollEventReqTimer s) (pollReqTimeoutTimer s).

Definition set_recv (b : RecvPollInfo) (s : State) : State :=
  mkState (isProcessPolling s) (isPolling s) (responseReceived s)
    (isCritical s) (reqData s) b (critEventQueue s) (instanceId s)
    (eventHndls s) (pollEventReqTimer s) (pollReqTimeoutTimer s).

Definition restart_pollEventReqTimer (s : State) : State :=
  mkState (isProcessPolling s) (isPolling s) (responseReceived s)
    (isCritical s) (reqData s) (recvData s) (critEventQueue s)
    (instanceId s) (eventHndls s) true (pollReqTimeoutTimer s).

(** [normalEventCb] *)
Definition normalEventCb (s : State) : State :=
  if isProcessPolling s || isCritical s then s
  else
    let eventId := 0 in
    restart_pollEventReqTimer
      (set_req (mkReq PLDM_GET_FIRSTPART eventId eventId) s).

(** [criticalEventCb] *)
Definition criticalEventCb (s : State) : State :=
  if isProcessPolling s then s
  else
    match critEventQueue s with
    | [] =>
        mkState (isProcessPolling s) (isPolling s) (responseReceived s)
          false (reqData s) (recvData s) (critEventQueue s) (instanceId s)
          (eventHndls s) (pollEventReqTimer s) (pollReqTimeoutTimer s)
    | eventId :: rest =>
        mkState (isProcessPolling s) (isPolling s) (responseReceived s)
          true (mkReq PLDM_GET_FIRSTPART eventId eventId) (recvData s)
          rest (instanceId s) (eventHndls s) true (pollReqTimeoutTimer s)
    end.

(** The range-for loop of [enqueueCriticalEvent]: [true] when the loop
    returns early on an equal entry. *)
Fixpoint queue_has (item : Z) (q : list Z) : bool :=
  match q with
  | [] => false
  | i :: q' => if i =? item then true else queue_has item q'
  end.

(** [enqueueCriticalEvent]: the return value and the queue afterwards. *)
Definition enqueue (item : Z) (q : list Z) : Z * list Z :=
  if (MAX_QUEUE_SIZE <? length q)%nat then (-1, q)
  else if queue_has item q then (-2, q)
  else (0, q ++ [item]).

Definition enqueueCriticalEvent (item : Z) (s : State) : Z * State :=
  let '(r, q) := enqueue item (critEventQueue s) in
  (r, mkState (isProcessPolling s) (isPolling s) (responseReceived s)
        (isCritical s) (reqData s) (recvData s) q (instanceId s)
        (eventHndls s) (pollEventReqTimer s) (pollReqTimeoutTimer s)).

(** [registerEventHandler] *)
Definition registerEventHandler (cls : Z) (f : HandlerFunc) (s : State)
  : State :=
  mkState (isProcessPolling s) (isPolling s) (responseReceived s)
    (isCritical s) (reqData s) (recvData s) (critEventQueue s)
    (instanceId s) (map_emplace cls f (eventHndls s))
    (pollEventReqTimer s) (pollReqTimeoutTimer s).

(** [reset] *)
Definition reset (s : State) : list Effect * State :=
  ([MarkFree (instanceId s)],
   mkState false false false (isCritical s) (mkReq 0 0 0) (mkRecv 0 0 [])
     (critEventQueue s) (instanceId s) (eventHndls s) false
     (pollReqTimeoutTimer s)).

(** [pollReqTimeoutHdl] *)
Definition pollReqTimeoutHdl (s : State) : list Effect * State :=
  if negb (responseReceived s) then reset s else ([], s).

(** The first three statements of [processResponseMsg]. *)
Definition announce (s : State) : State :=
  mkState (isProcessPolling s) false true (isCritical s) (reqData s)
    (recvData s) (critEventQueue s) (instanceId s) (eventHndls s)
    (pollEventReqTimer s) false.

(** [recvData.data.insert(begin + pos, ...); recvData.totalSize += size] *)
Definition receive_part (pos : Z) (r : PollResp) (b : RecvPollInfo)
  : option RecvPollInfo :=
  d ← vector_insert (data b) pos (retEventData r);
  Some (mkRecv (eventClass b) (wrap 32 (totalSize b + retEventDataSize r)) d).

(** [processResponseMsg] from the comment [// found] on: the part is
    stored according to its transfer flag, and the last part is handed
    to the class handler. *)
Definition storePart (r : PollResp) (evId next : Z) (s : State)
  : option (list Effect * State) :=
  let flag := retTransferFlag r in
  if flag =? PLDM_START then
    b ← receive_part 0 r (recvData s);
    Some ([], set_req (mkReq PLDM_GET_NEXTPART next evId) (set_recv b s))
  else if flag =? PLDM_MIDDLE then
    b ← receive_part (dataTransferHandle (reqData s)) r (recvData s);
    Some ([], set_req (mkReq PLDM_GET_NEXTPART next evId) (set_recv b s))
  else if (flag =? PLDM_END) || (flag =? PLDM_START_AND_END) then
    b ← receive_part (dataTransferHandle (reqData s)) r (recvData s);
    let checksum := crc32 (data b) in
    let out :=
      if (flag =? PLDM_END)
         && negb (checksum =? retEventDataIntegrityChecksum r)
      then []
      else
        match eventHndls s !! retEventClass r with
        | Some h =>
            [InvokeHandler h (retTid r) (retEventClass r) evId (data b)]
        | None => []
        end in
    Some (out,
          set_req (mkReq PLDM_ACKNOWLEDGEMENT_ONLY 0 evId) (set_recv b s))
  else Some ([], s).

(** [processResponseMsg], applied to the decoder's outputs. *)
Definition processResponseMsg (r : PollResp) (s0 : State)
  : option (list Effect * State) :=
  let s := announce s0 in
  if negb (rc r =? PLDM_SUCCESS) then Some (reset s)
  else
    let evId := Z.land (retEventId r) 0xffff in
    let next := Z.land (retNextDataTransferHandle r) 0xffffffff in
    if (evId =? 0) || (evId =? 0xffff) then Some (reset s)
    else if negb (eventIdToAck (reqData s) =? 0)
            && negb (evId =? eventIdToAck (reqData s))
    then Some (reset s)
    else storePart r evId next s.

(** [pollEventReqCb].  The instance id handed out by the requester and
    the return codes of [encode_poll_for_platform_event_message_req] and
    of [registerRequest] are inputs. *)
Definition pollEventReqCb (iid encode_rc register_rc : Z) (s : State)
  : list Effect * State :=
  if isPolling s then ([], s)
  else if eventIdToAck (reqData s) =? 0xffff then ([], s)
  else
    let with_iid :=
      mkState (isProcessPolling s) (isPolling s) (responseReceived s)
        (isCritical s) (reqData s) (recvData s) (critEventQueue s) iid
        (eventHndls s) (pollEventReqTimer s) (pollReqTimeoutTimer s) in
    if negb (encode_rc =? PLDM_SUCCESS) then ([GetInstanceId iid], with_iid)
    else
      let req :=
        RegisterRequest iid (operationFlag (reqData s))
          (dataTransferHandle (reqData s)) (eventIdToAck (reqData s)) in
      if negb (register_rc =? 0)
      then ([GetInstanceId iid; req; MarkFree iid], with_iid)
      else
        ([GetInstanceId iid; req],
         mkState true true false (isCritical s) (reqData s) (recvData s)
           (critEventQueue s) iid (eventHndls s) (pollEventReqTimer s) true).

(** One request/response pair: the poll request goes out (encoding and
    sending succeed) and its response is processed. *)
Definition exchange (x : Z * PollResp) (s : State)
  : option (list Effect * State) :=
  let '(e1, s1) := pollEventReqCb (fst x) PLDM_SUCCESS 0 s in
  '(e2, s2) ← processResponseMsg (snd x) s1;
  Some (e1 ++ e2, s2).

Fixpoint exchanges (xs : list (Z * PollResp)) (s : State)
  : option (list Effect * State) :=
  match xs with
  | [] => Some ([], s)
  | x :: xs' =>
      '(e1, s1) ← exchange x s;
      '(e2, s2) ← exchanges xs' s1;
      Some (e1 ++ e2, s2)
  end.

End EventHandlerInterface.

End Poller.

(** * The platform responder *)

Module Platform.

(** A PLDM message: the header fields the handlers read, and the payload. *)
Record pldm_msg := mkMsg {
  instance_id : Z;
  msg_type : Z;
  command : Z;
  payload : list Z
}.

(** The body of a response, field by field. *)
Inductive Body :=
| NoBody
| GetPdrBody (next_record_handle next_data_transfer_handle transfer_flag
              response_count : Z) (record_data : list Z) (transfer_crc : Z)
| PlatformEventBody (platform_event_status : Z).

(** A [Response]: the PLDM header, the completion code and the body. *)
Record Response := mkResponse {
  resp_instance_id : Z;
  resp_type : Z;
  resp_command : Z;
  completion_code : Z;
  body : Body
}.

(** [pdr_utils::PdrEntry] as [getRecordByHandle] fills it: the record's
    bytes ([data] and [size]) and [handle.nextRecordHandle]. *)
Record PdrEntry := mkEntry {
  entry_data : list Z;
  nextRecordHandle : Z
}.

Definition entry_size (e : PdrEntry) : Z := Z.of_nat (length (entry_data e)).

(** The outputs of [decode_get_pdr_req]. *)
Record GetPdrReq := mkGetPdrReq {
  recordHandle : Z;         (* uint32_t *)
  dataTransferHandle : Z;   (* uint32_t *)
  transferOpFlag : Z;       (* uint8_t *)
  reqSizeBytes : Z;         (* uint16_t *)
  recordChangeNum : Z       (* uint16_t *)
}.

(** The outputs of [decode_platform_event_message_req]. *)
Record EventMsgReq := mkEventMsgReq {
  formatVersion : Z;
  req_tid : Z;
  req_eventClass : Z;
  eventDataOffset : Z
}.

(** What a handler of the event chain does: it returns a code, or the
    call leaves through [std::out_of_range]. *)
Inductive Outcome :=
| Ret (rc : Z)
| ThrowOutOfRange.

(** [pldm::pdr::EntityInfo] and one entry of the host sensor map. *)
Record EntityInfo := mkEntityInfo {
  containerId : Z;
  entityType : Z;
  entityInstance : Z
}.

Record SensorInfo := mkSensorInfo {
  entityInfo : EntityInfo;
  compositeSensorStates : list (gset Z)   (* vector<set<uint8_t>> *)
}.

(** [events::StateSensorEntry] *)
Record StateSensorEntry := mkStateSensorEntry {
  sse_containerId : Z;
  sse_entityType : Z;
  sse_entityInstance : Z;
  sse_sensorOffset : Z
}.

(** The outputs of [decode_sensor_event_data], [decode_state_sensor_data]
    and [decode_numeric_sensor_data]. *)
Record SensorEventData := mkSensorEventData {
  sensorId : Z;
  sensorEventClass : Z;
  eventClassDataOffset : Z
}.

Record StateSensorData := mkStateSensorData {
  sensorOffset : Z;
  eventState : Z;
  previousEventState : Z
}.

Record NumericSensorData := mkNumericSensorData {
  num_eventState : Z;
  num_preEventState : Z;
  sensorDataSize : Z;
  presentReading : Z
}.

(** What [sensorEvent] does to its collaborators. *)
Inductive SensorEffect :=
| EmitStateSensorEventSignal (tid sid offset state prev : Z)
| EmitNumericSensorEventSignal (tid sid state prev size reading : Z)
| HandleStateSensorEvent (e : StateSensorEntry) (state : Z).

(** [Repo] is the PDR repository; [World] is everything the event
    handlers and the OEM hooks may change. *)
Class Types := {
  Repo : Type;
  World : Type
}.

(** Constants and functions of libpldm and of the collaborators of
    [Handler]. *)
Class Env {types : Types} := {
  PLDM_SUCCESS : Z;
  PLDM_ERROR : Z;
  PLDM_ERROR_INVALID_DATA : Z;
  PLDM_ERROR_INVALID_LENGTH : Z;
  PLDM_ERROR_NOT_READY : Z;
  PLDM_PLATFORM_INVALID_RECORD_HANDLE : Z;
  PLDM_GET_PDR_REQ_BYTES : Z;
  PLDM_START_AND_END : Z;
  PLDM_PLATFORM : Z;
  PLDM_GET_PDR : Z;
  PLDM_PLATFORM_EVENT_MESSAGE : Z;
  PLDM_EVENT_NO_LOGGING : Z;
  PLDM_HEARTBEAT_TIMER_ELAPSED_EVENT : Z;
  PLDM_STATE_SENSOR_STATE : Z;
  PLDM_NUMERIC_SENSOR_STATE : Z;
  PLDM_TID_RESERVED : Z;
  (** the functions that fill and search the PDR repository *)
  getRecordByHandle : Repo -> Z -> option PdrEntry;
  buildFRUTable : Repo -> Repo;
  generateTerminusLocatorPDR : Repo -> Repo;
  generate : Repo -> Repo;
  buildOEMPDR : Repo -> Repo;
  (** libpldm decoders: return code and decoded fields *)
  decode_get_pdr_req : pldm_msg -> Z -> Z * GetPdrReq;
  decode_platform_event_message_req : pldm_msg -> Z -> Z * EventMsgReq;
  decode_sensor_event_data : list Z -> Z -> Z * SensorEventData;
  decode_state_sensor_data : list Z -> Z -> Z * StateSensorData;
  decode_numeric_sensor_data : list Z -> Z -> Z * NumericSensorData;
  (** [oemPlatformHandler->resetWatchDogTimer] *)
  resetWatchDogTimer : World -> World;
  (** [hostPDRHandler->handleStateSensorEvent] *)
  handleStateSensorEvent : StateSensorEntry -> Z -> Z
}.

Section Handler.

Context {types : Types} {env : Env}.

(** An entry of [eventHandlers]: called with the request, the payload
    length, the format version, the TID and the event data offset. *)
Definition EventHandler : Type :=
  pldm_msg -> Z -> Z -> Z -> Z -> World -> Outcome * World.

(** [HostPDRHandler], as far as [getPDR] and [sensorEvent] use it:
    [isHostUp()] and the map behind [lookupSensorInfo]. *)
Record HostPDRHandler := mkHost {
  isHostUp : bool;
  sensorMap : gmap (Z * Z) SensorInfo
}.

(** [oem_platform::Handler], as far as [getPDR] uses it. *)
Record OemPlatformHandler := mkOem {
  checkBMCState : Z
}.

(** The members of [Handler] the modelled functions read or write. *)
Record Handler := mkHandler {
  hostPDRHandler : option HostPDRHandler;
  oemPlatformHandler : option OemPlatformHandler;
  fruHandler : bool;                        (* non-null *)
  pdrCreated : bool;
  pdrRepo : Repo;
  eventHandlers : gmap Z (list EventHandler)
}.

Definition set_repo (created : bool) (r : Repo) (h : Handler) : Handler :=
  mkHandler (hostPDRHandler h) (oemPlatformHandler h) (fruHandler h)
    created r (eventHandlers h).

(** Modelled from the spec: [CmdHandler::ccOnlyResponse] is declared
    outside the modelled sources.  It builds a completion-code-only
    response (no payload) whose PLDM header carries the instance id,
    type and command of the request. *)
Definition ccOnlyResponse (request : pldm_msg) (cc : Z) : Response :=
  mkResponse (instance_id request) (msg_type request) (command request)
    cc NoBody.

(** Modelled from the spec: libpldm's [encode_get_pdr_resp] is outside
    the modelled sources.  It writes the header for the instance id, the
    completion code and the body fields, copying [resp_cnt] bytes from
    [record_data] unless the pointer is null, and reports success. *)
Definition encode_get_pdr_resp (iid cc next_record_hndl
    next_data_transfer_hndl transfer_flag resp_cnt : Z)
    (record_data : option (list Z)) (transfer_crc : Z) : Z * Response :=
  (PLDM_SUCCESS,
   mkResponse iid PLDM_PLATFORM PLDM_GET_PDR cc
     (GetPdrBody next_record_hndl next_data_transfer_hndl transfer_flag
        resp_cnt
        (match record_data with
         | Some bytes => take (Z.to_nat resp_cnt) bytes
         | None => []
         end)
        transfer_crc)).

(** Modelled from the spec: libpldm's
    [encode_platform_event_message_resp] is outside the modelled
    sources.  It writes the header for the instance id, the completion
    code and the status, and reports success. *)
Definition encode_platform_event_message_resp (iid cc status : Z)
  : Z * Response :=
  (PLDM_SUCCESS,
   mkResponse iid PLDM_PLATFORM PLDM_PLATFORM_EVENT_MESSAGE cc
     (PlatformEventBody status)).

(** The readiness gate at the head of [getPDR]. *)
Definition bmcNotReady (h : Handler) : bool :=
  match hostPDRHandler h, oemPlatformHandler h with
  | Some host, Some oem =>
      isHostUp host && negb (checkBMCState oem =? PLDM_SUCCESS)
  | _, _ => false
  end.

(** [getPDR] up to the length check: the FRU table and, on the first
    call, the repository are built. *)
Definition buildRepo (h : Handler) : Handler :=
  let r1 := if fruHandler h then buildFRUTable (pdrRepo h) else pdrRepo h in
  if pdrCreated h then set_repo true r1 h
  else
    let r2 := generate (generateTerminusLocatorPDR r1) in
    let r3 := match oemPlatformHandler h with
              | Some _ => buildOEMPDR r2
              | None => r2
              end in
    set_repo true r3 h.

(** [getPDR]: the response and the handler afterwards. *)
Definition getPDR (request : pldm_msg) (payloadLength : Z) (h0 : Handler)
  : Response * Handler :=
  if bmcNotReady h0 then (ccOnlyResponse request PLDM_ERROR_NOT_READY, h0)
  else
    let h := buildRepo h0 in
    if negb (payloadLength =? PLDM_GET_PDR_REQ_BYTES)
    then (ccOnlyResponse request PLDM_ERROR_INVALID_LENGTH, h)
    else
      let '(rc, req) := decode_get_pdr_req request payloadLength in
      if negb (rc =? PLDM_SUCCESS) then (ccOnlyResponse request rc, h)
      else
        match getRecordByHandle (pdrRepo h) (recordHandle req) with
        | None =>
            (ccOnlyResponse request PLDM_PLATFORM_INVALID_RECORD_HANDLE, h)
        | Some e =>
            let respSizeBytes :=
              if negb (reqSizeBytes req =? 0) then
                let size16 := wrap 16 (entry_size e) in
                if reqSizeBytes req <? size16 then reqSizeBytes req
                else size16
              else 0 in
            let recordData :=
              if negb (reqSizeBytes req =? 0) then Some (entry_data e)
              else None in
            let '(rc, response) :=
              encode_get_pdr_resp (instance_id request) PLDM_SUCCESS
                (nextRecordHandle e) 0 PLDM_START_AND_END respSizeBytes
                recordData 0 in
            if negb (rc =? PLDM_SUCCESS) then (ccOnlyResponse request rc, h)
            else (response, h)
        end.

(** The loop over the handlers of one event class.  [inl] carries the
    response the loop returns early with, [inr] means it ran to its end. *)
Fixpoint runHandlers (request : pldm_msg) (payloadLength : Z)
    (req : EventMsgReq) (handlers : list EventHandler) (w : World)
  : (Response + unit) * World :=
  match handlers with
  | [] => (inr tt, w)
  | handler :: rest =>
      match handler request payloadLength (formatVersion req) (req_tid req)
              (eventDataOffset req) w with
      | (Ret rc, w') =>
          if negb (rc =? PLDM_SUCCESS)
          then (inl (ccOnlyResponse request rc), w')
          else runHandlers request payloadLength req rest w'
      | (ThrowOutOfRange, w') =>
          (inl (ccOnlyResponse request PLDM_ERROR_INVALID_DATA), w')
      end
  end.

(** [platformEventMessage] *)
Definition platformEventMessage (request : pldm_msg) (payloadLength : Z)
    (h : Handler) (w : World) : Response * World :=
  let '(rc, req) := decode_platform_event_message_req request payloadLength in
  if negb (rc =? PLDM_SUCCESS) then (ccOnlyResponse request rc, w)
  else
    let finish (rc : Z) (w : World) :=
      let '(rc', response) :=
        encode_platform_event_message_resp (instance_id request) rc
          PLDM_EVENT_NO_LOGGING in
      if negb (rc' =? PLDM_SUCCESS) then (ccOnlyResponse request rc', w)
      else (response, w) in
    if req_eventClass req =? PLDM_HEARTBEAT_TIMER_ELAPSED_EVENT then
      finish PLDM_SUCCESS
        (match oemPlatformHandler h with
         | Some _ => resetWatchDogTimer w
         | None => w
         end)
    else
      match eventHandlers h !! req_eventClass req with
      | None => (ccOnlyResponse request PLDM_ERROR_INVALID_DATA, w)
      | Some handlers =>
          match runHandlers request payloadLength req handlers w with
          | (inl response, w') => (response, w')
          | (inr _, w') => finish rc w'
          end
      end.

(** [hostPDRHandler->lookupSensorInfo]: [sensorMap.at(entry)], where
    [None] stands for [std::out_of_range]. *)
Definition lookupSensorInfo (host : HostPDRHandler) (entry : Z * Z)
  : option SensorInfo :=
  sensorMap host !! entry.

(** [sensorEvent]: the code returned and what was emitted or called on
    the way.  The OEM script hook is left out. *)
Definition sensorEvent (request : pldm_msg) (payloadLength : Z)
    (tid : Z) (eventDataOffset : Z) (h : Handler)
  : Z * list SensorEffect :=
  let eventData := drop (Z.to_nat eventDataOffset) (payload request) in
  let eventDataSize := wrap 64 (payloadLength - eventDataOffset) in
  let '(rc, ev) := decode_sensor_event_data eventData eventDataSize in
  if negb (rc =? PLDM_SUCCESS) then (rc, [])
  else
    let eventClassData :=
      drop (Z.to_nat (eventDataOffset + eventClassDataOffset ev))
        (payload request) in
    let eventClassDataSize :=
      wrap 64 (payloadLength - eventDataOffset - eventClassDataOffset ev) in
    if sensorEventClass ev =? PLDM_STATE_SENSOR_STATE then
      let '(rc, sd) :=
        decode_state_sensor_data eventClassData eventClassDataSize in
      if negb (rc =? PLDM_SUCCESS) then (PLDM_ERROR, [])
      else
        let signal :=
          EmitStateSensorEventSignal tid (sensorId ev) (sensorOffset sd)
            (eventState sd) (previousEventState sd) in
        match hostPDRHandler h with
        | None => (PLDM_SUCCESS, [signal])
        | Some host =>
            let found :=
              match lookupSensorInfo host (tid, sensorId ev) with
              | Some info => Some info
              | None =>
                  lookupSensorInfo host (PLDM_TID_RESERVED, sensorId ev)
              end in
            match found with
            | None => (PLDM_SUCCESS, [signal])
            | Some info =>
                let states := compositeSensorStates info in
                if Z.of_nat (length states) <=? sensorOffset sd
                then (PLDM_ERROR_INVALID_DATA, [signal])
                else
                  let possibleStates :=
                    default ∅ (states !! Z.to_nat (sensorOffset sd)) in
                  if bool_decide (eventState sd ∈ possibleStates) then
                    let e :=
                      mkStateSensorEntry
                        (containerId (entityInfo info))
                        (entityType (entityInfo info))
                        (entityInstance (entityInfo info))
                        (sensorOffset sd) in
                    (handleStateSensorEvent e (eventState sd),
                     [signal; HandleStateSensorEvent e (eventState sd)])
                  else (PLDM_ERROR_INVALID_DATA, [signal])
            end
        end
    else if sensorEventClass ev =? PLDM_NUMERIC_SENSOR_STATE then
      let '(rc, nd) :=
        decode_numeric_sensor_data eventClassData eventClassDataSize in
      if negb (rc =? PLDM_SUCCESS) then (PLDM_ERROR, [])
      else
        (PLDM_SUCCESS,
         [EmitNumericSensorEventSignal tid (sensorId ev) (num_eventState nd)
            (num_preEventState nd) (sensorDataSize nd) (presentReading nd)])
    else (PLDM_ERROR_INVALID_DATA, []).

End Handler.

(** ** The D-Bus object maps of [Handler] *)

(** [pdr_utils::TypeId]; the code only asks whether it is
    [PLDM_SENSOR_ID]. *)
Inductive TypeId := PLDM_EFFECTER_ID | PLDM_SENSOR_ID.

Section DbusObjMaps.

(** [std::tuple<pdr_utils::DbusMappings, pdr_utils::DbusValMaps>] *)
Context {DbusObj : Type}.

(** The members [sensorDbusObjMaps] and [effecterDbusObjMaps]. *)
Record ObjMaps := mkObjMaps {
  sensorDbusObjMaps : gmap Z DbusObj;
  effecterDbusObjMaps : gmap Z DbusObj
}.

(** [addDbusObjMaps] *)
Definition addDbusObjMaps (id : Z) (dbusObj : DbusObj) (typeId : TypeId)
    (m : ObjMaps) : ObjMaps :=
  match typeId with
  | PLDM_SENSOR_ID =>
      mkObjMaps (map_emplace id dbusObj (sensorDbusObjMaps m))
        (effecterDbusObjMaps m)
  | _ =>
      mkObjMaps (sensorDbusObjMaps m)
        (map_emplace id dbusObj (effecterDbusObjMaps m))
  end.

(** [getDbusObjMaps]: [std::map::at], where [None] stands for
    [std::out_of_range]. *)
Definition getDbusObjMaps (id : Z) (typeId : TypeId) (m : ObjMaps)
  : option DbusObj :=
  match typeId with
  | PLDM_SENSOR_ID => sensorDbusObjMaps m !! id
  | _ => effecterDbusObjMaps m !! id
  end.

End DbusObjMaps.

Arguments ObjMaps : clear implicits.

(** ** PDR repository change events *)

(** The outputs of [decode_pldm_pdr_repository_chg_event_data] and of
    [decode_pldm_pdr_repository_change_record_data]. *)
Record ChgEventData := mkChgEventData {
  eventDataFormat : Z;          (* uint8_t *)
  numberOfChangeRecords : Z;    (* uint8_t *)
  chg_dataOffset : Z            (* size_t *)
}.

Record ChangeRecord := mkChangeRecord {
  eventDataOperation : Z;       (* uint8_t *)
  numberOfChangeEntries : Z;    (* uint8_t *)
  rec_dataOffset : Z            (* size_t *)
}.

(** The members of [HostPDRHandler] that [pldmPDRRepositoryChgEvent]
    writes: [isHostPdrModified] and [tlPDRInfo], which maps a terminus
    handle to its TID, EID and validity. *)
Record HostPDRs := mkHostPDRs {
  isHostPdrModified : bool;
  tlPDRInfo : gmap Z (Z * Z * Z)
}.

(** How a call that loops ends: the loop did not finish within the
    given number of rounds, the call left defined behaviour, or it
    returned. *)
Inductive Run (A : Type) :=
| OutOfFuel
| Undefined
| Returns (a : A).

Arguments OutOfFuel {A}.
Arguments Undefined {A}.
Arguments Returns {A} a.

Class ChgEnv {types : Types} := {
  (** [sizeof(ChangeEntry)] and the [ChangeEntry] that a
      [reinterpret_cast] reads from that many bytes *)
  sizeof_ChangeEntry : nat;
  ChangeEntry_of_bytes : list Z -> Z;
  FORMAT_IS_PDR_TYPES : Z;
  FORMAT_IS_PDR_HANDLES : Z;
  REFRESH_ENTIRE_REPOSITORY : Z;
  PLDM_RECORDS_ADDED : Z;
  PLDM_RECORDS_MODIFIED : Z;
  decode_pldm_pdr_repository_chg_event_data : list Z -> Z -> Z * ChgEventData;
  decode_pldm_pdr_repository_change_record_data :
    list Z -> Z -> Z * ChangeRecord;
  pldm_pdr_remove_pdrs_by_terminus_handle : Repo -> Z -> Repo
}.

Section RepositoryChange.

Context {types : Types} {env : Env} {chg : ChgEnv}.

(** [changeEntryData[i]]: reading past the end of the message is
    undefined, [None]. *)
Definition changeEntryAt (changeEntryData : list Z) (i : nat) : option Z :=
  let bytes :=
    take sizeof_ChangeEntry (drop (i * sizeof_ChangeEntry) changeEntryData) in
  if (length bytes =? sizeof_ChangeEntry)%nat
  then Some (ChangeEntry_of_bytes bytes)
  else None.

(** The loop of [getPDRRecordHandles], from index [i] for [n] rounds. *)
Fixpoint pushEntries (changeEntryData : list Z) (i n : nat)
    (pdrRecordHandles : list Z) : option (list Z) :=
  match n with
  | O => Some pdrRecordHandles
  | S n' =>
      entry ← changeEntryAt changeEntryData i;
      pushEntries changeEntryData (S i) n' (pdrRecordHandles ++ [entry])
  end.

(** [getPDRRecordHandles]: the return code and [pdrRecordHandles]
    afterwards. *)
Definition getPDRRecordHandles (changeEntryData : list Z)
    (changeEntryDataSize numberOfChangeEntries : Z)
    (pdrRecordHandles : list Z) : option (Z * list Z) :=
  if changeEntryDataSize / Z.of_nat sizeof_ChangeEntry <? numberOfChangeEntries
  then Some (PLDM_ERROR_INVALID_DATA, pdrRecordHandles)
  else
    handles ← pushEntries changeEntryData 0 (Z.to_nat numberOfChangeEntries)
                pdrRecordHandles;
    Some (PLDM_SUCCESS, handles).

(** The [while] loop of [pldmPDRRepositoryChgEvent].  It returns the
    code of an early [return], if any, the record handles and the host
    PDR handler.  Writing [isHostPdrModified] through a null
    [hostPDRHandler] is undefined, and so is moving [changeRecordData]
    past the end of the message. *)
Fixpoint changeRecords (fuel : nat) (changeRecordData : list Z)
    (changeRecordDataSize : Z) (host : option HostPDRs)
    (pdrRecordHandles : list Z)
  : Run (option Z * list Z * option HostPDRs) :=
  if changeRecordDataSize =? 0
  then Returns (None, pdrRecordHandles, host)
  else
    match fuel with
    | O => OutOfFuel
    | S fuel' =>
        let '(rc, rec) :=
          decode_pldm_pdr_repository_change_record_data changeRecordData
            changeRecordDataSize in
        if negb (rc =? PLDM_SUCCESS)
        then Returns (Some rc, pdrRecordHandles, host)
        else
          let dataOffset := rec_dataOffset rec in
          let consumed :=
            wrap 64 (dataOffset
                     + numberOfChangeEntries rec
                       * Z.of_nat sizeof_ChangeEntry) in
          let collected :=
            if (eventDataOperation rec =? PLDM_RECORDS_ADDED)
               || (eventDataOperation rec =? PLDM_RECORDS_MODIFIED)
            then
              let marked :=
                if eventDataOperation rec =? PLDM_RECORDS_MODIFIED
                then
                  match host with
                  | Some hs => Returns (Some (mkHostPDRs true (tlPDRInfo hs)))
                  | None => Undefined
                  end
                else Returns host in
              match marked with
              | Returns host' =>
                  match getPDRRecordHandles
                          (drop (Z.to_nat dataOffset) changeRecordData)
                          (wrap 64 (changeRecordDataSize - dataOffset))
                          (numberOfChangeEntries rec) pdrRecordHandles with
                  | Some (rc', handles) =>
                      Returns
                        (if negb (rc' =? PLDM_SUCCESS) then Some rc' else None,
                         handles, host')
                  | None => Undefined
                  end
              | OutOfFuel => OutOfFuel
              | Undefined => Undefined
              end
            else Returns (None, pdrRecordHandles, host) in
          match collected with
          | Returns (Some rc', handles, host') =>
              Returns (Some rc', handles, host')
          | Returns (None, handles, host') =>
              if Z.of_nat (length changeRecordData) <? consumed
              then Undefined
              else
                changeRecords fuel'
                  (drop (Z.to_nat consumed) changeRecordData)
                  (wrap 64 (changeRecordDataSize - consumed)) host' handles
          | OutOfFuel => OutOfFuel
          | Undefined => Undefined
          end
    end.

(** The terminus handles of [tlPDRInfo] recorded for [tid], in the order
    the loop over the [std::map] meets them. *)
Definition handlesOfTid (tid : Z) (info : gmap Z (Z * Z * Z)) : list Z :=
  merge_sort Z.le
    (map fst (filter (fun kv => kv.2.1.1 = tid) (map_to_list info))).

(** The loop of the [REFRESH_ENTIRE_REPOSITORY] branch. *)
Definition refreshEntireRepository (tid : Z) (hs : HostPDRs) (repo : Repo)
  : HostPDRs * Repo :=
  let doomed := handlesOfTid tid (tlPDRInfo hs) in
  (mkHostPDRs (isHostPdrModified hs)
     (foldl (fun info handle => delete handle info) (tlPDRInfo hs) doomed),
   foldl pldm_pdr_remove_pdrs_by_terminus_handle repo doomed).

(** What [pldmPDRRepositoryChgEvent] leaves behind: the code returned,
    the host PDR handler and the repository afterwards, and the argument
    of [fetchPDR] if it was called. *)
Record ChgOutcome := mkChgOutcome {
  chg_rc : Z;
  chg_host : option HostPDRs;
  chg_repo : Repo;
  chg_fetchPDR : option (list Z)
}.

(** [pldmPDRRepositoryChgEvent] *)
Definition pldmPDRRepositoryChgEvent (fuel : nat) (request : pldm_msg)
    (payloadLength tid eventDataOffset : Z) (host : option HostPDRs)
    (repo : Repo) : Run ChgOutcome :=
  let eventData := drop (Z.to_nat eventDataOffset) (payload request) in
  let eventDataSize := wrap 64 (payloadLength - eventDataOffset) in
  let '(rc, ev) :=
    decode_pldm_pdr_repository_chg_event_data eventData eventDataSize in
  if negb (rc =? PLDM_SUCCESS)
  then Returns (mkChgOutcome rc host repo None)
  else if eventDataFormat ev =? FORMAT_IS_PDR_TYPES
  then Returns (mkChgOutcome PLDM_ERROR_INVALID_DATA host repo None)
  else
    let looped :=
      if eventDataFormat ev =? FORMAT_IS_PDR_HANDLES
      then
        changeRecords fuel (drop (Z.to_nat (chg_dataOffset ev)) eventData)
          (wrap 64 (eventDataSize - chg_dataOffset ev)) host []
      else Returns (None, [], host) in
    match looped with
    | Returns (Some rc', _, host') =>
        Returns (mkChgOutcome rc' host' repo None)
    | Returns (None, pdrRecordHandles, None) =>
        Returns (mkChgOutcome PLDM_SUCCESS None repo None)
    | Returns (None, pdrRecordHandles, Some hs) =>
        let '(hs', repo') :=
          if eventDataFormat ev =? REFRESH_ENTIRE_REPOSITORY
          then refreshEntireRepository tid hs repo
          else (hs, repo) in
        Returns
          (mkChgOutcome PLDM_SUCCESS (Some hs') repo' (Some pdrRecordHandles))
    | OutOfFuel => OutOfFuel
    | Undefined => Undefined
    end.

End RepositoryChange.

(** ** Effecter commands and OEM PDRs *)

(** The fields of a state sensor PDR and of a state effecter PDR that
    [isOemStateSensor] and [isOemStateEffecter] read through the
    [reinterpret_cast]; the state set id is that of the first
    [possible_states] entry. *)
Record StateSensorPdr := mkStateSensorPdr {
  pdr_sensor_id : Z;
  sensor_entity_type : Z;
  sensor_entity_instance : Z;
  composite_sensor_count : Z;
  sensor_state_set_id : Z
}.

Record StateEffecterPdr := mkStateEffecterPdr {
  pdr_effecter_id : Z;
  effecter_entity_type : Z;
  effecter_entity_instance : Z;
  composite_effecter_count : Z;
  effecter_state_set_id : Z
}.

Class EffecterEnv {types : Types} := {
  PLDM_OEM_ENTITY_TYPE_START : Z;
  PLDM_OEM_ENTITY_TYPE_END : Z;
  PLDM_OEM_STATE_SET_ID_START : Z;
  PLDM_OEM_STATE_SET_ID_END : Z;
  (** [getRepoByType] for [PLDM_STATE_SENSOR_PDR] and for
      [PLDM_STATE_EFFECTER_PDR], in repository order *)
  stateSensorPDRs : Repo -> list StateSensorPdr;
  stateEffecterPDRs : Repo -> list StateEffecterPdr;
  PLDM_SET_STATE_EFFECTER_STATES : Z;
  PLDM_SET_STATE_EFFECTER_STATES_REQ_BYTES : Z;
  sizeof_set_effecter_state_field : Z;
  sizeof_union_effecter_data_size : Z;
  (** return code, effecter id, composite count and the eight state
      fields the decoder fills *)
  decode_set_state_effecter_states_req :
    pldm_msg -> Z -> Z * (Z * Z * list (Z * Z));
  (** return code, effecter id, data size and the four value bytes *)
  decode_set_numeric_effecter_value_req :
    pldm_msg -> Z -> Z * (Z * Z * list Z);
  oemSetStateEffecterStatesHandler :
    Z -> Z -> Z -> Z -> list (Z * Z) -> Z -> World -> Z * World;
  setStateEffecterStatesHandler : Z -> list (Z * Z) -> World -> Z * World;
  setNumericEffecterValueHandler :
    Z -> Z -> list Z -> Z -> World -> Z * World
}.

Section Effecters.

Context {types : Types} {env : Env} {eff : EffecterEnv}.

Definition isOemRange (entityType stateSetId : Z) : bool :=
  ((PLDM_OEM_ENTITY_TYPE_START <=? entityType)
   && (entityType <=? PLDM_OEM_ENTITY_TYPE_END))
  || ((PLDM_OEM_STATE_SET_ID_START <=? stateSetId)
      && (stateSetId <? PLDM_OEM_STATE_SET_ID_END)).

(** The [while] loop of [isOemStateSensor]: [Some] carries the outputs
    [compSensorCnt], [entityType], [entityInstance] and [stateSetId] of a
    call that returns [true].  The failure to allocate the temporary
    repository is left out. *)
Fixpoint findOemStateSensor (pdrs : list StateSensorPdr)
    (sensorId sensorRearmCount : Z) : option (Z * Z * Z * Z) :=
  match pdrs with
  | [] => None
  | pdr :: rest =>
      if negb (pdr_sensor_id pdr =? sensorId)
      then findOemStateSensor rest sensorId sensorRearmCount
      else if composite_sensor_count pdr <? sensorRearmCount then None
      else if isOemRange (sensor_entity_type pdr) (sensor_state_set_id pdr)
      then Some (composite_sensor_count pdr, sensor_entity_type pdr,
                 sensor_entity_instance pdr, sensor_state_set_id pdr)
      else None
  end.

Definition isOemStateSensor (handler : Handler) (sensorId
    sensorRearmCount : Z) : option (Z * Z * Z * Z) :=
  findOemStateSensor (stateSensorPDRs (pdrRepo handler)) sensorId
    sensorRearmCount.

(** The [while] loop of [isOemStateEffecter]: [Some] carries the outputs
    [entityType], [entityInstance] and [stateSetId]. *)
Fixpoint findOemStateEffecter (pdrs : list StateEffecterPdr)
    (effecterId compEffecterCnt : Z) : option (Z * Z * Z) :=
  match pdrs with
  | [] => None
  | pdr :: rest =>
      if negb (pdr_effecter_id pdr =? effecterId)
      then findOemStateEffecter rest effecterId compEffecterCnt
      else if composite_effecter_count pdr <? compEffecterCnt then None
      else if isOemRange (effecter_entity_type pdr)
                (effecter_state_set_id pdr)
      then Some (effecter_entity_type pdr, effecter_entity_instance pdr,
                 effecter_state_set_id pdr)
      else None
  end.

Definition isOemStateEffecter (handler : Handler) (effecterId
    compEffecterCnt : Z) : option (Z * Z * Z) :=
  findOemStateEffecter (stateEffecterPDRs (pdrRepo handler)) effecterId
    compEffecterCnt.

(** [std::vector::resize] *)
Definition vector_resize {A} (n : nat) (filler : A) (v : list A) : list A :=
  take n v ++ replicate (n - length v) filler.

(** Modelled from the spec: libpldm's
    [encode_set_state_effecter_states_resp] is outside the modelled
    sources.  It writes the header for the instance id and the
    completion code, which is the whole response, and reports success. *)
Definition encode_set_state_effecter_states_resp (iid cc : Z)
  : Z * Response :=
  (PLDM_SUCCESS,
   mkResponse iid PLDM_PLATFORM PLDM_SET_STATE_EFFECTER_STATES cc NoBody).

(** [setStateEffecterStates] *)
Definition setStateEffecterStates {DbusObj : Type} (request : pldm_msg)
    (payloadLength : Z) (h : Handler) (maps : ObjMaps DbusObj) (w : World)
  : Response * World :=
  if (PLDM_SET_STATE_EFFECTER_STATES_REQ_BYTES <? payloadLength)
     || (payloadLength <? 2 + 1 + sizeof_set_effecter_state_field)
  then (ccOnlyResponse request PLDM_ERROR_INVALID_LENGTH, w)
  else
    let '(rc, (effecterId, compEffecterCnt, decoded)) :=
      decode_set_state_effecter_states_req request payloadLength in
    if negb (rc =? PLDM_SUCCESS) then (ccOnlyResponse request rc, w)
    else
      let stateField :=
        vector_resize (Z.to_nat compEffecterCnt) (0, 0) decoded in
      let '(rc, w') :=
        match isOemStateEffecter h effecterId compEffecterCnt,
              oemPlatformHandler h,
              effecterDbusObjMaps maps !! effecterId with
        | Some (entityType, entityInstance, stateSetId), Some _, None =>
            oemSetStateEffecterStatesHandler entityType entityInstance
              stateSetId compEffecterCnt stateField effecterId w
        | _, _, _ =>
            setStateEffecterStatesHandler effecterId stateField w
        end in
      if negb (rc =? PLDM_SUCCESS) then (ccOnlyResponse request rc, w')
      else
        let '(rc', response) :=
          encode_set_state_effecter_states_resp (instance_id request) rc in
        if negb (rc' =? PLDM_SUCCESS) then (ccOnlyResponse request rc', w')
        else (response, w').

(** [setNumericEffecterValue] *)
Definition setNumericEffecterValue (request : pldm_msg) (payloadLength : Z)
    (w : World) : Response * World :=
  if (2 + 1 + sizeof_union_effecter_data_size <? payloadLength)
     || (payloadLength <? 2 + 1 + 1)
  then (ccOnlyResponse request PLDM_ERROR_INVALID_LENGTH, w)
  else
    let '(rc, (effecterId, effecterDataSize, effecterValue)) :=
      decode_set_numeric_effecter_value_req request payloadLength in
    if rc =? PLDM_SUCCESS then
      let '(rc', w') :=
        setNumericEffecterValueHandler effecterId effecterDataSize
          effecterValue 4 w in
      (ccOnlyResponse request rc', w')
    else (ccOnlyResponse request rc, w).

End Effecters.

(** ** Generating PDRs from the JSON files *)

(** [Json] is an element of ["effecterPDRs"] or ["sensorPDRs"]; [Gen]
    is what the generators write: the repository and the D-Bus object
    maps of the handler. *)
Class Generators {Json Gen : Type} := {
  PLDM_STATE_EFFECTER_PDR : Z;
  PLDM_NUMERIC_EFFECTER_PDR : Z;
  PLDM_STATE_SENSOR_PDR : Z;
  (** [effecter.value("pdrType", 0)] *)
  pdrTypeOf : Json -> Z;
  (** the generators: what they leave behind, and whether they left
      through an exception *)
  generateStateEffecterPDR : Json -> Gen -> Gen * bool;
  generateNumericEffecterPDR : Json -> Gen -> Gen * bool;
  generateStateSensorPDR : Json -> Gen -> Gen * bool
}.

Section Generate.

Context {Json Gen : Type} {generators : Generators (Json := Json) (Gen := Gen)}.

(** A file of the PDR directory as [readJson] returns it: the arrays
    under ["effecterPDRs"] and ["sensorPDRs"], both empty for an empty
    JSON value. *)
Record PdrFile := mkPdrFile {
  effecterPDRs : list Json;
  sensorPDRs : list Json
}.

(** [generateHandlers.at(pdrType)]: [None] stands for
    [std::out_of_range]. *)
Definition generateHandlers (pdrType : Z)
  : option (Json -> Gen -> Gen * bool) :=
  if pdrType =? PLDM_STATE_EFFECTER_PDR then Some generateStateEffecterPDR
  else if pdrType =? PLDM_NUMERIC_EFFECTER_PDR
  then Some generateNumericEffecterPDR
  else if pdrType =? PLDM_STATE_SENSOR_PDR then Some generateStateSensorPDR
  else None.

(** One of the two inner loops; [true] means the loop was left through
    an exception. *)
Fixpoint generateEntries (entries : list Json) (g : Gen) : Gen * bool :=
  match entries with
  | [] => (g, false)
  | entry :: rest =>
      match generateHandlers (pdrTypeOf entry) with
      | None => (g, true)
      | Some handler =>
          let '(g', threw) := handler entry g in
          if threw then (g', true) else generateEntries rest g'
      end
  end.

(** The [try] block for one directory entry; each [catch] clause logs
    and goes on with the next file. *)
Definition generateFile (file : PdrFile) (g : Gen) : Gen :=
  let '(g1, threw) := generateEntries (effecterPDRs file) g in
  if threw then g1 else fst (generateEntries (sensorPDRs file) g1).

(** [Handler::generate], given whether the directory exists and its
    files in the order [fs::directory_iterator] yields them. *)
Definition Handler_generate (dir_exists : bool) (files : list PdrFile)
    (g : Gen) : Gen :=
  if negb dir_exists then g else foldl (fun g file => generateFile file g) g files.

End Generate.

End Platform.

(** * The BIOS attribute registry *)

Module BiosParser.

(** [struct DBusMapping] *)
Record DBusMapping := mkDBusMapping {
  objectPath : string;
  interface : string;
  propertyName : string
}.

(** The types the D-Bus value maps range over. *)
Class Types := {
  (** an element of the JSON array ["property_values"] *)
  JsonValue : Type;
  (** [bios_enum::internal::PropertyValue], an ordered variant *)
  PropertyValue : Type
}.

(** Operations on these types and the libpldm checks. *)
Class Env {types : Types} := {
  PropertyValue_eq_dec :: EqDecision PropertyValue;
  (** the value-initialised variant *)
  defaultPropertyValue : PropertyValue;
  (** [static_cast<T>(it.value())] for the type named by the string;
      [None] for a type name [populateMapping] does not know *)
  convert : string -> JsonValue -> option PropertyValue;
  (** [pldm_bios_table_attr_entry_string_info_check(..) == PLDM_SUCCESS] *)
  string_info_check : Z -> Z -> Z -> Z -> string -> bool;
  (** [pldm_bios_table_attr_entry_integer_info_check(..) == PLDM_SUCCESS] *)
  integer_info_check : Z -> Z -> Z -> Z -> bool
}.

Section Registry.

Context {types : Types} {env : Env}.

(** The ["dbus"] object of an entry. *)
Record DbusEntry := mkDbusEntry {
  object_path : string;
  interface_name : string;
  property_name : string;
  property_type : string;
  property_values : list JsonValue
}.

(** An element of ["entries"]: every field holds what
    [entry.value(key, default)] or [entry[key]] yields. *)
Record Entry := mkEntry {
  attribute_name : string;
  possible_values : list string;
  default_values : list string;
  dbus : option DbusEntry;
  string_type : string;
  minimum_string_length : Z;
  maximum_string_length : Z;
  default_string_length : Z;
  default_string : string;
  lower_bound : Z;
  upper_bound : Z;
  scalar_increment : Z;
  default_value : Z
}.

(** The globals of [bios_parser]. *)
Record Registry := mkRegistry {
  BIOSStrings : list string;
  BIOSAttrLookup : gmap string (option DBusMapping);
  enum_dbusValToValMaps : gmap string (list (PropertyValue * string));
  enum_valueMap : gmap string (bool * list string * list string);
  string_valueMap : gmap string (bool * Z * Z * Z * Z * string);
  integer_valueMap : gmap string (bool * Z * Z * Z * Z)
}.

Definition emptyRegistry : Registry := mkRegistry [] ∅ ∅ ∅ ∅ ∅.

(** The configuration directory: whether it exists, whether it is
    empty, and for each file name the ["entries"] array, or [None] when
    [parseBiosJsonFile] fails. *)
Record Dir := mkDir {
  dir_exists : bool;
  dir_is_empty : bool;
  dir_entries : string -> option (list Entry)
}.

Definition bIOSEnumJson : string := "enum_attrs.json".
Definition bIOSStrJson : string := "string_attrs.json".
Definition bIOSIntegerJson : string := "integer_attrs.json".

Definition BIOSConfigFiles : list string :=
  [bIOSEnumJson; bIOSStrJson; bIOSIntegerJson].

(** [bios_string::strTypeMap] *)
Definition strTypeMap : gmap string Z :=
  list_to_map
    [("Unknown"%string, 0x00); ("ASCII"%string, 0x01);
     ("Hex"%string, 0x02); ("UTF-8"%string, 0x03);
     ("UTF-16LE"%string, 0x04); ("UTF-16LE"%string, 0x04);
     ("Vendor Specific"%string, 0xFF)].

(** [emplace] on the [std::map] from property values to strings, kept as
    an association list. *)
Fixpoint assoc_has (k : PropertyValue) (m : list (PropertyValue * string))
  : bool :=
  match m with
  | [] => false
  | (k', _) :: m' => if decide (k' = k) then true else assoc_has k m'
  end.

Definition assoc_emplace (k : PropertyValue) (v : string)
    (m : list (PropertyValue * string)) : list (PropertyValue * string) :=
  if assoc_has k m then m else m ++ [(k, v)].

(** The loop of [bios_enum::internal::populateMapping].  [pv[pos]] past
    the end of [pv] is undefined behaviour, reported as [None]. *)
Fixpoint populateMapping_from (type : string) (dBusValues : list JsonValue)
    (pv : list string) (pos : nat) (value : PropertyValue)
    (valueMap : list (PropertyValue * string))
  : option (list (PropertyValue * string)) :=
  match dBusValues with
  | [] => Some valueMap
  | it :: rest =>
      let value' := default value (convert type it) in
      p ← pv !! pos;
      populateMapping_from type rest pv (S pos) value'
        (assoc_emplace value' p valueMap)
  end.

Definition populateMapping (type : string) (dBusValues : list JsonValue)
    (pv : list string) : option (list (PropertyValue * string)) :=
  populateMapping_from type dBusValues pv 0 defaultPropertyValue [].

(** [bios_enum::setupBIOSStrings] *)
Definition enum_setupBIOSStrings (entry : Entry) (strings : list string)
  : list string :=
  strings ++ possible_values entry.

Definition set_enum (m1 : gmap string (list (PropertyValue * string)))
    (m2 : gmap string (bool * list string * list string)) (r : Registry)
  : Registry :=
  mkRegistry (BIOSStrings r) (BIOSAttrLookup r) m1 m2 (string_valueMap r)
    (integer_valueMap r).

(** [bios_enum::setup] *)
Definition enum_setup (entry : Entry) (r : Registry)
  : option (Z * Registry) :=
  let attrName := attribute_name entry in
  let possibleValues := possible_values entry in
  let defaultValues := default_values entry in
  maps ← match dbus entry with
         | Some dbusEntry =>
             m ← populateMapping (property_type dbusEntry)
                   (property_values dbusEntry) possibleValues;
             Some (map_emplace attrName m (enum_dbusValToValMaps r))
         | None => Some (enum_dbusValToValMaps r)
         end;
  Some (0, set_enum maps
             (map_emplace attrName
                (bool_decide (dbus entry = None), possibleValues,
                 defaultValues)
                (enum_valueMap r)) r).

(** [bios_string::setup] *)
Definition string_setup (jsonEntry : Entry) (r : Registry) : Z * Registry :=
  let attr := attribute_name jsonEntry in
  match strTypeMap !! string_type jsonEntry with
  | None => (-1, r)
  | Some strType =>
      let minStrLen := wrap 16 (minimum_string_length jsonEntry) in
      let maxStrLen := wrap 16 (maximum_string_length jsonEntry) in
      let defaultStrLen := wrap 16 (default_string_length jsonEntry) in
      let defaultStr := default_string jsonEntry in
      if negb (string_info_check strType minStrLen maxStrLen defaultStrLen
                 defaultStr)
      then (-1, r)
      else
        (0, mkRegistry (BIOSStrings r) (BIOSAttrLookup r)
              (enum_dbusValToValMaps r) (enum_valueMap r)
              (map_emplace attr
                 (bool_decide (dbus jsonEntry = None), strType, minStrLen,
                  maxStrLen, defaultStrLen, defaultStr)
                 (string_valueMap r))
              (integer_valueMap r))
  end.

(** [bios_integer::setup] *)
Definition integer_setup (jsonEntry : Entry) (r : Registry) : Z * Registry :=
  let attr := attribute_name jsonEntry in
  let lowerBound := wrap 64 (lower_bound jsonEntry) in
  let upperBound := wrap 64 (upper_bound jsonEntry) in
  let scalarIncrement := wrap 32 (scalar_increment jsonEntry) in
  let defaultValue := wrap 64 (default_value jsonEntry) in
  if negb (integer_info_check lowerBound upperBound scalarIncrement
             defaultValue)
  then (-1, r)
  else
    (0, mkRegistry (BIOSStrings r) (BIOSAttrLookup r)
          (enum_dbusValToValMaps r) (enum_valueMap r) (string_valueMap r)
          (map_emplace attr
             (bool_decide (dbus jsonEntry = None), lowerBound, upperBound,
              scalarIncrement, defaultValue)
             (integer_valueMap r))).

Definition set_strings (l : list string) (r : Registry) : Registry :=
  mkRegistry l (BIOSAttrLookup r) (enum_dbusValToValMaps r)
    (enum_valueMap r) (string_valueMap r) (integer_valueMap r).

Definition set_lookup (m : gmap string (option DBusMapping)) (r : Registry)
  : Registry :=
  mkRegistry (BIOSStrings r) m (enum_dbusValToValMaps r) (enum_valueMap r)
    (string_valueMap r) (integer_valueMap r).

(** [setupBIOSStrings], with [BIOSStringHandlers] holding the enum
    handler only. *)
Definition setupBIOSStrings (jsonName : string) (entry : Entry)
    (strings : list string) : list string :=
  let strings' := strings ++ [attribute_name entry] in
  if String.eqb jsonName bIOSEnumJson
  then enum_setupBIOSStrings entry strings'
  else strings'.

(** [setupBIOSAttrLookup].  The error log of the branch with an empty
    path, interface or property name is left out. *)
Definition setupBIOSAttrLookup (jsonEntry : Entry)
    (lookup : gmap string (option DBusMapping))
  : gmap string (option DBusMapping) :=
  let attrName := attribute_name jsonEntry in
  let dBusMap :=
    match dbus jsonEntry with
    | Some dBusEntry =>
        if negb (String.eqb (object_path dBusEntry) "")
           && negb (String.eqb (interface_name dBusEntry) "")
           && negb (String.eqb (property_name dBusEntry) "")
        then Some (mkDBusMapping (object_path dBusEntry)
                     (interface_name dBusEntry) (property_name dBusEntry))
        else None
    | None => None
    end in
  map_emplace attrName dBusMap lookup.

(** [setupBIOSType]: the handler of [BIOSTypeHandlers] for the file runs
    and its return code is dropped. *)
Definition setupBIOSType (jsonName : string) (entry : Entry) (r : Registry)
  : option (Z * Registry) :=
  if String.eqb jsonName bIOSEnumJson then
    '(_, r') ← enum_setup entry r; Some (0, r')
  else if String.eqb jsonName bIOSStrJson then
    Some (0, snd (string_setup entry r))
  else if String.eqb jsonName bIOSIntegerJson then
    Some (0, snd (integer_setup entry r))
  else Some (0, r).

(** The inner loop of [setupConfig] over the entries of one file. *)
Fixpoint setupEntries (jsonName : string) (entries : list Entry)
    (r : Registry) : option Registry :=
  match entries with
  | [] => Some r
  | entry :: rest =>
      let r1 :=
        set_strings (setupBIOSStrings jsonName entry (BIOSStrings r)) r in
      let r2 :=
        set_lookup (setupBIOSAttrLookup entry (BIOSAttrLookup r1)) r1 in
      '(_, r3) ← setupBIOSType jsonName entry r2;
      setupEntries jsonName rest r3
  end.

(** The outer loop of [setupConfig] over [BIOSConfigFiles]. *)
Fixpoint setupFiles (d : Dir) (names : list string) (r : Registry)
  : option Registry :=
  match names with
  | [] => Some r
  | jsonName :: rest =>
      match dir_entries d jsonName with
      | None => setupFiles d rest r
      | Some entries =>
          r' ← setupEntries jsonName entries r;
          setupFiles d rest r'
      end
  end.

(** [setupConfig]: the return code and the globals afterwards. *)
Definition setupConfig (d : Dir) (r : Registry) : option (Z * Registry) :=
  if negb (bool_decide (BIOSStrings r = []))
     && negb (bool_decide (BIOSAttrLookup r = ∅))
  then Some (0, r)
  else if negb (dir_exists d) || dir_is_empty d then Some (-1, r)
  else
    r' ← setupFiles d BIOSConfigFiles r;
    if bool_decide (BIOSStrings r' = []) then Some (-1, r')
    else Some (0, r').

End Registry.

(** ** Reading attribute values *)

(** [DBusHandler().getDbusPropertyVariant] and [getDbusProperty], given
    the object path, the property name and the interface. *)
Class DBus {types : Types} := {
  getDbusPropertyVariant : string -> string -> string -> PropertyValue;
  getDbusProperty_string : string -> string -> string -> string;
  getDbusProperty_uint64 : string -> string -> string -> Z
}.

Section AttrValues.

Context {types : Types} {env : Env} {bus : DBus}.

(** [find] on the [std::map] from property values to strings. *)
Fixpoint assoc_find (k : PropertyValue) (m : list (PropertyValue * string))
  : option string :=
  match m with
  | [] => None
  | (k', v) :: m' => if decide (k' = k) then Some v else assoc_find k m'
  end.

(** [bios_enum::getAttrValue]; [None] stands for the [std::out_of_range]
    of [std::map::at]. *)
Definition enum_getAttrValue (attrName : string) (r : Registry)
  : option (list string) :=
  dBusMap ← BIOSAttrLookup r !! attrName;
  match dBusMap with
  | None =>
      valueEntry ← enum_valueMap r !! attrName;
      let '(readOnly, possibleValues, currentValues) := valueEntry in
      Some currentValues
  | Some m =>
      dbusValToValMap ← enum_dbusValToValMaps r !! attrName;
      let propValue :=
        getDbusPropertyVariant (objectPath m) (propertyName m)
          (interface m) in
      match assoc_find propValue dbusValToValMap with
      | Some v => Some [v]
      | None => Some []
      end
  end.

(** [bios_string::getAttrValue] *)
Definition string_getAttrValue (attrName : string) (r : Registry)
  : option string :=
  dBusMap ← BIOSAttrLookup r !! attrName;
  match dBusMap with
  | None =>
      valueEntry ← string_valueMap r !! attrName;
      Some valueEntry.2
  | Some m =>
      Some (getDbusProperty_string (objectPath m) (propertyName m)
              (interface m))
  end.

(** [bios_integer::getAttrValue] *)
Definition integer_getAttrValue (attrName : string) (r : Registry)
  : option Z :=
  dBusMap ← BIOSAttrLookup r !! attrName;
  match dBusMap with
  | None =>
      valueEntry ← integer_valueMap r !! attrName;
      Some valueEntry.2
  | Some m =>
      Some (getDbusProperty_uint64 (objectPath m) (propertyName m)
              (interface m))
  end.

End AttrValues.

End BiosParser.

(** * A concrete environment

    The values libpldm gives the constants, a small queue bound, the
    bitwise CRC-32 (reflected polynomial [0xEDB88320], initial value and
    final complement [0xFFFFFFFF]), decoders that read the fields at
    their wire offsets, and a repository kept as a list; used to run the
    model on inputs. *)

Module Example.

Fixpoint crc_shift (n : nat) (c : Z) : Z :=
  match n with
  | O => c
  | S n' =>
      crc_shift n'
        (if Z.testbit c 0 then Z.lxor (Z.shiftr c 1) 0xEDB88320
         else Z.shiftr c 1)
  end.

Definition crc32_ieee (bytes : list Z) : Z :=
  Z.lxor
    (fold_left (fun c b => crc_shift 8 (Z.lxor c b)) bytes 0xFFFFFFFF)
    0xFFFFFFFF.

Definition poller_env : Poller.Env := {|
  Poller.MAX_QUEUE_SIZE := 2;
  Poller.PLDM_SUCCESS := 0;
  Poller.PLDM_START := 0x01;
  Poller.PLDM_MIDDLE := 0x02;
  Poller.PLDM_END := 0x04;
  Poller.PLDM_START_AND_END := 0x05;
  Poller.PLDM_GET_FIRSTPART := 0x01;
  Poller.PLDM_GET_NEXTPART := 0x00;
  Poller.PLDM_ACKNOWLEDGEMENT_ONLY := 0x02;
  Poller.crc32 := crc32_ieee
|}.

(** Handlers are known by a name. *)
Definition named : Poller.Handlers := string.

#[local] Existing Instance poller_env.
#[local] Existing Instance named.

(** The poller right after [reset()], with one handler registered for
    event class 5. *)
Definition idle : @Poller.State named :=
  Poller.registerEventHandler (handlers := named) 5 "class5"%string
    (Poller.mkState (handlers := named) false false false false
       (Poller.mkReq 0 0 0) (Poller.mkRecv 0 0 []) [] 0 ∅ false false).

(** A successfully decoded response. *)
Definition resp (evid next flag cls : Z) (bytes : list Z) (chk : Z)
  : Poller.PollResp :=
  Poller.mkResp 0 1 evid next flag cls bytes chk.

(** The normal timer fires and the poll request goes out. *)
Definition polling : @Poller.State named :=
  snd (Poller.pollEventReqCb 7 0 0 (Poller.normalEventCb idle)).

(** Event [0x1234] is queued, the critical timer fires and the poll
    request goes out. *)
Definition polling_critical : @Poller.State named :=
  snd (Poller.pollEventReqCb 7 0 0
         (Poller.criticalEventCb
            (snd (Poller.enqueueCriticalEvent 0x1234 idle)))).

(** Parts of event 5 of class 5: a START part whose next handle is the
    number of bytes sent, an END part with the CRC-32 of [AA BB CC DD],
    and an END part with a wrong checksum. *)
Definition start_AB : Z * Poller.PollResp :=
  (7, resp 5 2 0x01 5 [0xAA; 0xBB] 0).
Definition end_CD : Z * Poller.PollResp :=
  (8, resp 5 0 0x04 5 [0xCC; 0xDD] (crc32_ieee [0xAA; 0xBB; 0xCC; 0xDD])).
Definition end_CD_bad : Z * Poller.PollResp :=
  (8, resp 5 0 0x04 5 [0xCC; 0xDD] 0).

(** A START part whose next handle is 1 although two bytes were sent,
    and the END part that follows with the CRC-32 of the buffer as the
    poller builds it. *)
Definition start_AB_cursor1 : Z * Poller.PollResp :=
  (7, resp 5 1 0x01 5 [0xAA; 0xBB] 0).
Definition end_CD_cursor1 : Z * Poller.PollResp :=
  (8, resp 5 0 0x04 5 [0xCC; 0xDD] (crc32_ieee [0xAA; 0xCC; 0xDD; 0xBB])).

(** A second START part of the same event. *)
Definition start_C : Z * Poller.PollResp :=
  (8, resp 5 1 0x01 5 [0xCC] 0).

(** A single-part event. *)
Definition single_123 : Poller.PollResp :=
  resp 9 0 0x05 5 [0x01; 0x02; 0x03] 0.

(** The response that ends polling. *)
Definition terminate : Poller.PollResp := resp 0xffff 0 0 0 [] 0.

(** The normal poll has received the START part and asked for the next
    part. *)
Definition awaiting_next : @Poller.State named :=
  match Poller.exchange start_AB (Poller.normalEventCb idle) with
  | Some (_, s) => snd (Poller.pollEventReqCb 8 0 0 s)
  | None => idle
  end.

(** A normal transfer is under way while the critical queue holds
    [0x1234]. *)
Definition polling_queued : @Poller.State named :=
  snd (Poller.enqueueCriticalEvent 0x1234 polling).

(** *** The responder *)

(** Little-endian fields of a payload. *)
Definition byte_at (bytes : list Z) (i : nat) : Z := nth i bytes 0.

Definition le16 (bytes : list Z) (i : nat) : Z :=
  byte_at bytes i + 2 ^ 8 * byte_at bytes (i + 1).

Definition le32 (bytes : list Z) (i : nat) : Z :=
  le16 bytes i + 2 ^ 16 * le16 bytes (i + 2).

(** A repository kept as a list of records: handle and bytes. *)
Fixpoint find_record (repo : list (Z * list Z)) (handle : Z)
  : option Platform.PdrEntry :=
  match repo with
  | [] => None
  | (h, bytes) :: rest =>
      if h =? handle
      then Some (Platform.mkEntry bytes
                   (match rest with
                    | [] => 0
                    | (h', _) :: _ => h'
                    end))
      else find_record rest handle
  end.

Definition platform_types : Platform.Types := {|
  Platform.Repo := list (Z * list Z);
  Platform.World := list string
|}.

#[local] Existing Instance platform_types.

Definition platform_env : Platform.Env (types := platform_types) := {|
  Platform.PLDM_SUCCESS := 0x00;
  Platform.PLDM_ERROR := 0x01;
  Platform.PLDM_ERROR_INVALID_DATA := 0x02;
  Platform.PLDM_ERROR_INVALID_LENGTH := 0x03;
  Platform.PLDM_ERROR_NOT_READY := 0x04;
  Platform.PLDM_PLATFORM_INVALID_RECORD_HANDLE := 0x82;
  Platform.PLDM_GET_PDR_REQ_BYTES := 13;
  Platform.PLDM_START_AND_END := 0x05;
  Platform.PLDM_PLATFORM := 0x02;
  Platform.PLDM_GET_PDR := 0x51;
  Platform.PLDM_PLATFORM_EVENT_MESSAGE := 0x0A;
  Platform.PLDM_EVENT_NO_LOGGING := 0x00;
  Platform.PLDM_HEARTBEAT_TIMER_ELAPSED_EVENT := 0x06;
  Platform.PLDM_STATE_SENSOR_STATE := 0x01;
  Platform.PLDM_NUMERIC_SENSOR_STATE := 0x02;
  Platform.PLDM_TID_RESERVED := 0xFF;
  Platform.getRecordByHandle := find_record;
  Platform.buildFRUTable := fun repo => repo;
  Platform.generateTerminusLocatorPDR := fun repo => repo;
  Platform.generate := fun repo => repo;
  Platform.buildOEMPDR := fun repo => repo;
  Platform.decode_get_pdr_req := fun msg len =>
    let p := Platform.payload msg in
    (if len =? 13 then 0x00 else 0x03,
     Platform.mkGetPdrReq (le32 p 0) (le32 p 4) (byte_at p 8) (le16 p 9)
       (le16 p 11));
  Platform.decode_platform_event_message_req := fun msg len =>
    let p := Platform.payload msg in
    (if len <=? 3 then 0x03 else 0x00,
     Platform.mkEventMsgReq (byte_at p 0) (byte_at p 1) (byte_at p 2) 3);
  Platform.decode_sensor_event_data := fun bytes len =>
    (if len <? 5 then 0x03 else 0x00,
     Platform.mkSensorEventData (le16 bytes 0) (byte_at bytes 2) 3);
  Platform.decode_state_sensor_data := fun bytes len =>
    (if len =? 3 then 0x00 else 0x03,
     Platform.mkStateSensorData (byte_at bytes 0) (byte_at bytes 1)
       (byte_at bytes 2));
  Platform.decode_numeric_sensor_data := fun bytes len =>
    (if len <? 4 then 0x03 else 0x00,
     Platform.mkNumericSensorData (byte_at bytes 0) (byte_at bytes 1)
       (byte_at bytes 2) (byte_at bytes 3));
  Platform.resetWatchDogTimer := fun w => w ++ ["watchdog"%string];
  Platform.handleStateSensorEvent := fun _ _ => 0x00
|}.

#[local] Existing Instance platform_env.

(** Handlers that log their name and return success, or the given
    code. *)
Definition ok_handler (name : string)
  : Platform.EventHandler (types := platform_types) :=
  fun _ _ _ _ _ w => (Platform.Ret 0x00, w ++ [name]).

Definition failing_handler (name : string) (code : Z)
  : Platform.EventHandler (types := platform_types) :=
  fun _ _ _ _ _ w => (Platform.Ret code, w ++ [name]).

(** A repository of two small records and one of 65536 bytes. *)
Definition repo3 : list (Z * list Z) :=
  [(1, [0x10; 0x11; 0x12; 0x13; 0x14]); (2, [0x20; 0x21]);
   (3, List.repeat 0x33 (Z.to_nat 65536))].

(** A responder whose repository is built, without host or OEM
    handler; class 0 has three handlers, the second of which fails, and
    the heartbeat class has a failing handler of its own. *)
Definition responder : Platform.Handler (types := platform_types) :=
  Platform.mkHandler (types := platform_types) None None false true repo3
    (<[0x06 := [failing_handler "heartbeat" 0x01]]>
       (<[0x00 := [ok_handler "first"; failing_handler "second" 0x02;
                   ok_handler "third"]]>
          (<[0x05 := [ok_handler "poll"; ok_handler "script"]]> ∅))).

(** The same responder while the host is up and the OEM handler reports
    that the BMC is not ready. *)
Definition responder_not_ready : Platform.Handler (types := platform_types) :=
  Platform.mkHandler (types := platform_types)
    (Some (Platform.mkHost true ∅))
    (Some (Platform.mkOem 0x04)) false true repo3 ∅.

(** A responder with a host PDR handler whose sensor map knows sensor 9
    of terminus 1 only. *)
Definition responder_with_host : Platform.Handler (types := platform_types) :=
  Platform.mkHandler (types := platform_types)
    (Some (Platform.mkHost false
             {[ (1, 9) :=
                  Platform.mkSensorInfo (Platform.mkEntityInfo 0 67 1)
                    [ {[ 1; 2 ]} ] ]}))
    None false true repo3 ∅.

(** GetPDR requests: instance id 3, record handle, request count. *)
Definition getPDR_req (handle count : Z) : Platform.pldm_msg :=
  Platform.mkMsg 3 0x02 0x51
    [handle mod 256; handle / 256; 0; 0; 0; 0; 0; 0; 0x01;
     count mod 256; count / 256; 0; 0].

(** PlatformEventMessage requests: instance id 4, TID 1, the class and
    the event data. *)
Definition event_req (cls : Z) (event_data : list Z) : Platform.pldm_msg :=
  Platform.mkMsg 4 0x02 0x0A ([0x01; 0x01; cls] ++ event_data).

(** A state sensor event of sensor [sid]: offset 0, state 2, previous
    state 1. *)
Definition state_sensor_event (sid : Z) : Platform.pldm_msg :=
  event_req 0x00 [sid; 0; 0x01; 0x00; 0x02; 0x01].

(** *** The BIOS registry *)

Definition bios_types : BiosParser.Types := {|
  BiosParser.JsonValue := Z;
  BiosParser.PropertyValue := Z
|}.

#[local] Existing Instance bios_types.

Definition bios_env : BiosParser.Env (types := bios_types) := {|
  BiosParser.PropertyValue_eq_dec := Z.eq_dec;
  BiosParser.defaultPropertyValue := 0;
  BiosParser.convert := fun type v =>
    if String.eqb type "uint8_t" then Some (v mod 256)
    else if String.eqb type "uint16_t" then Some (v mod 65536)
    else None;
  BiosParser.string_info_check := fun _ mn mx dl _ =>
    (mn <=? mx) && (dl <=? mx);
  BiosParser.integer_info_check := fun lo hi step _ =>
    (lo <=? hi) && (0 <? step)
|}.

#[local] Existing Instance bios_env.

Definition enum_entry : BiosParser.Entry (types := bios_types) :=
  BiosParser.mkEntry (types := bios_types) "FWBootSide"
    ["Perm"; "Temp"]%string ["Perm"%string]
    (Some (BiosParser.mkDbusEntry (types := bios_types)
             "/xyz/abc/def" "xyz.openbmc.FWBoot.Side" "Side" "uint8_t"
             [0; 1]))
    "" 0 0 0 "" 0 0 0 0.

Definition string_entry : BiosParser.Entry (types := bios_types) :=
  BiosParser.mkEntry (types := bios_types) "str_example" [] [] None
    "ASCII" 1 100 3 "abc" 0 0 0 0.

(** A directory with an enumeration and a string file; the integer file
    does not parse. *)
Definition bios_dir : BiosParser.Dir (types := bios_types) :=
  BiosParser.mkDir (types := bios_types) true false
    (fun name =>
       if String.eqb name "enum_attrs.json" then Some [enum_entry]
       else if String.eqb name "string_attrs.json" then Some [string_entry]
       else None).

(** Another directory, which does not exist. *)
Definition no_dir : BiosParser.Dir (types := bios_types) :=
  BiosParser.mkDir (types := bios_types) false false (fun _ => None).

(** *** Repository change events, effecters and generators *)

(** The formats and operations as libpldm numbers them, change entries
    of four bytes read in little-endian order, decoders that read the
    two leading bytes, and PDRs told apart by the terminus handle in
    their first byte. *)
Definition chg_env : Platform.ChgEnv (types := platform_types) := {|
  Platform.sizeof_ChangeEntry := 4;
  Platform.ChangeEntry_of_bytes := fun bytes => le32 bytes 0;
  Platform.FORMAT_IS_PDR_TYPES := 0x01;
  Platform.FORMAT_IS_PDR_HANDLES := 0x02;
  Platform.REFRESH_ENTIRE_REPOSITORY := 0x00;
  Platform.PLDM_RECORDS_ADDED := 0x02;
  Platform.PLDM_RECORDS_MODIFIED := 0x03;
  Platform.decode_pldm_pdr_repository_chg_event_data := fun bytes len =>
    (if len <? 2 then 0x03 else 0x00,
     Platform.mkChgEventData (byte_at bytes 0) (byte_at bytes 1) 2);
  Platform.decode_pldm_pdr_repository_change_record_data := fun bytes len =>
    (if len <? 2 then 0x03 else 0x00,
     Platform.mkChangeRecord (byte_at bytes 0) (byte_at bytes 1 mod 256) 2);
  Platform.pldm_pdr_remove_pdrs_by_terminus_handle := fun repo handle =>
    List.filter (fun record => negb (byte_at record.2 0 =? handle)) repo
|}.

#[local] Existing Instance chg_env.

(** A repository change event: the format and the change records. *)
Definition chg_event (format count : Z) (records : list Z)
  : Platform.pldm_msg :=
  event_req 0x04 ([format; count] ++ records).

(** Records added (handles 0x0102 and 3), deleted (handle 9) and
    modified (handle 4). *)
Definition three_records : list Z :=
  [0x02; 2; 0x02; 0x01; 0; 0; 0x03; 0; 0; 0;
   0x01; 1; 0x09; 0; 0; 0;
   0x03; 1; 0x04; 0; 0; 0].

(** The host PDR handler knows terminus handles 1 and 3 of TID 1 and
    terminus handle 2 of TID 5. *)
Definition host_pdrs : Platform.HostPDRs :=
  Platform.mkHostPDRs false
    {[ 3 := (1, 9, 1); 1 := (1, 8, 1); 2 := (5, 10, 1) ]}.

(** Records of terminus handles 1, 2 and 3. *)
Definition host_repo : Platform.Repo (Types := platform_types) :=
  [(10, [1; 0xA0]); (11, [2; 0xB0]); (12, [3; 0xC0]); (13, [1; 0xA1])].

(** State sensor and state effecter PDRs for id 7: the first has an OEM
    entity type, the one behind it another count and no OEM field. *)
Definition effecter_env : Platform.EffecterEnv (types := platform_types) := {|
  Platform.PLDM_OEM_ENTITY_TYPE_START := 24576;
  Platform.PLDM_OEM_ENTITY_TYPE_END := 32767;
  Platform.PLDM_OEM_STATE_SET_ID_START := 32768;
  Platform.PLDM_OEM_STATE_SET_ID_END := 65535;
  Platform.stateSensorPDRs := fun _ =>
    [Platform.mkStateSensorPdr 7 24577 1 2 196;
     Platform.mkStateSensorPdr 7 67 1 8 196];
  Platform.stateEffecterPDRs := fun _ =>
    [Platform.mkStateEffecterPdr 7 24577 1 2 196;
     Platform.mkStateEffecterPdr 7 67 1 8 196];
  Platform.PLDM_SET_STATE_EFFECTER_STATES := 0x39;
  Platform.PLDM_SET_STATE_EFFECTER_STATES_REQ_BYTES := 19;
  Platform.sizeof_set_effecter_state_field := 2;
  Platform.sizeof_union_effecter_data_size := 4;
  Platform.decode_set_state_effecter_states_req := fun msg len =>
    let p := Platform.payload msg in
    (if len <? 5 then 0x03 else 0x00,
     (le16 p 0, byte_at p 2,
      map (fun i => (byte_at p (3 + 2 * i), byte_at p (4 + 2 * i)))
        (seq 0 8)));
  Platform.decode_set_numeric_effecter_value_req := fun msg len =>
    let p := Platform.payload msg in
    (if len <? 4 then 0x03 else 0x00,
     (le16 p 0, byte_at p 2, take 4 (drop 3 p ++ [0; 0; 0; 0])));
  Platform.oemSetStateEffecterStatesHandler := fun _ _ _ _ _ _ w =>
    (0x00, w ++ ["oem"%string]);
  Platform.setStateEffecterStatesHandler := fun _ _ w =>
    (0x00, w ++ ["dbus"%string]);
  Platform.setNumericEffecterValueHandler := fun _ _ _ _ w =>
    (0x00, w ++ ["numeric"%string])
|}.

(** A responder with an OEM platform handler, a SetStateEffecterStates
    request for effecter 7 with two state fields, and
    SetNumericEffecterValue requests of five and of three bytes. *)
Definition oem_responder : Platform.Handler (types := platform_types) :=
  Platform.mkHandler (types := platform_types) None
    (Some (Platform.mkOem 0x00)) false true repo3 ∅.

Definition set_states_req : Platform.pldm_msg :=
  Platform.mkMsg 5 0x02 0x39 [7; 0; 2; 1; 1; 1; 2].

Definition set_numeric_req : Platform.pldm_msg :=
  Platform.mkMsg 5 0x02 0x31 [7; 0; 0; 9; 0].

Definition short_numeric_req : Platform.pldm_msg :=
  Platform.mkMsg 5 0x02 0x31 [7; 0; 0].

(** Generators that note what they were given, and fail on the entry
    named ["broken"]; the PDR types as libpldm numbers them. *)
Definition note (kind : string) (entry : Z * string) (g : list string)
  : list string * bool :=
  (g ++ [String.append kind entry.2], String.eqb entry.2 "broken").

Definition generators
  : Platform.Generators (Json := Z * string) (Gen := list string) := {|
  Platform.PLDM_STATE_EFFECTER_PDR := 11;
  Platform.PLDM_NUMERIC_EFFECTER_PDR := 9;
  Platform.PLDM_STATE_SENSOR_PDR := 4;
  Platform.pdrTypeOf := fst;
  Platform.generateStateEffecterPDR := note "effecter:";
  Platform.generateNumericEffecterPDR := note "numeric:";
  Platform.generateStateSensorPDR := note "sensor:"
|}.

(** *** Reading BIOS attributes *)

(** Every D-Bus property reads 1, ["one"] or 11. *)
Definition bios_dbus : BiosParser.DBus (types := bios_types) := {|
  BiosParser.getDbusPropertyVariant := fun _ _ _ => 1;
  BiosParser.getDbusProperty_string := fun _ _ _ => "one"%string;
  BiosParser.getDbusProperty_uint64 := fun _ _ _ => 11
|}.

(** A read-only enumeration entry, a second entry of its name, a string
    entry of a type [strTypeMap] does not know, and an integer entry. *)
Definition readonly_entry : BiosParser.Entry (types := bios_types) :=
  BiosParser.mkEntry (types := bios_types) "CodeUpdatePolicy"
    ["Concurrent"; "Disruptive"]%string ["Concurrent"%string] None
    "" 0 0 0 "" 0 0 0 0.

Definition shadowed_entry : BiosParser.Entry (types := bios_types) :=
  BiosParser.mkEntry (types := bios_types) "CodeUpdatePolicy"
    ["Never"]%string ["Never"%string] None "" 0 0 0 "" 0 0 0 0.

Definition utf16be_entry : BiosParser.Entry (types := bios_types) :=
  BiosParser.mkEntry (types := bios_types) "str_utf16be" [] [] None
    "UTF-16BE" 1 100 2 "ab" 0 0 0 0.

Definition integer_entry : BiosParser.Entry (types := bios_types) :=
  BiosParser.mkEntry (types := bios_types) "VDD_AVSBUS_RAIL" [] [] None
    "" 0 0 0 "" 0 15 1 (2 ^ 64 + 3).

Definition bios_dir2 : BiosParser.Dir (types := bios_types) :=
  BiosParser.mkDir (types := bios_types) true false
    (fun name =>
       if String.eqb name "enum_attrs.json"
       then Some [enum_entry; readonly_entry; shadowed_entry]
       else if String.eqb name "string_attrs.json"
       then Some [string_entry; utf16be_entry]
       else if String.eqb name "integer_attrs.json"
       then Some [integer_entry]
       else None).

End Example.

(** * Notions used in the statements *)

Section PollerNotions.

Context {env : Poller.Env} {handlers : Poller.Handlers}.
Import Poller.

(** The four transfer flags are different values. *)
Definition flags_distinct : Prop :=
  NoDup [PLDM_START; PLDM_MIDDLE; PLDM_END; PLDM_START_AND_END].

(** The response is dropped: it does not decode, carries a reserved
    Event ID, or carries another Event ID than the one being
    reassembled. *)
Definition dropped (r : PollResp) (s : State) : Prop :=
  rc r <> PLDM_SUCCESS \/
  retEventId r = 0 \/
  retEventId r = 0xffff \/
  (eventIdToAck (reqData s) <> 0
   /\ retEventId r <> eventIdToAck (reqData s)).

(** The response decodes and carries the Event ID [evid], which is not
    reserved and is the one the poller waits for, if it waits for one. *)
Definition accepted (evid : Z) (r : PollResp) (s : State) : Prop :=
  rc r = PLDM_SUCCESS /\
  retEventId r = evid /\
  0 < evid < 0xffff /\
  (eventIdToAck (reqData s) = 0 \/ eventIdToAck (reqData s) = evid).

(** The receive buffer is empty. *)
Definition buffer_discarded (s : State) : Prop :=
  data (recvData s) = [] /\ totalSize (recvData s) = 0.

(** Every flag of the poller is off. *)
Definition all_flags_off (s : State) : Prop :=
  isProcessPolling s = false /\ isPolling s = false /\
  responseReceived s = false /\ isCritical s = false.

(** The state after [pollEventReqCb] has sent a request under instance
    id [iid]. *)
Definition sent (iid : Z) (s : State) : State :=
  mkState true true false (isCritical s) (reqData s) (recvData s)
    (critEventQueue s) iid (eventHndls s) (pollEventReqTimer s) true.

Definition is_invocation (e : Effect) : bool :=
  match e with
  | InvokeHandler _ _ _ _ _ => true
  | _ => false
  end.

(** The handler calls among the effects, in order. *)
Definition invocations (es : list Effect) : list Effect :=
  List.filter is_invocation es.

(** The call the poller makes for a complete event, if a handler is
    registered for its class. *)
Definition delivery (s : State) (r : PollResp) (bytes : list Z)
  : list Effect :=
  match eventHndls s !! retEventClass r with
  | Some h =>
      [InvokeHandler h (retTid r) (retEventClass r) (retEventId r) bytes]
  | None => []
  end.

(** The payloads of a run of responses, one after the other. *)
Definition payloads (xs : list (Z * PollResp)) : list Z :=
  concat (map (fun x => retEventData (snd x)) xs).

(** [xs] are MIDDLE parts of event [evid] whose cursors continue at
    [off]: each part returns as next handle the number of bytes
    transferred so far. *)
Fixpoint middle_parts (evid off : Z) (xs : list (Z * PollResp)) : Prop :=
  match xs with
  | [] => True
  | x :: xs' =>
      rc (snd x) = PLDM_SUCCESS /\
      retEventId (snd x) = evid /\
      retTransferFlag (snd x) = PLDM_MIDDLE /\
      retNextDataTransferHandle (snd x) = off + retEventDataSize (snd x) /\
      middle_parts evid (off + retEventDataSize (snd x)) xs'
  end.

End PollerNotions.

Section PlatformNotions.

Context {types : Platform.Types} {env : Platform.Env}.
Import Platform.

(** The handlers of [hs] run one after the other from world [w], each
    returns [PLDM_SUCCESS], and the last leaves world [w']. *)
Inductive chain_succeeds (request : pldm_msg) (payloadLength : Z)
    (req : EventMsgReq) : list EventHandler -> World -> World -> Prop :=
| chain_done (w : World) :
    chain_succeeds request payloadLength req [] w w
| chain_next (hd : EventHandler) (hs : list EventHandler)
    (w w1 w2 : World) :
    hd request payloadLength (formatVersion req) (req_tid req)
      (eventDataOffset req) w = (Ret PLDM_SUCCESS, w1) ->
    chain_succeeds request payloadLength req hs w1 w2 ->
    chain_succeeds request payloadLength req (hd :: hs) w w2.

(** The success response of [platformEventMessage]. *)
Definition event_success (request : pldm_msg) : Response :=
  mkResponse (instance_id request) PLDM_PLATFORM PLDM_PLATFORM_EVENT_MESSAGE
    PLDM_SUCCESS (PlatformEventBody PLDM_EVENT_NO_LOGGING).

(** The record bytes carried by a response. *)
Definition record_bytes (r : Response) : list Z :=
  match body r with
  | GetPdrBody _ _ _ _ bytes _ => bytes
  | _ => []
  end.

End PlatformNotions.

Section BiosNotions.

Context {types : BiosParser.Types} {env : BiosParser.Env}.
Import BiosParser.

(** The registry is populated: this is what the guard at the head of
    [setupConfig] tests. *)
Definition populated (r : Registry) : Prop :=
  BIOSStrings r <> [] /\ BIOSAttrLookup r <> ∅.

(** Strings are only ever recorded together with a lookup entry. *)
Definition consistent (r : Registry) : Prop :=
  BIOSStrings r <> [] -> BIOSAttrLookup r <> ∅.

End BiosNotions.

(** ** The event loop of the poller *)

Section PollerLoop.

Context {env : Poller.Env} {handlers : Poller.Handlers}.
Import Poller.

(** What one turn of the event loop can run: a timer callback, the
    arrival of a response, the poll timeout, or a call from outside. *)
Inductive Turn :=
| NormalTimer
| CriticalTimer
| PollRequestTimer (iid encode_rc register_rc : Z)
| ResponseArrives (r : PollResp)
| PollTimeout
| EnqueueCritical (item : Z)
| RegisterHandler (cls : Z) (f : HandlerFunc).

Definition turn (t : Turn) (s : State) : option State :=
  match t with
  | NormalTimer => Some (normalEventCb s)
  | CriticalTimer => Some (criticalEventCb s)
  | PollRequestTimer iid encode_rc register_rc =>
      Some (snd (pollEventReqCb iid encode_rc register_rc s))
  | ResponseArrives r => snd <$> processResponseMsg r s
  | PollTimeout => Some (snd (pollReqTimeoutHdl s))
  | EnqueueCritical item => Some (snd (enqueueCriticalEvent item s))
  | RegisterHandler cls f => Some (registerEventHandler cls f s)
  end.

Fixpoint turns (ts : list Turn) (s : State) : option State :=
  match ts with
  | [] => Some s
  | t :: ts' => s1 ← turn t s; turns ts' s1
  end.

(** While a request is outstanding a transfer is in progress and no
    response has been seen, and [totalSize] is the length of the receive
    buffer as a 32-bit number. *)
Definition coherent (s : State) : Prop :=
  (isPolling s = true ->
   isProcessPolling s = true /\ responseReceived s = false) /\
  totalSize (recvData s) = wrap 32 (Z.of_nat (length (data (recvData s)))).

(** The critical queue holds no Event ID twice and at most
    [MAX_QUEUE_SIZE + 1] of them. *)
Definition queue_ok (s : State) : Prop :=
  NoDup (critEventQueue s) /\
  (length (critEventQueue s) <= MAX_QUEUE_SIZE + 1)%nat.

(** The Event IDs the critical timer callback takes up when it fires [n]
    times in a row. *)
Fixpoint served (n : nat) (s : State) : list Z :=
  match n with
  | O => []
  | S n' =>
      eventIdToAck (reqData (criticalEventCb s))
      :: served n' (criticalEventCb s)
  end.

End PollerLoop.

(** ** Change records of a repository change event *)

Section ChangeNotions.

Context {types : Platform.Types} {env : Platform.Env}
        {chg : Platform.ChgEnv}.
Import Platform.

(** The first [n] change entries stored at [mem]. *)
Definition entriesOf (mem : list Z) (n : nat) : list Z :=
  map (fun i =>
         ChangeEntry_of_bytes
           (take sizeof_ChangeEntry (drop (i * sizeof_ChangeEntry) mem)))
    (seq 0 n).

(** The decoder reads the [size] bytes at [mem] as the change records
    [recs], one behind the other and within the message; a record is
    given by its operation and its change entries. *)
Inductive changeRecordsOf : list Z -> Z -> list (Z * list Z) -> Prop :=
| no_change_record (mem : list Z) : changeRecordsOf mem 0 []
| next_change_record (mem : list Z) (size : Z) (rec : ChangeRecord)
    (recs : list (Z * list Z)) :
    0 < size <= Z.of_nat (length mem) ->
    size < 2 ^ 64 ->
    decode_pldm_pdr_repository_change_record_data mem size
    = (PLDM_SUCCESS, rec) ->
    0 <= rec_dataOffset rec ->
    0 <= numberOfChangeEntries rec ->
    rec_dataOffset rec
    + numberOfChangeEntries rec * Z.of_nat sizeof_ChangeEntry <= size ->
    changeRecordsOf
      (drop (Z.to_nat (rec_dataOffset rec
                       + numberOfChangeEntries rec
                         * Z.of_nat sizeof_ChangeEntry)) mem)
      (size - (rec_dataOffset rec
               + numberOfChangeEntries rec * Z.of_nat sizeof_ChangeEntry))
      recs ->
    changeRecordsOf mem size
      ((eventDataOperation rec,
        entriesOf (drop (Z.to_nat (rec_dataOffset rec)) mem)
          (Z.to_nat (numberOfChangeEntries rec))) :: recs).

(** The change entries of the records that add or modify PDRs. *)
Definition changedHandles (recs : list (Z * list Z)) : list Z :=
  flat_map (fun r =>
              if (r.1 =? PLDM_RECORDS_ADDED) || (r.1 =? PLDM_RECORDS_MODIFIED)
              then r.2 else [])
    recs.

Definition anyModified (recs : list (Z * list Z)) : bool :=
  existsb (fun r => r.1 =? PLDM_RECORDS_MODIFIED) recs.

(** The host PDR handler after the records: marked as modified when one
    of them modifies PDRs. *)
Definition markModified (recs : list (Z * list Z)) (hs : HostPDRs)
  : HostPDRs :=
  if anyModified recs then mkHostPDRs true (tlPDRInfo hs) else hs.

End ChangeNotions.

(** ** What a configuration directory holds *)

Section RegistryNotions.

Context {types : BiosParser.Types} {env : BiosParser.Env}.
Import BiosParser.

(** The entries of the directory in the order [setupConfig] takes them
    up, each with the name of its file. *)
Definition processed (d : Dir) : list (string * Entry) :=
  flat_map (fun jsonName =>
              map (pair jsonName) (default [] (dir_entries d jsonName)))
    BIOSConfigFiles.

(** The strings an entry contributes: its attribute name and, in the
    enumeration file, its possible values. *)
Definition entryStrings (x : string * Entry) : list string :=
  attribute_name x.2
  :: (if String.eqb x.1 bIOSEnumJson then possible_values x.2 else []).

(** The D-Bus mapping of an entry: its ["dbus"] object, if it names an
    object path, an interface and a property. *)
Definition dBusMapOf (e : Entry) : option DBusMapping :=
  match dbus e with
  | Some dBusEntry =>
      if negb (String.eqb (object_path dBusEntry) "")
         && negb (String.eqb (interface_name dBusEntry) "")
         && negb (String.eqb (property_name dBusEntry) "")
      then Some (mkDBusMapping (object_path dBusEntry)
                   (interface_name dBusEntry) (property_name dBusEntry))
      else None
  | None => None
  end.


(** [bios_string::setup] and [bios_integer::setup] accept the entry. *)
Definition stringAccepted (e : Entry) : bool :=
  match strTypeMap !! string_type e with
  | Some strType =>
      string_info_check strType (wrap 16 (minimum_string_length e))
        (wrap 16 (maximum_string_length e))
        (wrap 16 (default_string_length e)) (default_string e)
  | None => false
  end.

Definition integerAccepted (e : Entry) : bool :=
  integer_info_check (wrap 64 (lower_bound e)) (wrap 64 (upper_bound e))
    (wrap 32 (scalar_increment e)) (wrap 64 (default_value e)).

(** The loop body of [setupConfig] for one entry, and the whole loop
    over a list of entries with their file names. *)
Definition setupEntry (x : string * Entry) (r : Registry)
  : option Registry :=
  let r1 := set_strings (setupBIOSStrings x.1 x.2 (BIOSStrings r)) r in
  let r2 := set_lookup (setupBIOSAttrLookup x.2 (BIOSAttrLookup r1)) r1 in
  '(_, r3) ← setupBIOSType x.1 x.2 r2;
  Some r3.

Fixpoint setupAll (xs : list (string * Entry)) (r : Registry)
  : option Registry :=
  match xs with
  | [] => Some r
  | x :: rest => r' ← setupEntry x r; setupAll rest r'
  end.

End RegistryNotions.

(** * Properties of the poller *)

Section PollerProperties.

Context {env : Poller.Env} {handlers : Poller.Handlers}.
Import Poller.

Lemma queue_has_In (item : Z) (q : list Z) :
  queue_has item q = true <-> In item q.
Proof.
  induction q as [|i q IH]; simpl.
  - split; [discriminate | tauto].
  - destruct (Z.eqb_spec i item) as [->|Hne].
    + split; auto.
    + rewrite IH. split; [auto | intros [H|H]; [contradiction | exact H]].
Qed.

Lemma queue_has_not_In (item : Z) (q : list Z) :
  queue_has item q = false <-> ~ In item q.
Proof.
  rewrite <- queue_has_In. destruct (queue_has item q); split; congruence.
Qed.

Lemma enqueue_full (item : Z) (q : list Z) :
  (MAX_QUEUE_SIZE < length q)%nat -> enqueue item q = (-1, q).
Proof.
  intros H. unfold enqueue.
  destruct (Nat.ltb_spec MAX_QUEUE_SIZE (length q)); [reflexivity | lia].
Qed.

Lemma enqueue_duplicate (item : Z) (q : list Z) :
  (length q <= MAX_QUEUE_SIZE)%nat -> In item q ->
  enqueue item q = (-2, q).
Proof.
  intros Hlen Hin. unfold enqueue.
  destruct (Nat.ltb_spec MAX_QUEUE_SIZE (length q)); [lia |].
  apply queue_has_In in Hin. rewrite Hin. reflexivity.
Qed.

Lemma enqueue_ok (item : Z) (q : list Z) :
  (length q <= MAX_QUEUE_SIZE)%nat -> ~ In item q ->
  enqueue item q = (0, q ++ [item]).
Proof.
  intros Hlen Hin. unfold enqueue.
  destruct (Nat.ltb_spec MAX_QUEUE_SIZE (length q)); [lia |].
  apply queue_has_not_In in Hin. rewrite Hin. reflexivity.
Qed.

Lemma enqueue_bound (item : Z) (q : list Z) :
  (length q <= MAX_QUEUE_SIZE + 1)%nat ->
  (length (snd (enqueue item q)) <= MAX_QUEUE_SIZE + 1)%nat.
Proof.
  intros Hlen. unfold enqueue.
  destruct (Nat.ltb_spec MAX_QUEUE_SIZE (length q)); [exact Hlen |].
  destruct (queue_has item q); simpl; [lia |].
  rewrite length_app; simpl; lia.
Qed.

Lemma enqueueCriticalEvent_unfold (item : Z) (s : State) :
  fst (enqueueCriticalEvent item s) = fst (enqueue item (critEventQueue s))
  /\ critEventQueue (snd (enqueueCriticalEvent item s))
     = snd (enqueue item (critEventQueue s)).
Proof.
  unfold enqueueCriticalEvent.
  destruct (enqueue item (critEventQueue s)); split; reflexivity.
Qed.

(** C2: [enqueueCriticalEvent] returns -1 (Full) when the queue holds
    more than [MAX_QUEUE_SIZE] entries; otherwise it returns -2
    (Duplicate) when the Event ID is already queued; otherwise it returns
    0 (Ok) and the Event ID is appended at the tail.  A queue of exactly
    [MAX_QUEUE_SIZE] entries still accepts a new Event ID, so the queue
    grows to [MAX_QUEUE_SIZE + 1] entries and never beyond. *)
Theorem enqueueCriticalEvent_spec (item : Z) (s : State) :
  let r := fst (enqueueCriticalEvent item s) in
  let q := critEventQueue s in
  let q' := critEventQueue (snd (enqueueCriticalEvent item s)) in
  ((MAX_QUEUE_SIZE < length q)%nat -> r = -1 /\ q' = q) /\
  ((length q <= MAX_QUEUE_SIZE)%nat -> In item q -> r = -2 /\ q' = q) /\
  ((length q <= MAX_QUEUE_SIZE)%nat -> ~ In item q ->
     r = 0 /\ q' = q ++ [item]) /\
  (length q = MAX_QUEUE_SIZE -> ~ In item q ->
     r = 0 /\ length q' = (MAX_QUEUE_SIZE + 1)%nat) /\
  ((length q <= MAX_QUEUE_SIZE + 1)%nat ->
     (length q' <= MAX_QUEUE_SIZE + 1)%nat).
Proof.
  intros r q q'.
  destruct (enqueueCriticalEvent_unfold item s) as [Hr Hq].
  subst r q q'. rewrite Hr, Hq.
  repeat split.
  - rewrite enqueue_full by assumption; reflexivity.
  - rewrite enqueue_full by assumption; reflexivity.
  - rewrite enqueue_duplicate by assumption; reflexivity.
  - rewrite enqueue_duplicate by assumption; reflexivity.
  - rewrite enqueue_ok by assumption; reflexivity.
  - rewrite enqueue_ok by assumption; reflexivity.
  - rewrite enqueue_ok by (try lia; assumption); reflexivity.
  - rewrite enqueue_ok by (try lia; assumption).
    simpl. rewrite length_app. simpl. lia.
  - apply enqueue_bound.
Qed.

(** ** The timer callbacks *)

Lemma pollEventReqCb_keeps_transfer (iid erc rrc : Z) (s : State) :
  isProcessPolling s = true ->
  isProcessPolling (snd (pollEventReqCb iid erc rrc s)) = true.
Proof.
  intros H. unfold pollEventReqCb.
  repeat match goal with |- context [if ?c then _ else _] => destruct c end;
    simpl; auto.
Qed.

Lemma land_u16 (x : Z) : 0 <= x < 2 ^ 16 -> Z.land x 0xffff = x.
Proof.
  intros H. change 0xffff with (Z.ones 16).
  rewrite Z.land_ones by lia. apply Z.mod_small. lia.
Qed.

Lemma land_u32 (x : Z) : 0 <= x < 2 ^ 32 -> Z.land x 0xffffffff = x.
Proof.
  intros H. change 0xffffffff with (Z.ones 32).
  rewrite Z.land_ones by lia. apply Z.mod_small. lia.
Qed.

Lemma processResponseMsg_accepted (evid : Z) (r : PollResp) (s : State) :
  accepted evid r s ->
  processResponseMsg r s
  = storePart r evid (Z.land (retNextDataTransferHandle r) 0xffffffff)
      (announce s).
Proof.
  intros (Hrc & Hid & Hev & Hack). unfold processResponseMsg.
  rewrite Hrc, Z.eqb_refl. cbn [negb].
  rewrite land_u16 by lia. rewrite Hid.
  destruct (Z.eqb_spec evid 0); [lia |].
  destruct (Z.eqb_spec evid 0xffff); [lia |]. cbn [orb].
  change (reqData (announce s)) with (reqData s).
  destruct Hack as [-> | ->].
  - reflexivity.
  - rewrite Z.eqb_refl. cbn [negb]. rewrite andb_false_r. reflexivity.
Qed.

Lemma storePart_keeps_transfer (r : PollResp) (evId next : Z)
    (s : State) (e : list Effect) (s' : State) :
  storePart r evId next s = Some (e, s') ->
  isProcessPolling s' = isProcessPolling s.
Proof.
  unfold storePart.
  repeat match goal with
         | |- context [if ?c then _ else _] => destruct c
         end;
    try (destruct (receive_part _ r (recvData s)); simpl);
    intros H; inversion H; reflexivity.
Qed.

(** C5: the normal timer callback changes nothing, so starts no poll,
    while [isProcessPolling] or [isCritical] is set, and the critical
    timer callback changes nothing while [isProcessPolling] is set.
    [isProcessPolling] stays set through every request and every accepted
    response of the transfer, so the transfer completes first; once it
    is clear the critical callback takes the head of the critical queue
    as the Event ID of a new GetFirstPart poll. *)
Theorem callbacks_defer_during_transfer (s : State) :
  (isProcessPolling s = true \/ isCritical s = true ->
     normalEventCb s = s) /\
  (isProcessPolling s = true -> criticalEventCb s = s) /\
  (isProcessPolling s = true ->
     (forall iid erc rrc,
        isProcessPolling (snd (pollEventReqCb iid erc rrc s)) = true) /\
     (forall evid r e s',
        accepted evid r s -> processResponseMsg r s = Some (e, s') ->
        isProcessPolling s' = true)) /\
  (forall evid rest,
     isProcessPolling s = false -> critEventQueue s = evid :: rest ->
     isCritical (criticalEventCb s) = true /\
     reqData (criticalEventCb s) = mkReq PLDM_GET_FIRSTPART evid evid /\
     critEventQueue (criticalEventCb s) = rest /\
     pollEventReqTimer (criticalEventCb s) = true).
Proof.
  split; [| split; [| split]].
  - intros H. unfold normalEventCb.
    destruct H as [-> | ->]; [reflexivity | apply orb_true_r || idtac].
    destruct (isProcessPolling s); reflexivity.
  - intros H. unfold criticalEventCb. rewrite H. reflexivity.
  - intros H. split.
    + intros. apply pollEventReqCb_keeps_transfer. exact H.
    + intros evid r e s' Hacc Hrun.
      rewrite (processResponseMsg_accepted evid) in Hrun by exact Hacc.
      apply storePart_keeps_transfer in Hrun. rewrite Hrun. exact H.
  - intros evid rest Hp Hq. unfold criticalEventCb. rewrite Hp, Hq.
    repeat split.
Qed.

(** ** Dropped responses *)

(** C4 (amended): a response that does not decode, that carries Event
    ID [0x0000] or [0xFFFF], or whose Event ID differs from a non-zero
    [eventIdToAck], makes [processResponseMsg] call [reset()] and nothing
    else: the instance id is marked free, no class handler is invoked,
    [isProcessPolling], [isPolling] and [responseReceived] are cleared,
    the request data and the receive buffer are zeroed and the poll
    request timer is disabled.  [isCritical], the critical queue, the
    registered handlers and the stored instance id keep their values. *)
Theorem processResponseMsg_dropped (r : PollResp) (s : State) :
  0 <= retEventId r < 2 ^ 16 ->
  dropped r s ->
  exists s',
    processResponseMsg r s = Some ([MarkFree (instanceId s)], s') /\
    isProcessPolling s' = false /\ isPolling s' = false /\
    responseReceived s' = false /\
    reqData s' = mkReq 0 0 0 /\ recvData s' = mkRecv 0 0 [] /\
    pollEventReqTimer s' = false /\
    isCritical s' = isCritical s /\
    critEventQueue s' = critEventQueue s /\
    eventHndls s' = eventHndls s /\
    instanceId s' = instanceId s.
Proof.
  intros Hrange Hdrop. exists (snd (reset (announce s))).
  split; [| repeat split].
  unfold processResponseMsg.
  destruct (Z.eqb_spec (rc r) PLDM_SUCCESS) as [Hrc | Hrc];
    cbn [negb]; [| reflexivity].
  rewrite land_u16 by exact Hrange.
  destruct (Z.eqb_spec (retEventId r) 0); [reflexivity |].
  destruct (Z.eqb_spec (retEventId r) 0xffff); [reflexivity |].
  cbn [orb].
  destruct Hdrop as [H | [H | [H | [Hack Hne]]]]; try contradiction.
  change (reqData (announce s)) with (reqData s).
  destruct (Z.eqb_spec (eventIdToAck (reqData s)) 0); [contradiction |].
  destruct (Z.eqb_spec (retEventId r) (eventIdToAck (reqData s)));
    [contradiction |].
  reflexivity.
Qed.

(** ** Storing one part *)

Lemma flags_distinct_ne :
  flags_distinct ->
  PLDM_MIDDLE <> PLDM_START /\ PLDM_END <> PLDM_START /\
  PLDM_END <> PLDM_MIDDLE /\ PLDM_START_AND_END <> PLDM_START /\
  PLDM_START_AND_END <> PLDM_MIDDLE /\ PLDM_START_AND_END <> PLDM_END.
Proof.
  unfold flags_distinct. intros H.
  repeat (apply NoDup_cons in H as [? H]).
  set_solver.
Qed.

Lemma vector_insert_in_range {A} (v : list A) (pos : Z) (xs : list A) :
  0 <= pos <= Z.of_nat (length v) ->
  vector_insert v pos xs
  = Some (take (Z.to_nat pos) v ++ xs ++ drop (Z.to_nat pos) v).
Proof.
  intros H. unfold vector_insert.
  destruct (Z.leb_spec 0 pos); [| lia].
  destruct (Z.leb_spec pos (Z.of_nat (length v))); [| lia].
  reflexivity.
Qed.

Lemma vector_insert_past_end {A} (v : list A) (pos : Z) (xs : list A) :
  Z.of_nat (length v) < pos -> vector_insert v pos xs = None.
Proof.
  intros H. unfold vector_insert.
  destruct (Z.leb_spec pos (Z.of_nat (length v))); [lia |].
  rewrite andb_false_r. reflexivity.
Qed.

Lemma receive_part_in_range (pos : Z) (r : PollResp) (b : RecvPollInfo) :
  0 <= pos <= Z.of_nat (length (data b)) ->
  receive_part pos r b
  = Some (mkRecv (eventClass b)
            (wrap 32 (totalSize b + retEventDataSize r))
            (take (Z.to_nat pos) (data b) ++ retEventData r
             ++ drop (Z.to_nat pos) (data b))).
Proof.
  intros H. unfold receive_part.
  rewrite vector_insert_in_range by exact H. reflexivity.
Qed.

Lemma storePart_START (r : PollResp) (evId next : Z) (s : State) :
  retTransferFlag r = PLDM_START ->
  storePart r evId next s
  = Some ([], set_req (mkReq PLDM_GET_NEXTPART next evId)
                (set_recv
                   (mkRecv (eventClass (recvData s))
                      (wrap 32 (totalSize (recvData s) + retEventDataSize r))
                      (retEventData r ++ data (recvData s))) s)).
Proof.
  intros Hf. unfold storePart. rewrite Hf, Z.eqb_refl.
  rewrite receive_part_in_range by lia. reflexivity.
Qed.

Lemma storePart_MIDDLE (r : PollResp) (evId next : Z) (s : State) :
  flags_distinct ->
  retTransferFlag r = PLDM_MIDDLE ->
  0 <= dataTransferHandle (reqData s)
    <= Z.of_nat (length (data (recvData s))) ->
  storePart r evId next s
  = Some ([], set_req (mkReq PLDM_GET_NEXTPART next evId)
                (set_recv
                   (mkRecv (eventClass (recvData s))
                      (wrap 32 (totalSize (recvData s) + retEventDataSize r))
                      (take (Z.to_nat (dataTransferHandle (reqData s)))
                         (data (recvData s))
                       ++ retEventData r
                       ++ drop (Z.to_nat (dataTransferHandle (reqData s)))
                            (data (recvData s)))) s)).
Proof.
  intros Hd Hf Hpos. apply flags_distinct_ne in Hd as (H1 & _).
  unfold storePart. rewrite Hf.
  destruct (Z.eqb_spec PLDM_MIDDLE PLDM_START); [contradiction |].
  rewrite Z.eqb_refl.
  rewrite receive_part_in_range by exact Hpos. reflexivity.
Qed.

Lemma storePart_END (r : PollResp) (evId next : Z) (s : State) :
  flags_distinct ->
  retTransferFlag r = PLDM_END ->
  0 <= dataTransferHandle (reqData s)
    <= Z.of_nat (length (data (recvData s))) ->
  let bytes :=
    take (Z.to_nat (dataTransferHandle (reqData s))) (data (recvData s))
    ++ retEventData r
    ++ drop (Z.to_nat (dataTransferHandle (reqData s)))
         (data (recvData s)) in
  storePart r evId next s
  = Some (if crc32 bytes =? retEventDataIntegrityChecksum r
          then match eventHndls s !! retEventClass r with
               | Some h =>
                   [InvokeHandler h (retTid r) (retEventClass r) evId bytes]
               | None => []
               end
          else [],
          set_req (mkReq PLDM_ACKNOWLEDGEMENT_ONLY 0 evId)
            (set_recv
               (mkRecv (eventClass (recvData s))
                  (wrap 32 (totalSize (recvData s) + retEventDataSize r))
                  bytes) s)).
Proof.
  intros Hd Hf Hpos bytes. apply flags_distinct_ne in Hd as (_ & H1 & H2 & _).
  unfold storePart. rewrite Hf.
  destruct (Z.eqb_spec PLDM_END PLDM_START); [contradiction |].
  destruct (Z.eqb_spec PLDM_END PLDM_MIDDLE); [contradiction |].
  rewrite Z.eqb_refl. cbn [orb andb].
  rewrite receive_part_in_range by exact Hpos. cbn.
  fold bytes. destruct (crc32 bytes =? retEventDataIntegrityChecksum r);
    reflexivity.
Qed.

Lemma storePart_START_AND_END (r : PollResp) (evId next : Z) (s : State) :
  flags_distinct ->
  retTransferFlag r = PLDM_START_AND_END ->
  0 <= dataTransferHandle (reqData s)
    <= Z.of_nat (length (data (recvData s))) ->
  let bytes :=
    take (Z.to_nat (dataTransferHandle (reqData s))) (data (recvData s))
    ++ retEventData r
    ++ drop (Z.to_nat (dataTransferHandle (reqData s)))
         (data (recvData s)) in
  storePart r evId next s
  = Some (match eventHndls s !! retEventClass r with
          | Some h =>
              [InvokeHandler h (retTid r) (retEventClass r) evId bytes]
          | None => []
          end,
          set_req (mkReq PLDM_ACKNOWLEDGEMENT_ONLY 0 evId)
            (set_recv
               (mkRecv (eventClass (recvData s))
                  (wrap 32 (totalSize (recvData s) + retEventDataSize r))
                  bytes) s)).
Proof.
  intros Hd Hf Hpos bytes.
  apply flags_distinct_ne in Hd as (_ & _ & _ & H1 & H2 & H3).
  unfold storePart. rewrite Hf.
  destruct (Z.eqb_spec PLDM_START_AND_END PLDM_START); [contradiction |].
  destruct (Z.eqb_spec PLDM_START_AND_END PLDM_MIDDLE); [contradiction |].
  destruct (Z.eqb_spec PLDM_START_AND_END PLDM_END); [contradiction |].
  rewrite Z.eqb_refl. cbn [orb andb].
  rewrite receive_part_in_range by exact Hpos. reflexivity.
Qed.

Lemma pollEventReqCb_sends (iid : Z) (s : State) :
  isPolling s = false ->
  eventIdToAck (reqData s) <> 0xffff ->
  pollEventReqCb iid PLDM_SUCCESS 0 s
  = ([GetInstanceId iid;
      RegisterRequest iid (operationFlag (reqData s))
        (dataTransferHandle (reqData s)) (eventIdToAck (reqData s))],
     sent iid s).
Proof.
  intros Hp Hid. unfold pollEventReqCb. rewrite Hp.
  destruct (Z.eqb_spec (eventIdToAck (reqData s)) 0xffff); [contradiction |].
  rewrite Z.eqb_refl. reflexivity.
Qed.

(** ** A whole transfer *)

Lemma invocations_app (e1 e2 : list Effect) :
  invocations (e1 ++ e2) = invocations e1 ++ invocations e2.
Proof. apply List.filter_app. Qed.

Lemma exchange_accepted (evid : Z) (x : Z * PollResp) (s : State) :
  isPolling s = false ->
  accepted evid (snd x) s ->
  exchange x s
  = '(e2, s2) ← storePart (snd x) evid
                  (Z.land (retNextDataTransferHandle (snd x)) 0xffffffff)
                  (announce (sent (fst x) s));
    Some ([GetInstanceId (fst x);
           RegisterRequest (fst x) (operationFlag (reqData s))
             (dataTransferHandle (reqData s)) (eventIdToAck (reqData s))]
          ++ e2, s2).
Proof.
  intros Hp Hacc. unfold exchange.
  rewrite pollEventReqCb_sends; [| exact Hp |].
  - rewrite (processResponseMsg_accepted evid); [reflexivity |].
    exact Hacc.
  - destruct Hacc as (_ & _ & Hev & [H | H]); rewrite H; lia.
Qed.

Lemma payloads_cons (x : Z * PollResp) (xs : list (Z * PollResp)) :
  payloads (x :: xs) = retEventData (snd x) ++ payloads xs.
Proof. reflexivity. Qed.

Lemma length_payloads_cons (x : Z * PollResp) (xs : list (Z * PollResp)) :
  Z.of_nat (length (payloads (x :: xs)))
  = retEventDataSize (snd x) + Z.of_nat (length (payloads xs)).
Proof.
  rewrite payloads_cons, length_app. unfold retEventDataSize. lia.
Qed.

Lemma delivery_same_handlers (s s' : State) (r : PollResp) (bytes : list Z) :
  eventHndls s' = eventHndls s -> delivery s' r bytes = delivery s r bytes.
Proof. intros H. unfold delivery. rewrite H. reflexivity. Qed.

(** The parts after START: MIDDLE parts at contiguous cursors, then the
    END part. *)
Lemma exchanges_rest (evid : Z) (last : Z * PollResp) :
  flags_distinct ->
  0 < evid < 0xffff ->
  rc (snd last) = PLDM_SUCCESS ->
  retEventId (snd last) = evid ->
  retTransferFlag (snd last) = PLDM_END ->
  forall (mids : list (Z * PollResp)) (s : State) (off : Z),
    isPolling s = false ->
    reqData s = mkReq PLDM_GET_NEXTPART off evid ->
    totalSize (recvData s) = off ->
    off = Z.of_nat (length (data (recvData s))) ->
    middle_parts evid off mids ->
    off + Z.of_nat (length (payloads (mids ++ [last]))) < 2 ^ 32 ->
    let bytes := data (recvData s) ++ payloads (mids ++ [last]) in
    exists effs s',
      exchanges (mids ++ [last]) s = Some (effs, s') /\
      data (recvData s') = bytes /\
      totalSize (recvData s') = Z.of_nat (length bytes) /\
      reqData s' = mkReq PLDM_ACKNOWLEDGEMENT_ONLY 0 evid /\
      invocations effs
      = if crc32 bytes =? retEventDataIntegrityChecksum (snd last)
        then delivery s (snd last) bytes else [].
Proof.
  intros Hd Hev Hrc Hid Hflag mids.
  induction mids as [|x mids IH]; intros s off Hp Hreq Htot Hoff Hmid Hlen bytes.
  - (* the END part *)
    cbn [app exchanges].
    assert (Hacc : accepted evid (snd last) s).
    { repeat split; try assumption; try lia. right. rewrite Hreq. reflexivity. }
    rewrite (exchange_accepted evid) by assumption.
    assert (Hpos : 0 <= dataTransferHandle (reqData (announce (sent (fst last) s)))
                   <= Z.of_nat (length (data (recvData (announce (sent (fst last) s)))))).
    { cbn. rewrite Hreq. cbn. lia. }
    rewrite (storePart_END _ _ _ _ Hd Hflag Hpos).
    cbn [announce sent reqData recvData dataTransferHandle eventHndls].
    rewrite Hreq. cbn [dataTransferHandle].
    rewrite (take_ge (data (recvData s)) (Z.to_nat off)) by lia.
    rewrite (drop_ge (data (recvData s)) (Z.to_nat off)) by lia.
    rewrite app_nil_r.
    assert (Hb : bytes = data (recvData s) ++ retEventData (snd last)).
    { subst bytes. unfold payloads. cbn. rewrite app_nil_r. reflexivity. }
    rewrite <- Hb. cbn.
    eexists _, _. split; [reflexivity |].
    cbn. repeat split.
    + rewrite Htot. unfold wrap. rewrite Z.mod_small.
      * rewrite Hb, length_app. unfold retEventDataSize. lia.
      * unfold payloads in Hlen. cbn in Hlen. rewrite app_nil_r in Hlen.
        unfold retEventDataSize. lia.
    + unfold delivery. rewrite Hid.
      destruct (crc32 bytes =? retEventDataIntegrityChecksum (snd last));
        [| reflexivity].
      destruct (eventHndls s !! retEventClass (snd last)); reflexivity.
  - (* a MIDDLE part, then the rest *)
    destruct Hmid as (Hrc' & Hid' & Hflag' & Hnext & Hmid).
    cbn [app exchanges].
    assert (Hacc : accepted evid (snd x) s).
    { repeat split; try assumption; try lia. right. rewrite Hreq. reflexivity. }
    rewrite (exchange_accepted evid) by assumption.
    assert (Hpos : 0 <= dataTransferHandle (reqData (announce (sent (fst x) s)))
                   <= Z.of_nat (length (data (recvData (announce (sent (fst x) s)))))).
    { cbn. rewrite Hreq. cbn. lia. }
    rewrite (storePart_MIDDLE _ _ _ _ Hd Hflag' Hpos).
    cbn [announce sent reqData recvData dataTransferHandle eventHndls].
    rewrite Hreq. cbn [dataTransferHandle].
    rewrite (take_ge (data (recvData s)) (Z.to_nat off)) by lia.
    rewrite (drop_ge (data (recvData s)) (Z.to_nat off)) by lia.
    rewrite app_nil_r.
    pose proof (length_payloads_cons x (mids ++ [last])) as Hl.
    change ((x :: mids) ++ [last]) with (x :: mids ++ [last]) in Hlen.
    assert (Hsz : 0 <= retEventDataSize (snd x))
      by (unfold retEventDataSize; lia).
    rewrite Hnext, land_u32 by lia.
    cbn.
    set (s1 := set_req _ _).
    destruct (IH s1 (off + retEventDataSize (snd x))) as (e & s' & Hrun & Hdat & Htot' & Hreq' & Hinv).
    + reflexivity.
    + reflexivity.
    + subst s1. cbn. rewrite Htot. unfold wrap. apply Z.mod_small. lia.
    + subst s1. cbn. rewrite length_app. unfold retEventDataSize. lia.
    + exact Hmid.
    + lia.
    + rewrite Hrun. cbn.
      eexists _, _. split; [reflexivity |].
      assert (Hb : data (recvData s1) ++ payloads (mids ++ [last]) = bytes).
      { subst s1 bytes. cbn [set_req set_recv recvData data].
        change ((x :: mids) ++ [last]) with (x :: mids ++ [last]).
        rewrite payloads_cons, <- app_assoc. reflexivity. }
      rewrite Hb in *.
      repeat split; assumption.
Qed.

(** C1 (amended): a START part is inserted at offset 0 and [totalSize]
    grows by the part size, so it equals the part size when it was 0
    before, as after [reset()]; a MIDDLE or END part is inserted at the
    offset held in [reqData.dataTransferHandle], the cursor of the
    previous response, when that offset lies within the buffer, and
    [totalSize] grows by the part size modulo 2^32.  When the transfer
    starts on an empty buffer and every part returns as next handle the
    number of bytes transferred so far, the buffer after the END part is
    the concatenation of the part payloads, [totalSize] is its length,
    and these are the bytes handed to the class handler when the
    checksum matches. *)
Theorem reassembly :
  flags_distinct ->
  (forall evid r s,
     accepted evid r s ->
     retTransferFlag r = PLDM_START ->
     0 <= retNextDataTransferHandle r < 2 ^ 32 ->
     exists s',
       processResponseMsg r s = Some ([], s') /\
       data (recvData s') = retEventData r ++ data (recvData s) /\
       totalSize (recvData s')
       = wrap 32 (totalSize (recvData s) + retEventDataSize r) /\
       (totalSize (recvData s) = 0 -> retEventDataSize r < 2 ^ 32 ->
        totalSize (recvData s') = retEventDataSize r) /\
       reqData s'
       = mkReq PLDM_GET_NEXTPART (retNextDataTransferHandle r) evid) /\
  (forall evid r s,
     accepted evid r s ->
     retTransferFlag r = PLDM_MIDDLE \/ retTransferFlag r = PLDM_END ->
     0 <= dataTransferHandle (reqData s)
       <= Z.of_nat (length (data (recvData s))) ->
     exists e s',
       processResponseMsg r s = Some (e, s') /\
       data (recvData s')
       = take (Z.to_nat (dataTransferHandle (reqData s))) (data (recvData s))
         ++ retEventData r
         ++ drop (Z.to_nat (dataTransferHandle (reqData s)))
              (data (recvData s)) /\
       totalSize (recvData s')
       = wrap 32 (totalSize (recvData s) + retEventDataSize r)) /\
  (forall evid s0 first mids last,
     isPolling s0 = false ->
     data (recvData s0) = [] ->
     totalSize (recvData s0) = 0 ->
     accepted evid (snd first) s0 ->
     retTransferFlag (snd first) = PLDM_START ->
     retNextDataTransferHandle (snd first) = retEventDataSize (snd first) ->
     middle_parts evid (retEventDataSize (snd first)) mids ->
     rc (snd last) = PLDM_SUCCESS ->
     retEventId (snd last) = evid ->
     retTransferFlag (snd last) = PLDM_END ->
     Z.of_nat (length (payloads (first :: mids ++ [last]))) < 2 ^ 32 ->
     let bytes := payloads (first :: mids ++ [last]) in
     exists effs s',
       exchanges (first :: mids ++ [last]) s0 = Some (effs, s') /\
       data (recvData s') = bytes /\
       totalSize (recvData s') = Z.of_nat (length bytes) /\
       reqData s' = mkReq PLDM_ACKNOWLEDGEMENT_ONLY 0 evid /\
       invocations effs
       = if crc32 bytes =? retEventDataIntegrityChecksum (snd last)
         then delivery s0 (snd last) bytes else []).
Proof.
  intros Hd. split; [| split].
  - intros evid r s Hacc Hflag Hnext.
    rewrite (processResponseMsg_accepted evid) by exact Hacc.
    rewrite land_u32 by exact Hnext.
    rewrite storePart_START by exact Hflag.
    eexists. split; [reflexivity |]. cbn. repeat split.
    intros H0 Hsz. rewrite H0. unfold wrap. apply Z.mod_small.
    unfold retEventDataSize in *. lia.
  - intros evid r s Hacc Hflag Hpos.
    rewrite (processResponseMsg_accepted evid) by exact Hacc.
    destruct Hflag as [Hflag | Hflag].
    + rewrite (storePart_MIDDLE r _ _ (announce s) Hd Hflag Hpos).
      eexists _, _. split; [reflexivity |]. cbn. split; reflexivity.
    + rewrite (storePart_END r _ _ (announce s) Hd Hflag Hpos).
      eexists _, _. split; [reflexivity |]. cbn. split; reflexivity.
  - intros evid s0 first mids last Hp Hdat Htot Hacc Hflag Hnext Hmid
      Hrc Hid Hend Hlen bytes.
    pose proof (length_payloads_cons first (mids ++ [last])) as Hl.
    assert (Hsz : 0 <= retEventDataSize (snd first))
      by (unfold retEventDataSize; lia).
    cbn [exchanges].
    rewrite (exchange_accepted evid) by assumption.
    rewrite storePart_START by exact Hflag.
    rewrite Hnext, land_u32 by lia.
    cbn [announce sent recvData reqData]. rewrite Hdat, Htot, app_nil_r.
    cbn [mbind option_bind].
    set (s1 := set_req _ _).
    assert (Hev : 0 < evid < 0xffff) by (destruct Hacc as (_ & _ & H & _); exact H).
    destruct (exchanges_rest evid last Hd Hev Hrc Hid Hend mids s1
                (retEventDataSize (snd first)))
      as (e & s' & Hrun & Hdat' & Htot' & Hreq' & Hinv).
    + reflexivity.
    + reflexivity.
    + subst s1. cbn. unfold wrap. apply Z.mod_small. lia.
    + reflexivity.
    + exact Hmid.
    + lia.
    + rewrite Hrun. cbn [mbind option_bind].
      assert (Hb : data (recvData s1) ++ payloads (mids ++ [last]) = bytes)
        by reflexivity.
      rewrite Hb in *.
      eexists _, _. split; [reflexivity |].
      repeat split; assumption.
Qed.

(** C3 (amended): when the END part arrives and the CRC-32 of the
    reassembled buffer differs from the checksum field, no class handler
    is invoked and the request data become (AcknowledgementOnly, 0, Event
    ID), so the next poll request acknowledges the event; the
    reassembled bytes stay in the receive buffer until [reset()] empties
    it.  For a START_AND_END part the checksum field is not compared and
    the handler registered for the event class is invoked.  Both hold
    when the insert offset lies within the buffer. *)
Theorem checksum_mismatch :
  flags_distinct ->
  forall evid r s,
    accepted evid r s ->
    0 <= dataTransferHandle (reqData s)
      <= Z.of_nat (length (data (recvData s))) ->
    let bytes :=
      take (Z.to_nat (dataTransferHandle (reqData s))) (data (recvData s))
      ++ retEventData r
      ++ drop (Z.to_nat (dataTransferHandle (reqData s)))
           (data (recvData s)) in
    (retTransferFlag r = PLDM_END ->
     crc32 bytes <> retEventDataIntegrityChecksum r ->
     exists s',
       processResponseMsg r s = Some ([], s') /\
       data (recvData s') = bytes /\
       reqData s' = mkReq PLDM_ACKNOWLEDGEMENT_ONLY 0 evid /\
       (forall iid,
          fst (pollEventReqCb iid PLDM_SUCCESS 0 s')
          = [GetInstanceId iid;
             RegisterRequest iid PLDM_ACKNOWLEDGEMENT_ONLY 0 evid]) /\
       buffer_discarded (snd (reset s'))) /\
    (retTransferFlag r = PLDM_START_AND_END ->
     exists s',
       processResponseMsg r s = Some (delivery s r bytes, s') /\
       data (recvData s') = bytes /\
       reqData s' = mkReq PLDM_ACKNOWLEDGEMENT_ONLY 0 evid).
Proof.
  intros Hd evid r s Hacc Hpos bytes.
  rewrite (processResponseMsg_accepted evid) by exact Hacc.
  assert (Hev : 0 < evid < 0xffff)
    by (destruct Hacc as (_ & _ & H & _); exact H).
  split.
  - intros Hflag Hcrc.
    rewrite (storePart_END r _ _ (announce s) Hd Hflag Hpos).
    change (reqData (announce s)) with (reqData s).
    change (recvData (announce s)) with (recvData s).
    change (eventHndls (announce s)) with (eventHndls s).
    fold bytes.
    destruct (Z.eqb_spec (crc32 bytes) (retEventDataIntegrityChecksum r));
      [contradiction |].
    eexists. split; [reflexivity |].
    split; [reflexivity |]. split; [reflexivity |]. split.
    + intros iid. rewrite pollEventReqCb_sends.
      * reflexivity.
      * reflexivity.
      * cbn. lia.
    + split; reflexivity.
  - intros Hflag.
    rewrite (storePart_START_AND_END r _ _ (announce s) Hd Hflag Hpos).
    change (reqData (announce s)) with (reqData s).
    change (recvData (announce s)) with (recvData s).
    change (eventHndls (announce s)) with (eventHndls s).
    fold bytes.
    eexists. split.
    + unfold delivery. destruct Hacc as (_ & -> & _). reflexivity.
    + split; reflexivity.
Qed.

End PollerProperties.

(** ** The poller on concrete inputs *)

Section PollerExamples.

#[local] Existing Instance Example.poller_env.
#[local] Existing Instance Example.named.

Lemma enqueueCriticalEvent_spec_witness :
  let s1 := snd (Poller.enqueueCriticalEvent 0x1234 Example.idle) in
  (fst (Poller.enqueueCriticalEvent 0x1234 Example.idle) = 0
   /\ Poller.critEventQueue s1 = [] ++ [0x1234])
  /\ (fst (Poller.enqueueCriticalEvent 0x1234 s1) = -2
      /\ Poller.critEventQueue (snd (Poller.enqueueCriticalEvent 0x1234 s1))
         = Poller.critEventQueue s1).
Proof.
  intros s1. split.
  - apply (enqueueCriticalEvent_spec 0x1234 Example.idle).
    + simpl. lia.
    + simpl. tauto.
  - apply (enqueueCriticalEvent_spec 0x1234 s1).
    + simpl. lia.
    + simpl. left. reflexivity.
Defined.

Lemma example_flags_distinct : flags_distinct (env := Example.poller_env).
Proof.
  unfold flags_distinct. apply (bool_decide_unpack _). vm_compute. exact I.
Qed.

Lemma callbacks_defer_during_transfer_witness :
  Poller.normalEventCb Example.polling_queued = Example.polling_queued
  /\ Poller.criticalEventCb Example.polling_queued = Example.polling_queued
  /\ Poller.reqData
       (Poller.criticalEventCb
          (snd (Poller.enqueueCriticalEvent 0x1234 Example.idle)))
     = Poller.mkReq 1 0x1234 0x1234.
Proof.
  destruct (callbacks_defer_during_transfer Example.polling_queued)
    as (Hnormal & Hcritical & _).
  destruct (callbacks_defer_during_transfer
              (snd (Poller.enqueueCriticalEvent 0x1234 Example.idle)))
    as (_ & _ & _ & Hhead).
  split; [| split].
  - apply Hnormal. left. reflexivity.
  - apply Hcritical. reflexivity.
  - apply (Hhead 0x1234 []); reflexivity.
Defined.

(** A poll for a critical event carries the Event ID as data transfer
    handle; a START_AND_END answer is inserted at that offset, past the
    end of the empty buffer. *)
Lemma critical_single_part_offset :
  Poller.processResponseMsg (Example.resp 0x1234 0 0x05 5 [1; 2; 3] 0)
    Example.polling_critical
  = None.
Proof. reflexivity. Qed.

Lemma processResponseMsg_dropped_witness :
  exists s',
    Poller.processResponseMsg Example.terminate Example.polling_critical
    = Some ([Poller.MarkFree 7], s') /\
    Poller.isProcessPolling s' = false /\ Poller.isPolling s' = false /\
    Poller.responseReceived s' = false /\
    Poller.reqData s' = Poller.mkReq 0 0 0 /\
    Poller.recvData s' = Poller.mkRecv 0 0 [] /\
    Poller.pollEventReqTimer s' = false /\
    Poller.isCritical s' = true /\
    Poller.critEventQueue s' = [] /\
    Poller.eventHndls s' = Poller.eventHndls Example.idle /\
    Poller.instanceId s' = 7.
Proof.
  apply (processResponseMsg_dropped Example.terminate Example.polling_critical).
  - simpl. lia.
  - right. right. left. reflexivity.
Defined.

(** C4, as stated, fails: the poll for a critical event is answered with
    Event ID [0xFFFF]; [reset()] runs, and [isCritical] is still set. *)
Lemma processResponseMsg_dropped_counterexample :
  exists e s',
    Poller.processResponseMsg Example.terminate Example.polling_critical
    = Some (e, s') /\
    ~ all_flags_off s'.
Proof.
  eexists _, _. split; [reflexivity |].
  intros (_ & _ & _ & H). discriminate H.
Qed.

Lemma reassembly_witness :
  exists effs s',
    Poller.exchanges [Example.start_AB; Example.end_CD]
      (Poller.normalEventCb Example.idle) = Some (effs, s') /\
    Poller.data (Poller.recvData s') = [0xAA; 0xBB; 0xCC; 0xDD] /\
    Poller.totalSize (Poller.recvData s') = 4 /\
    Poller.reqData s' = Poller.mkReq 2 0 5 /\
    invocations effs
    = [Poller.InvokeHandler (handlers := Example.named) "class5"%string 1 5 5
         [0xAA; 0xBB; 0xCC; 0xDD]].
Proof.
  pose proof example_flags_distinct as Hd.
  destruct (reassembly (env := Example.poller_env) Hd) as (_ & _ & H).
  refine (H 5 (Poller.normalEventCb Example.idle) Example.start_AB []
            Example.end_CD _ _ _ _ _ _ _ _ _ _ _); try reflexivity.
  repeat split; try reflexivity. left. reflexivity.
Defined.

(** C1, as stated, fails.  A second START part of the same event arrives:
    [totalSize] is 3, not the size 1 of that part.  And a START part
    returns next handle 1 after two bytes: the END part is inserted at
    offset 1 and the handler gets [AA CC DD BB], not the concatenation
    [AA BB CC DD] of the payloads. *)
Lemma reassembly_counterexample :
  (exists effs s',
     Poller.exchanges [Example.start_AB; Example.start_C]
       (Poller.normalEventCb Example.idle) = Some (effs, s') /\
     Poller.totalSize (Poller.recvData s')
     <> Poller.retEventDataSize (snd Example.start_C))
  /\
  (exists effs s',
     Poller.exchanges [Example.start_AB_cursor1; Example.end_CD_cursor1]
       (Poller.normalEventCb Example.idle) = Some (effs, s') /\
     invocations effs
     = [Poller.InvokeHandler (handlers := Example.named) "class5"%string 1 5 5
          [0xAA; 0xCC; 0xDD; 0xBB]] /\
     [0xAA; 0xCC; 0xDD; 0xBB]
     <> payloads [Example.start_AB_cursor1; Example.end_CD_cursor1]).
Proof.
  split.
  - eexists _, _. split; [vm_compute; reflexivity |]. vm_compute. discriminate.
  - eexists _, _. split; [vm_compute; reflexivity |].
    split; [vm_compute; reflexivity | vm_compute; discriminate].
Qed.

Lemma checksum_mismatch_witness :
  (exists s',
     Poller.processResponseMsg (snd Example.end_CD_bad) Example.awaiting_next
     = Some ([], s') /\
     Poller.data (Poller.recvData s') = [0xAA; 0xBB; 0xCC; 0xDD] /\
     Poller.reqData s' = Poller.mkReq 2 0 5 /\
     (forall iid,
        fst (Poller.pollEventReqCb iid 0 0 s')
        = [Poller.GetInstanceId iid; Poller.RegisterRequest iid 2 0 5]) /\
     buffer_discarded (snd (Poller.reset s')))
  /\
  (exists s',
     Poller.processResponseMsg Example.single_123 Example.polling
     = Some ([Poller.InvokeHandler (handlers := Example.named)
                "class5"%string 1 5 9 [0x01; 0x02; 0x03]], s') /\
     Poller.data (Poller.recvData s') = [0x01; 0x02; 0x03] /\
     Poller.reqData s' = Poller.mkReq 2 0 9).
Proof.
  pose proof example_flags_distinct as Hd.
  split.
  - refine (proj1 (checksum_mismatch (env := Example.poller_env) Hd 5
                     (snd Example.end_CD_bad) Example.awaiting_next _ _) _ _).
    + repeat split; try reflexivity. right. reflexivity.
    + vm_compute. split; discriminate.
    + reflexivity.
    + vm_compute. discriminate.
  - refine (proj2 (checksum_mismatch (env := Example.poller_env) Hd 9
                     Example.single_123 Example.polling _ _) _).
    + repeat split; try reflexivity. left. reflexivity.
    + vm_compute. split; discriminate.
    + reflexivity.
Defined.

(** C3, as stated, fails: after the END part with a wrong checksum no
    handler has been invoked, and the receive buffer still holds the four
    reassembled bytes. *)
Lemma checksum_mismatch_counterexample :
  exists effs s',
    Poller.exchanges [Example.start_AB; Example.end_CD_bad]
      (Poller.normalEventCb Example.idle) = Some (effs, s') /\
    invocations effs = [] /\
    Poller.data (Poller.recvData s') = [0xAA; 0xBB; 0xCC; 0xDD] /\
    ~ buffer_discarded s'.
Proof.
  eexists _, _. split; [vm_compute; reflexivity |].
  split; [reflexivity |]. split; [reflexivity |].
  intros [H _]. discriminate H.
Qed.

End PollerExamples.

(** * Properties of the responder *)

Section PlatformProperties.

Context {types : Platform.Types} {env : Platform.Env}.
Import Platform.

(** ** The chain of event handlers *)

Lemma runHandlers_after_prefix (request : pldm_msg) (len : Z)
    (req : EventMsgReq) (rest : list EventHandler) :
  forall (pre : list EventHandler) (w w1 : World),
    chain_succeeds request len req pre w w1 ->
    runHandlers request len req (pre ++ rest) w
    = runHandlers request len req rest w1.
Proof.
  intros pre w w1 Hchain.
  induction Hchain as [w | hd hs w w1 w2 Hhd Hrest IH].
  - reflexivity.
  - cbn [app runHandlers]. rewrite Hhd, Z.eqb_refl. cbn [negb]. exact IH.
Qed.

Lemma runHandlers_all_succeed (request : pldm_msg) (len : Z)
    (req : EventMsgReq) (hs : list EventHandler) (w w' : World) :
  chain_succeeds request len req hs w w' ->
  runHandlers request len req hs w = (inr tt, w').
Proof.
  intros Hchain.
  rewrite <- (app_nil_r hs).
  rewrite (runHandlers_after_prefix request len req [] hs w w' Hchain).
  reflexivity.
Qed.

Lemma platformEventMessage_dispatch (request : pldm_msg) (len : Z)
    (h : Handler) (w : World) (req : EventMsgReq)
    (hs : list EventHandler) :
  decode_platform_event_message_req request len = (PLDM_SUCCESS, req) ->
  req_eventClass req <> PLDM_HEARTBEAT_TIMER_ELAPSED_EVENT ->
  eventHandlers h !! req_eventClass req = Some hs ->
  platformEventMessage request len h w
  = match runHandlers request len req hs w with
    | (inl response, w') => (response, w')
    | (inr _, w') => (event_success request, w')
    end.
Proof.
  intros Hdec Hclass Hlookup. unfold platformEventMessage.
  rewrite Hdec, Z.eqb_refl. cbn [negb].
  destruct (Z.eqb_spec (req_eventClass req)
              PLDM_HEARTBEAT_TIMER_ELAPSED_EVENT); [contradiction |].
  rewrite Hlookup.
  destruct (runHandlers request len req hs w) as [[response | []] w'];
    [reflexivity |].
  unfold encode_platform_event_message_resp. rewrite Z.eqb_refl.
  reflexivity.
Qed.

(** C6 (amended): for a PlatformEventMessage that decodes, whose event
    class is not HeartbeatTimerElapsed and has a registered handler
    list, the handlers run in list order, each on the world its
    predecessor left.  The first handler that returns a code other than
    [PLDM_SUCCESS] ends the chain: the response is the
    completion-code-only response for that code and the later handlers
    do not run.  A handler that leaves through [std::out_of_range] ends
    the chain with [PLDM_ERROR_INVALID_DATA].  When every handler
    returns [PLDM_SUCCESS] the success response is returned. *)
Theorem platformEventMessage_chain (request : pldm_msg) (len : Z)
    (h : Handler) (w : World) (req : EventMsgReq)
    (hs : list EventHandler) :
  decode_platform_event_message_req request len = (PLDM_SUCCESS, req) ->
  req_eventClass req <> PLDM_HEARTBEAT_TIMER_ELAPSED_EVENT ->
  eventHandlers h !! req_eventClass req = Some hs ->
  (forall pre hd post w1 w2 code,
     hs = pre ++ hd :: post ->
     chain_succeeds request len req pre w w1 ->
     hd request len (formatVersion req) (req_tid req) (eventDataOffset req)
       w1 = (Ret code, w2) ->
     code <> PLDM_SUCCESS ->
     platformEventMessage request len h w
     = (ccOnlyResponse request code, w2)) /\
  (forall pre hd post w1 w2,
     hs = pre ++ hd :: post ->
     chain_succeeds request len req pre w w1 ->
     hd request len (formatVersion req) (req_tid req) (eventDataOffset req)
       w1 = (ThrowOutOfRange, w2) ->
     platformEventMessage request len h w
     = (ccOnlyResponse request PLDM_ERROR_INVALID_DATA, w2)) /\
  (forall w',
     chain_succeeds request len req hs w w' ->
     platformEventMessage request len h w = (event_success request, w')).
Proof.
  intros Hdec Hclass Hlookup.
  rewrite (platformEventMessage_dispatch request len h w req hs)
    by assumption.
  split; [| split].
  - intros pre hd post w1 w2 code -> Hpre Hhd Hcode.
    rewrite (runHandlers_after_prefix _ _ _ _ _ _ _ Hpre).
    cbn [runHandlers]. rewrite Hhd.
    destruct (Z.eqb_spec code PLDM_SUCCESS); [contradiction |].
    reflexivity.
  - intros pre hd post w1 w2 -> Hpre Hhd.
    rewrite (runHandlers_after_prefix _ _ _ _ _ _ _ Hpre).
    cbn [runHandlers]. rewrite Hhd. reflexivity.
  - intros w' Hall.
    rewrite (runHandlers_all_succeed _ _ _ _ _ _ Hall). reflexivity.
Qed.

(** ** GetPDR *)

Lemma getPDR_lookup (request : pldm_msg) (len : Z) (h : Handler)
    (req : GetPdrReq) :
  bmcNotReady h = false ->
  len = PLDM_GET_PDR_REQ_BYTES ->
  decode_get_pdr_req request len = (PLDM_SUCCESS, req) ->
  getPDR request len h
  = match getRecordByHandle (pdrRepo (buildRepo h)) (recordHandle req) with
    | None =>
        (ccOnlyResponse request PLDM_PLATFORM_INVALID_RECORD_HANDLE,
         buildRepo h)
    | Some e =>
        let respSizeBytes :=
          if negb (reqSizeBytes req =? 0) then
            let size16 := wrap 16 (entry_size e) in
            if reqSizeBytes req <? size16 then reqSizeBytes req else size16
          else 0 in
        (mkResponse (instance_id request) PLDM_PLATFORM PLDM_GET_PDR
           PLDM_SUCCESS
           (GetPdrBody (nextRecordHandle e) 0 PLDM_START_AND_END
              respSizeBytes
              (if negb (reqSizeBytes req =? 0)
               then take (Z.to_nat respSizeBytes) (entry_data e)
               else [])
              0),
         buildRepo h)
    end.
Proof.
  intros Hgate Hlen Hdec. unfold getPDR.
  rewrite Hgate, Hlen, Z.eqb_refl. cbn [negb].
  rewrite <- Hlen, Hdec, Z.eqb_refl. cbn [negb].
  destruct (getRecordByHandle (pdrRepo (buildRepo h)) (recordHandle req))
    as [e |]; [| reflexivity].
  unfold encode_get_pdr_resp. rewrite Z.eqb_refl. cbn [negb].
  destruct (reqSizeBytes req =? 0); reflexivity.
Qed.

(** C7 (amended): when the readiness gate at the head of [getPDR] lets
    the request through, the payload length is
    [PLDM_GET_PDR_REQ_BYTES], the request decodes and its record handle
    matches no record of the repository as this call has built it, the
    response is the completion-code-only response for
    [PLDM_PLATFORM_INVALID_RECORD_HANDLE]: it carries the instance id of
    the request and no body. *)
Theorem getPDR_invalid_record_handle (request : pldm_msg) (len : Z)
    (h : Handler) (req : GetPdrReq) :
  bmcNotReady h = false ->
  len = PLDM_GET_PDR_REQ_BYTES ->
  decode_get_pdr_req request len = (PLDM_SUCCESS, req) ->
  getRecordByHandle (pdrRepo (buildRepo h)) (recordHandle req) = None ->
  fst (getPDR request len h)
  = ccOnlyResponse request PLDM_PLATFORM_INVALID_RECORD_HANDLE /\
  completion_code (fst (getPDR request len h))
  = PLDM_PLATFORM_INVALID_RECORD_HANDLE /\
  body (fst (getPDR request len h)) = NoBody /\
  resp_instance_id (fst (getPDR request len h)) = instance_id request.
Proof.
  intros Hgate Hlen Hdec Hnone.
  rewrite (getPDR_lookup request len h req) by assumption.
  rewrite Hnone. repeat split.
Qed.

(** C9 (amended): when the readiness gate lets the request through, the
    request is well formed, its record handle is valid and the record is
    shorter than 2^16 bytes, the response is a success response with the
    next record handle, transfer flag [PLDM_START_AND_END], and as
    record data the first [min (record size) (requested size)] bytes of
    the record; for a requested size of 0 these are no bytes. *)
Theorem getPDR_record_data (request : pldm_msg) (len : Z) (h : Handler)
    (req : GetPdrReq) (e : PdrEntry) :
  bmcNotReady h = false ->
  len = PLDM_GET_PDR_REQ_BYTES ->
  decode_get_pdr_req request len = (PLDM_SUCCESS, req) ->
  getRecordByHandle (pdrRepo (buildRepo h)) (recordHandle req) = Some e ->
  entry_size e < 2 ^ 16 ->
  let n := Z.min (entry_size e) (reqSizeBytes req) in
  fst (getPDR request len h)
  = mkResponse (instance_id request) PLDM_PLATFORM PLDM_GET_PDR PLDM_SUCCESS
      (GetPdrBody (nextRecordHandle e) 0 PLDM_START_AND_END n
         (take (Z.to_nat n) (entry_data e)) 0) /\
  (reqSizeBytes req = 0 ->
   body (fst (getPDR request len h))
   = GetPdrBody (nextRecordHandle e) 0 PLDM_START_AND_END 0 [] 0).
Proof.
  intros Hgate Hlen Hdec Hsome Hsize n.
  rewrite (getPDR_lookup request len h req) by assumption.
  rewrite Hsome. cbn [fst body].
  assert (H16 : wrap 16 (entry_size e) = entry_size e).
  { unfold wrap. apply Z.mod_small. unfold entry_size in *. lia. }
  rewrite H16.
  destruct (Z.eqb_spec (reqSizeBytes req) 0) as [H0 | H0]; cbn [negb].
  - assert (Hn : n = 0) by (subst n; unfold entry_size; lia).
    rewrite Hn. split; [reflexivity | intros _; reflexivity].
  - split; [| intros; contradiction].
    destruct (Z.ltb_spec (reqSizeBytes req) (entry_size e)).
    + replace n with (reqSizeBytes req) by (subst n; lia). reflexivity.
    + replace n with (entry_size e) by (subst n; lia). reflexivity.
Qed.

(** ** Sensor events *)

(** C10: for a sensor event that decodes as a StateSensorState event,
    when the host PDR map has no entry for [(tid, sensorId)] nor for
    [(PLDM_TID_RESERVED, sensorId)], or there is no host PDR handler at
    all, [sensorEvent] returns [PLDM_SUCCESS]; the state sensor event
    signal is emitted and nothing else is done. *)
Theorem sensorEvent_unknown_sensor (request : pldm_msg) (len tid off : Z)
    (h : Handler) (ev : SensorEventData) (sd : StateSensorData) :
  decode_sensor_event_data (drop (Z.to_nat off) (payload request))
    (wrap 64 (len - off)) = (PLDM_SUCCESS, ev) ->
  sensorEventClass ev = PLDM_STATE_SENSOR_STATE ->
  decode_state_sensor_data
    (drop (Z.to_nat (off + eventClassDataOffset ev)) (payload request))
    (wrap 64 (len - off - eventClassDataOffset ev)) = (PLDM_SUCCESS, sd) ->
  (forall host,
     hostPDRHandler h = Some host ->
     lookupSensorInfo host (tid, sensorId ev) = None /\
     lookupSensorInfo host (PLDM_TID_RESERVED, sensorId ev) = None) ->
  sensorEvent request len tid off h
  = (PLDM_SUCCESS,
     [EmitStateSensorEventSignal tid (sensorId ev) (sensorOffset sd)
        (eventState sd) (previousEventState sd)]).
Proof.
  intros Hev Hclass Hsd Hmap. unfold sensorEvent.
  rewrite Hev, Z.eqb_refl. cbn [negb].
  rewrite Hclass, Z.eqb_refl, Hsd, Z.eqb_refl. cbn [negb].
  destruct (hostPDRHandler h) as [host |]; [| reflexivity].
  destruct (Hmap host eq_refl) as [H1 H2]. rewrite H1, H2. reflexivity.
Qed.

End PlatformProperties.

(** ** The responder on concrete inputs *)

Section PlatformExamples.

#[local] Existing Instance Example.platform_types.
#[local] Existing Instance Example.platform_env.

Lemma platformEventMessage_chain_witness :
  Platform.platformEventMessage (Example.event_req 0 [1; 2; 3]) 6
    Example.responder []
  = (Platform.ccOnlyResponse (Example.event_req 0 [1; 2; 3]) 0x02,
     ["first"; "second"]%string)
  /\
  Platform.platformEventMessage (Example.event_req 5 [1; 2; 3]) 6
    Example.responder []
  = (event_success (Example.event_req 5 [1; 2; 3]),
     ["poll"; "script"]%string).
Proof.
  split.
  - refine (proj1 (platformEventMessage_chain (Example.event_req 0 [1; 2; 3])
                     6 Example.responder []
                     (Platform.mkEventMsgReq 1 1 0 3)
                     [Example.ok_handler "first";
                      Example.failing_handler "second" 0x02;
                      Example.ok_handler "third"] _ _ _)
              [Example.ok_handler "first"]
              (Example.failing_handler "second" 0x02)
              [Example.ok_handler "third"]
              ["first"%string] ["first"; "second"]%string 0x02 _ _ _ _).
    + reflexivity.
    + simpl. lia.
    + reflexivity.
    + reflexivity.
    + apply chain_next with (w1 := ["first"%string]);
        [reflexivity | apply chain_done].
    + reflexivity.
    + simpl. lia.
  - refine (proj2 (proj2 (platformEventMessage_chain
                            (Example.event_req 5 [1; 2; 3]) 6
                            Example.responder []
                            (Platform.mkEventMsgReq 1 1 5 3)
                            [Example.ok_handler "poll";
                             Example.ok_handler "script"] _ _ _))
              ["poll"; "script"]%string _).
    + reflexivity.
    + simpl. lia.
    + reflexivity.
    + apply chain_next with (w1 := ["poll"%string]); [reflexivity |].
      apply chain_next with (w1 := ["poll"; "script"]%string);
        [reflexivity | apply chain_done].
Defined.

(** C6, as stated, fails: a handler that returns [PLDM_ERROR] is
    registered for the heartbeat class; a heartbeat message is answered
    with the success response and the handler has not run. *)
Lemma platformEventMessage_chain_counterexample :
  Platform.eventHandlers Example.responder !! 0x06
  = Some [Example.failing_handler "heartbeat" 0x01] /\
  Example.failing_handler "heartbeat" 0x01 (Example.event_req 6 []) 4 1 1 3 []
  = (Platform.Ret 0x01, ["heartbeat"%string]) /\
  Platform.platformEventMessage (Example.event_req 6 []) 4 Example.responder []
  = (event_success (Example.event_req 6 []), []).
Proof. repeat split. Qed.

Lemma getPDR_invalid_record_handle_witness :
  fst (Platform.getPDR (Example.getPDR_req 0xFFFF 16) 13 Example.responder)
  = Platform.ccOnlyResponse (Example.getPDR_req 0xFFFF 16) 0x82 /\
  Platform.completion_code
    (fst (Platform.getPDR (Example.getPDR_req 0xFFFF 16) 13 Example.responder))
  = 0x82 /\
  Platform.body
    (fst (Platform.getPDR (Example.getPDR_req 0xFFFF 16) 13 Example.responder))
  = Platform.NoBody /\
  Platform.resp_instance_id
    (fst (Platform.getPDR (Example.getPDR_req 0xFFFF 16) 13 Example.responder))
  = 3.
Proof.
  refine (getPDR_invalid_record_handle (Example.getPDR_req 0xFFFF 16) 13
            Example.responder (Platform.mkGetPdrReq 0xFFFF 0 1 16 0)
            _ _ _ _); reflexivity.
Defined.

(** C7, as stated, fails: record handle [0xFFFF] matches no record, the
    host is up and the OEM handler reports that the BMC is not ready; the
    completion code is [PLDM_ERROR_NOT_READY]. *)
Lemma getPDR_invalid_record_handle_counterexample :
  Platform.getRecordByHandle
    (Platform.pdrRepo (Platform.buildRepo Example.responder_not_ready)) 0xFFFF
  = None /\
  Platform.completion_code
    (fst (Platform.getPDR (Example.getPDR_req 0xFFFF 16) 13
            Example.responder_not_ready))
  = 0x04 /\
  0x04 <> Platform.PLDM_PLATFORM_INVALID_RECORD_HANDLE.
Proof.
  split; [vm_compute; reflexivity |].
  split; [vm_compute; reflexivity |]. vm_compute. discriminate.
Qed.

Lemma getPDR_record_data_witness :
  fst (Platform.getPDR (Example.getPDR_req 1 3) 13 Example.responder)
  = Platform.mkResponse 3 0x02 0x51 0x00
      (Platform.GetPdrBody 2 0 0x05 3 [0x10; 0x11; 0x12] 0) /\
  fst (Platform.getPDR (Example.getPDR_req 2 16) 13 Example.responder)
  = Platform.mkResponse 3 0x02 0x51 0x00
      (Platform.GetPdrBody 3 0 0x05 2 [0x20; 0x21] 0) /\
  Platform.body
    (fst (Platform.getPDR (Example.getPDR_req 1 0) 13 Example.responder))
  = Platform.GetPdrBody 2 0 0x05 0 [] 0.
Proof.
  split; [| split].
  - refine (proj1 (getPDR_record_data (Example.getPDR_req 1 3) 13
                     Example.responder (Platform.mkGetPdrReq 1 0 1 3 0)
                     (Platform.mkEntry [0x10; 0x11; 0x12; 0x13; 0x14] 2)
                     _ _ _ _ _)); reflexivity.
  - refine (proj1 (getPDR_record_data (Example.getPDR_req 2 16) 13
                     Example.responder (Platform.mkGetPdrReq 2 0 1 16 0)
                     (Platform.mkEntry [0x20; 0x21] 3)
                     _ _ _ _ _)); reflexivity.
  - refine (proj2 (getPDR_record_data (Example.getPDR_req 1 0) 13
                     Example.responder (Platform.mkGetPdrReq 1 0 1 0 0)
                     (Platform.mkEntry [0x10; 0x11; 0x12; 0x13; 0x14] 2)
                     _ _ _ _ _) _); reflexivity.
Defined.

(** C9, as stated, fails.  Record 1 exists, but while the BMC is not
    ready the response carries [PLDM_ERROR_NOT_READY] and no record data.
    And record 3 has 65536 bytes: its size is narrowed to the 16-bit
    [respSizeBytes] before it is compared with the requested 16 bytes, so
    the response carries no byte of it. *)
Lemma getPDR_record_data_counterexample :
  (Platform.getRecordByHandle
     (Platform.pdrRepo (Platform.buildRepo Example.responder_not_ready)) 1
   = Some (Platform.mkEntry [0x10; 0x11; 0x12; 0x13; 0x14] 2) /\
   fst (Platform.getPDR (Example.getPDR_req 1 3) 13
          Example.responder_not_ready)
   = Platform.ccOnlyResponse (Example.getPDR_req 1 3) 0x04)
  /\
  (Platform.entry_size <$>
     Platform.getRecordByHandle
       (Platform.pdrRepo (Platform.buildRepo Example.responder)) 3
   = Some 65536 /\
   record_bytes
     (fst (Platform.getPDR (Example.getPDR_req 3 16) 13 Example.responder))
   = [] /\
   Z.min 65536 16 = 16).
Proof.
  split.
  - split; vm_compute; reflexivity.
  - split; [vm_compute; reflexivity |].
    split; [vm_compute; reflexivity | reflexivity].
Qed.

Lemma sensorEvent_unknown_sensor_witness :
  Platform.sensorEvent (Example.state_sensor_event 8) 9 1 3
    Example.responder_with_host
  = (0x00, [Platform.EmitStateSensorEventSignal 1 8 0 2 1]).
Proof.
  refine (sensorEvent_unknown_sensor (Example.state_sensor_event 8) 9 1 3
            Example.responder_with_host
            (Platform.mkSensorEventData 8 1 3)
            (Platform.mkStateSensorData 0 2 1) _ _ _ _).
  - reflexivity.
  - reflexivity.
  - reflexivity.
  - intros host Hhost. injection Hhost as <-. split; reflexivity.
Defined.

End PlatformExamples.

(** * Properties of the BIOS registry *)

Section BiosProperties.

Context {types : BiosParser.Types} {env : BiosParser.Env}.
Import BiosParser.

Lemma map_emplace_non_empty `{Countable K} {V} (k : K) (v : V)
    (m : gmap K V) :
  map_emplace k v m <> ∅.
Proof.
  unfold map_emplace. destruct (m !! k) eqn:Hk.
  - intros ->. rewrite lookup_empty in Hk. discriminate.
  - apply insert_non_empty.
Qed.

Lemma setupBIOSType_frame (jsonName : string) (entry : Entry)
    (r r' : Registry) (code : Z) :
  setupBIOSType jsonName entry r = Some (code, r') ->
  BIOSStrings r' = BIOSStrings r /\ BIOSAttrLookup r' = BIOSAttrLookup r.
Proof.
  unfold setupBIOSType.
  destruct (String.eqb jsonName bIOSEnumJson).
  - unfold enum_setup.
    destruct (dbus entry) as [d |]; cbn.
    + destruct (populateMapping _ _ _); cbn; [| discriminate].
      intros H. inversion H. split; reflexivity.
    + intros H. inversion H. split; reflexivity.
  - destruct (String.eqb jsonName bIOSStrJson).
    + unfold string_setup.
      destruct (strTypeMap !! string_type entry);
        [destruct (negb _) |]; cbn; intros H; inversion H;
        split; reflexivity.
    + destruct (String.eqb jsonName bIOSIntegerJson).
      * unfold integer_setup. destruct (negb _); cbn; intros H;
          inversion H; split; reflexivity.
      * intros H. inversion H. split; reflexivity.
Qed.

Lemma setupEntries_consistent (jsonName : string) (entries : list Entry) :
  forall r r',
    consistent r ->
    setupEntries jsonName entries r = Some r' ->
    consistent r'.
Proof.
  induction entries as [| entry rest IH]; intros r r' Hr Hrun.
  - cbn in Hrun. inversion Hrun. subst. exact Hr.
  - cbn [setupEntries] in Hrun.
    destruct (setupBIOSType jsonName entry _) as [[code r3] |] eqn:Htype;
      cbn in Hrun; [| discriminate].
    apply setupBIOSType_frame in Htype as [_ Hlookup].
    apply (IH r3 r'); [| exact Hrun].
    intros _. rewrite Hlookup. cbn. apply map_emplace_non_empty.
Qed.

Lemma setupFiles_consistent (d : Dir) (names : list string) :
  forall r r',
    consistent r -> setupFiles d names r = Some r' -> consistent r'.
Proof.
  induction names as [| jsonName rest IH]; intros r r' Hr Hrun.
  - cbn in Hrun. inversion Hrun. subst. exact Hr.
  - cbn [setupFiles] in Hrun.
    destruct (dir_entries d jsonName) as [entries |].
    + destruct (setupEntries jsonName entries r) as [r1 |] eqn:Hentries;
        cbn in Hrun; [| discriminate].
      apply (IH r1 r'); [| exact Hrun].
      exact (setupEntries_consistent jsonName entries r r1 Hr Hentries).
    + exact (IH r r' Hr Hrun).
Qed.

Lemma setupConfig_populated (d : Dir) (r : Registry) :
  populated r -> setupConfig d r = Some (0, r).
Proof.
  intros [Hs Hl]. unfold setupConfig.
  rewrite (bool_decide_eq_false_2 _ Hs), (bool_decide_eq_false_2 _ Hl).
  reflexivity.
Qed.

(** C8: once the registry is populated, [setupConfig] returns 0 and
    leaves every global (strings, attribute lookup, value maps) as it
    is, whatever the directory holds.  A first call on the empty
    registry that returns 0 populates it, so a second call is such a
    no-op and yields the registry of the first. *)
Theorem setupConfig_idempotent :
  (forall d r, populated r -> setupConfig d r = Some (0, r)) /\
  (forall d1 d2 r1,
     setupConfig d1 emptyRegistry = Some (0, r1) ->
     populated r1 /\ setupConfig d2 r1 = Some (0, r1)).
Proof.
  split; [exact setupConfig_populated |].
  intros d1 d2 r1 Hfirst.
  assert (Hpop : populated r1).
  { unfold setupConfig in Hfirst. cbn [BIOSStrings emptyRegistry] in Hfirst.
    rewrite bool_decide_eq_true_2 in Hfirst by reflexivity.
    cbn [negb andb] in Hfirst.
    destruct (negb (dir_exists d1) || dir_is_empty d1);
      [inversion Hfirst |].
    destruct (setupFiles d1 BIOSConfigFiles emptyRegistry) as [r' |] eqn:Hrun;
      cbn in Hfirst; [| discriminate].
    destruct (bool_decide (BIOSStrings r' = [])) eqn:Hs;
      inversion Hfirst; subst r'.
    apply bool_decide_eq_false_1 in Hs.
    split; [exact Hs |].
    apply (setupFiles_consistent d1 BIOSConfigFiles emptyRegistry r1);
      [| exact Hrun | exact Hs].
    intros H. contradiction H. reflexivity. }
  split; [exact Hpop | exact (setupConfig_populated d2 r1 Hpop)].
Qed.

End BiosProperties.

(** ** The registry on concrete inputs *)

Section BiosExamples.

#[local] Existing Instance Example.bios_types.
#[local] Existing Instance Example.bios_env.

Lemma setupConfig_idempotent_witness :
  exists r1,
    BiosParser.setupConfig Example.bios_dir BiosParser.emptyRegistry
    = Some (0, r1) /\
    BiosParser.BIOSStrings r1
    = ["FWBootSide"; "Perm"; "Temp"; "str_example"]%string /\
    BiosParser.setupConfig Example.no_dir r1 = Some (0, r1).
Proof.
  pose proof (proj2 setupConfig_idempotent Example.bios_dir Example.no_dir)
    as Hsecond.
  match eval vm_compute in
        (BiosParser.setupConfig Example.bios_dir BiosParser.emptyRegistry) with
  | Some (_, ?r) => exists r; specialize (Hsecond r)
  end.
  match type of Hsecond with
  | ?first -> _ => assert (Hfirst : first) by (vm_compute; reflexivity)
  end.
  split; [exact Hfirst |].
  split; [reflexivity | exact (proj2 (Hsecond Hfirst))].
Defined.

End BiosExamples.

(** * Further properties of the poller *)

Section PollerLoopProperties.

Context {env : Poller.Env} {handlers : Poller.Handlers}.
Import Poller.

Lemma wrap_add_l (a b : Z) : wrap 32 (wrap 32 a + b) = wrap 32 (a + b).
Proof. unfold wrap. apply Zplus_mod_idemp_l. Qed.

Lemma vector_insert_length {A} (v : list A) (pos : Z) (xs d : list A) :
  vector_insert v pos xs = Some d ->
  length d = (length v + length xs)%nat.
Proof.
  unfold vector_insert.
  destruct (Z.leb_spec 0 pos) as [Hlo | Hlo]; [| discriminate].
  destruct (Z.leb_spec pos (Z.of_nat (length v))) as [Hhi | Hhi];
    [| discriminate].
  cbn. intros Hd. inversion Hd.
  rewrite !length_app, length_take, length_drop. lia.
Qed.

Lemma receive_part_total (pos : Z) (r : PollResp) (b b' : RecvPollInfo) :
  totalSize b = wrap 32 (Z.of_nat (length (data b))) ->
  receive_part pos r b = Some b' ->
  totalSize b' = wrap 32 (Z.of_nat (length (data b'))).
Proof.
  intros Hb. unfold receive_part.
  destruct (vector_insert (data b) pos (retEventData r)) as [d |] eqn:Hd;
    [| discriminate].
  cbn. intros H. inversion H. cbn.
  rewrite (vector_insert_length _ _ _ _ Hd), Hb, wrap_add_l.
  unfold retEventDataSize. f_equal. lia.
Qed.

Lemma storePart_frame (r : PollResp) (evId next : Z) (s : State)
    (e : list Effect) (s' : State) :
  storePart r evId next s = Some (e, s') ->
  isPolling s' = isPolling s /\
  isProcessPolling s' = isProcessPolling s /\
  responseReceived s' = responseReceived s /\
  critEventQueue s' = critEventQueue s /\
  (recvData s' = recvData s \/
   exists pos, receive_part pos r (recvData s) = Some (recvData s')).
Proof.
  unfold storePart.
  repeat match goal with
         | |- context [if ?c then _ else _] => destruct c
         end;
    try (destruct (receive_part _ r (recvData s)) as [b |] eqn:Hb; cbn);
    intros H; inversion H; subst; cbn; repeat split; eauto.
Qed.

Lemma processResponseMsg_cases (r : PollResp) (s : State)
    (e : list Effect) (s' : State) :
  processResponseMsg r s = Some (e, s') ->
  (e, s') = reset (announce s) \/
  exists evId next, storePart r evId next (announce s) = Some (e, s').
Proof.
  unfold processResponseMsg.
  repeat match goal with
         | |- context [if ?c then _ else _] => destruct c
         end;
    intros H; try (inversion H; left; reflexivity).
  right. eauto.
Qed.

Ltac coherent_frame Hs :=
  let Hflags := fresh "Hflags" in
  let Htotal := fresh "Htotal" in
  let Hpoll := fresh "Hpoll" in
  destruct Hs as [Hflags Htotal];
  split;
  [ cbn; intros Hpoll; try discriminate;
    try (destruct (Hflags Hpoll); split; congruence); auto
  | first [exact Htotal | reflexivity] ].

Lemma coherent_turn (t : Turn) (s s' : State) :
  coherent s -> turn t s = Some s' -> coherent s'.
Proof.
  intros Hs Hturn. destruct t; cbn in Hturn.
  - inversion Hturn. subst. unfold normalEventCb.
    destruct (isProcessPolling s || isCritical s); exact Hs.
  - inversion Hturn. subst. unfold criticalEventCb.
    destruct (isProcessPolling s) eqn:Hp; [exact Hs |].
    destruct (critEventQueue s); coherent_frame Hs.
  - inversion Hturn. subst. unfold pollEventReqCb.
    destruct (isPolling s) eqn:Hp; [exact Hs |].
    destruct (eventIdToAck (reqData s) =? 65535); [exact Hs |].
    destruct (negb (encode_rc =? PLDM_SUCCESS)); [coherent_frame Hs |].
    destruct (negb (register_rc =? 0)); coherent_frame Hs.
  - destruct (processResponseMsg r s) as [[e s1] |] eqn:Hrun;
      cbn in Hturn; [| discriminate].
    inversion Hturn. subst s1. destruct Hs as [Hflags Htotal].
    apply processResponseMsg_cases in Hrun as [Hreset | (evId & next & Hstore)].
    + inversion Hreset. split; [discriminate | reflexivity].
    + apply storePart_frame in Hstore as (Hp & _ & _ & _ & Hrecv).
      split; [rewrite Hp; cbn; discriminate |].
      destruct Hrecv as [-> | (pos & Hpart)]; [exact Htotal |].
      exact (receive_part_total _ _ _ _ Htotal Hpart).
  - inversion Hturn. subst. unfold pollReqTimeoutHdl.
    destruct (negb (responseReceived s)); [| exact Hs].
    split; [discriminate | reflexivity].
  - inversion Hturn. subst. unfold enqueueCriticalEvent.
    destruct (enqueue item (critEventQueue s)). exact Hs.
  - inversion Hturn. subst. exact Hs.
Qed.

(** X1: whatever callbacks the event loop runs and whatever responses
    arrive, the poller keeps this invariant once it holds: a request is
    outstanding only while a transfer is in progress and no response has
    been seen, and [totalSize] is the length of the receive buffer
    modulo 2^32. *)
Theorem coherent_run (ts : list Turn) (s s' : State) :
  coherent s -> turns ts s = Some s' -> coherent s'.
Proof.
  revert s. induction ts as [| t ts IH]; intros s Hs Hrun.
  - inversion Hrun. subst. exact Hs.
  - cbn in Hrun. destruct (turn t s) as [s1 |] eqn:Hturn; [| discriminate].
    apply (IH s1); [exact (coherent_turn t s s1 Hs Hturn) | exact Hrun].
Qed.

Lemma enqueue_queue_ok (item : Z) (q : list Z) :
  NoDup q -> (length q <= MAX_QUEUE_SIZE + 1)%nat ->
  NoDup (snd (enqueue item q)) /\
  (length (snd (enqueue item q)) <= MAX_QUEUE_SIZE + 1)%nat.
Proof.
  intros Hnd Hlen. split; [| apply enqueue_bound; exact Hlen].
  unfold enqueue.
  destruct (MAX_QUEUE_SIZE <? length q)%nat; [exact Hnd |].
  destruct (queue_has item q) eqn:Hhas; [exact Hnd |]. cbn.
  apply NoDup_app. split; [exact Hnd |]. split.
  - intros x Hx Hin. apply list_elem_of_singleton in Hin. subst x.
    apply queue_has_not_In in Hhas. apply Hhas.
    apply list_elem_of_In. exact Hx.
  - apply NoDup_singleton.
Qed.

Lemma queue_ok_turn (t : Turn) (s s' : State) :
  queue_ok s -> turn t s = Some s' -> queue_ok s'.
Proof.
  intros Hs Hturn. destruct t; cbn in Hturn.
  - inversion Hturn. subst. unfold normalEventCb.
    destruct (isProcessPolling s || isCritical s); exact Hs.
  - inversion Hturn. subst. unfold criticalEventCb.
    destruct (isProcessPolling s); [exact Hs |].
    destruct Hs as [Hnd Hlen]. unfold queue_ok.
    destruct (critEventQueue s) as [| x q]; cbn; [split; assumption |].
    apply NoDup_cons in Hnd as [_ Hnd]. cbn in Hlen. split; [exact Hnd | lia].
  - inversion Hturn. subst. unfold pollEventReqCb.
    repeat match goal with
           | |- context [if ?c then _ else _] => destruct c
           end; exact Hs.
  - destruct (processResponseMsg r s) as [[e s1] |] eqn:Hrun;
      cbn in Hturn; [| discriminate].
    inversion Hturn. subst s1.
    apply processResponseMsg_cases in Hrun as [Hreset | (evId & next & Hstore)].
    + inversion Hreset. exact Hs.
    + apply storePart_frame in Hstore as (_ & _ & _ & Hq & _).
      unfold queue_ok. rewrite Hq. exact Hs.
  - inversion Hturn. subst. unfold pollReqTimeoutHdl.
    destruct (negb (responseReceived s)); exact Hs.
  - inversion Hturn. subst.
    destruct (enqueueCriticalEvent_unfold item s) as [_ Hq].
    destruct Hs as [Hnd Hlen].
    unfold queue_ok. rewrite Hq. apply enqueue_queue_ok; assumption.
  - inversion Hturn. subst. exact Hs.
Qed.

(** X2: whatever callbacks the event loop runs and whatever responses
    arrive, a critical queue that holds no Event ID twice and at most
    [MAX_QUEUE_SIZE + 1] entries stays so. *)
Theorem queue_ok_run (ts : list Turn) (s s' : State) :
  queue_ok s -> turns ts s = Some s' -> queue_ok s'.
Proof.
  revert s. induction ts as [| t ts IH]; intros s Hs Hrun.
  - inversion Hrun. subst. exact Hs.
  - cbn in Hrun. destruct (turn t s) as [s1 |] eqn:Hturn; [| discriminate].
    apply (IH s1); [exact (queue_ok_turn t s s1 Hs Hturn) | exact Hrun].
Qed.

Lemma served_queue (q : list Z) :
  forall s,
    isProcessPolling s = false -> critEventQueue s = q ->
    served (length q) s = q.
Proof.
  induction q as [| x q IH]; intros s Hp Hq; [reflexivity |].
  cbn [length served].
  assert (Hstep : criticalEventCb s
                  = mkState (isProcessPolling s) (isPolling s)
                      (responseReceived s) true
                      (mkReq PLDM_GET_FIRSTPART x x) (recvData s) q
                      (instanceId s) (eventHndls s) true
                      (pollReqTimeoutTimer s)).
  { unfold criticalEventCb. rewrite Hp, Hq. reflexivity. }
  rewrite Hstep. cbn [reqData eventIdToAck]. f_equal.
  apply IH; [exact Hp | reflexivity].
Qed.

(** X3: the critical queue is first in, first out.  An accepted
    [enqueueCriticalEvent] puts the Event ID behind the queued ones, and
    while no transfer is in progress successive firings of the critical
    timer callback take up the queued Event IDs in queue order, the new
    one last. *)
Theorem critical_queue_fifo (item : Z) (s : State) :
  isProcessPolling s = false ->
  fst (enqueueCriticalEvent item s) = 0 ->
  served (S (length (critEventQueue s))) (snd (enqueueCriticalEvent item s))
  = critEventQueue s ++ [item].
Proof.
  intros Hp Hok.
  destruct (enqueueCriticalEvent_unfold item s) as [Hr Hq].
  rewrite Hr in Hok.
  assert (Hq' : critEventQueue (snd (enqueueCriticalEvent item s))
                = critEventQueue s ++ [item]).
  { rewrite Hq. unfold enqueue in *.
    destruct (MAX_QUEUE_SIZE <? length (critEventQueue s))%nat;
      [discriminate |].
    destruct (queue_has item (critEventQueue s)); [discriminate |].
    reflexivity. }
  replace (S (length (critEventQueue s)))
    with (length (critEventQueue s ++ [item]))
    by (rewrite length_app; cbn; lia).
  apply served_queue; [| exact Hq'].
  unfold enqueueCriticalEvent.
  destruct (enqueue item (critEventQueue s)). exact Hp.
Qed.

(** X4: [registerEventHandler] keeps the first handler registered for an
    event class: a class without handler gets the new one, a class with
    a handler keeps it, and the other classes are not touched. *)
Theorem registerEventHandler_first_wins (cls : Z) (f : HandlerFunc)
    (s : State) :
  (eventHndls s !! cls = None ->
   eventHndls (registerEventHandler cls f s) !! cls = Some f) /\
  (forall g, eventHndls s !! cls = Some g ->
             eventHndls (registerEventHandler cls f s) = eventHndls s) /\
  (forall g,
     eventHndls (registerEventHandler cls g (registerEventHandler cls f s))
     = eventHndls (registerEventHandler cls f s)) /\
  (forall c, c <> cls ->
             eventHndls (registerEventHandler cls f s) !! c
             = eventHndls s !! c).
Proof.
  unfold registerEventHandler, map_emplace. cbn.
  split; [| split; [| split]].
  - intros H. rewrite H. apply lookup_insert_eq.
  - intros g H. rewrite H. reflexivity.
  - intros g. destruct (eventHndls s !! cls) eqn:H.
    + rewrite H. reflexivity.
    + rewrite lookup_insert_eq. reflexivity.
  - intros c Hc. destruct (eventHndls s !! cls); [reflexivity |].
    apply lookup_insert_ne. congruence.
Qed.

(** X5: [pollEventReqCb] does nothing while a request is outstanding or
    once the Event ID to acknowledge is [0xFFFF].  Otherwise it takes an
    instance id; when encoding fails nothing is sent and no flag changes;
    when [registerRequest] fails the instance id is marked free again and
    no flag changes; when the request goes out [isPolling] and
    [isProcessPolling] are set, and until a response or the timeout every
    further firing of the callback does nothing. *)
Theorem pollEventReqCb_outcomes (iid encode_rc register_rc : Z) (s : State) :
  (isPolling s = true \/ eventIdToAck (reqData s) = 0xffff ->
   pollEventReqCb iid encode_rc register_rc s = ([], s)) /\
  (isPolling s = false -> eventIdToAck (reqData s) <> 0xffff ->
   let request :=
     RegisterRequest iid (operationFlag (reqData s))
       (dataTransferHandle (reqData s)) (eventIdToAck (reqData s)) in
   let s' := snd (pollEventReqCb iid encode_rc register_rc s) in
   (encode_rc <> PLDM_SUCCESS ->
    fst (pollEventReqCb iid encode_rc register_rc s) = [GetInstanceId iid]
    /\ isPolling s' = false
    /\ isProcessPolling s' = isProcessPolling s) /\
   (encode_rc = PLDM_SUCCESS -> register_rc <> 0 ->
    fst (pollEventReqCb iid encode_rc register_rc s)
    = [GetInstanceId iid; request; MarkFree iid]
    /\ isPolling s' = false
    /\ isProcessPolling s' = isProcessPolling s) /\
   (encode_rc = PLDM_SUCCESS -> register_rc = 0 ->
    fst (pollEventReqCb iid encode_rc register_rc s)
    = [GetInstanceId iid; request]
    /\ isPolling s' = true /\ isProcessPolling s' = true
    /\ instanceId s' = iid
    /\ forall iid' erc' rrc', pollEventReqCb iid' erc' rrc' s' = ([], s'))).
Proof.
  split.
  - intros [H | H]; unfold pollEventReqCb.
    + rewrite H. reflexivity.
    + destruct (isPolling s); [reflexivity |]. rewrite H. reflexivity.
  - intros Hp Hid request s'. subst s'. unfold pollEventReqCb.
    rewrite Hp.
    destruct (Z.eqb_spec (eventIdToAck (reqData s)) 0xffff); [contradiction |].
    split; [| split].
    + intros He.
      destruct (Z.eqb_spec encode_rc PLDM_SUCCESS); [contradiction |].
      cbn. repeat split; assumption.
    + intros -> Hr. rewrite Z.eqb_refl. cbn [negb].
      destruct (Z.eqb_spec register_rc 0); [contradiction |].
      cbn. repeat split; assumption.
    + intros -> ->. rewrite Z.eqb_refl. cbn. repeat split.
Qed.

(** X6: when the poll timeout fires after a request went out and no
    response has arrived, [reset()] runs: the instance id of that request
    is marked free and the transfer is abandoned.  After a response that
    was accepted the timeout handler does nothing. *)
Theorem pollReqTimeoutHdl_after_send (iid : Z) (s : State) :
  isPolling s = false ->
  eventIdToAck (reqData s) <> 0xffff ->
  let s1 := snd (pollEventReqCb iid PLDM_SUCCESS 0 s) in
  (fst (pollReqTimeoutHdl s1) = [MarkFree iid] /\
   isPolling (snd (pollReqTimeoutHdl s1)) = false /\
   isProcessPolling (snd (pollReqTimeoutHdl s1)) = false /\
   reqData (snd (pollReqTimeoutHdl s1)) = mkReq 0 0 0 /\
   recvData (snd (pollReqTimeoutHdl s1)) = mkRecv 0 0 [] /\
   pollEventReqTimer (snd (pollReqTimeoutHdl s1)) = false) /\
  (forall evid r e s2,
     accepted evid r s1 -> processResponseMsg r s1 = Some (e, s2) ->
     pollReqTimeoutHdl s2 = ([], s2)).
Proof.
  intros Hp Hid s1. subst s1.
  rewrite pollEventReqCb_sends by assumption. cbn [snd]. split.
  - cbn. repeat split.
  - intros evid r e s2 Hacc Hrun.
    rewrite (processResponseMsg_accepted evid) in Hrun by exact Hacc.
    apply storePart_frame in Hrun as (_ & _ & Hresp & _).
    unfold pollReqTimeoutHdl. rewrite Hresp. reflexivity.
Qed.

Lemma exchange_terminated (iid : Z) (r : PollResp) (s : State) :
  isPolling s = false ->
  eventIdToAck (reqData s) <> 0xffff ->
  rc r = PLDM_SUCCESS -> retEventId r = 0xffff ->
  exchange (iid, r) s
  = Some ([GetInstanceId iid;
           RegisterRequest iid (operationFlag (reqData s))
             (dataTransferHandle (reqData s)) (eventIdToAck (reqData s));
           MarkFree iid],
          snd (reset (announce (sent iid s)))).
Proof.
  intros Hp Hid Hrc Hev. unfold exchange. cbn [fst snd].
  rewrite pollEventReqCb_sends by assumption.
  unfold processResponseMsg. rewrite Hrc, Z.eqb_refl. cbn [negb].
  rewrite Hev. change (Z.land 65535 65535) with 65535.
  reflexivity.
Qed.

Lemma exchange_single_part (iid : Z) (r : PollResp) (s : State) :
  flags_distinct ->
  isPolling s = false ->
  accepted (retEventId r) r s ->
  retTransferFlag r = PLDM_START_AND_END ->
  dataTransferHandle (reqData s) = 0 ->
  data (recvData s) = [] ->
  exists s',
    exchange (iid, r) s
    = Some ([GetInstanceId iid;
             RegisterRequest iid (operationFlag (reqData s)) 0
               (eventIdToAck (reqData s))]
            ++ delivery s r (retEventData r), s') /\
    isPolling s' = false /\
    reqData s' = mkReq PLDM_ACKNOWLEDGEMENT_ONLY 0 (retEventId r).
Proof.
  intros Hd Hp Hacc Hflag Hh Hdata.
  rewrite (exchange_accepted (retEventId r) (iid, r) s Hp Hacc).
  cbn [fst snd].
  assert (Hpos : 0 <= dataTransferHandle (reqData (announce (sent iid s)))
                 <= Z.of_nat (length (data (recvData (announce (sent iid s)))))).
  { cbn. lia. }
  rewrite (storePart_START_AND_END r _ _ (announce (sent iid s)) Hd Hflag
             Hpos).
  cbn [mbind option_bind option_ret option_map].
  cbn [announce sent reqData recvData eventHndls].
  rewrite Hh, Hdata. cbn [Z.to_nat take drop app]. rewrite app_nil_r.
  eexists. split; [reflexivity |]. split; reflexivity.
Qed.

(** X7: a single-part event on a normal poll.  From a state without
    transfer, critical event or outstanding request and with an empty
    receive buffer, the normal timer callback, the poll answered by a
    START_AND_END part, and the next poll answered with Event ID [0xFFFF]
    make up this trace: a GetFirstPart request for Event ID 0, the event
    data handed to the handler of its class, an AcknowledgementOnly
    request for the Event ID, and the release of the instance id; the
    poller ends without transfer and with an empty buffer. *)
Theorem single_part_event (s : State) (iid1 iid2 : Z) (r last : PollResp) :
  flags_distinct ->
  isProcessPolling s = false -> isCritical s = false ->
  isPolling s = false -> data (recvData s) = [] ->
  rc r = PLDM_SUCCESS -> 0 < retEventId r < 0xffff ->
  retTransferFlag r = PLDM_START_AND_END ->
  rc last = PLDM_SUCCESS -> retEventId last = 0xffff ->
  exists s',
    exchanges [(iid1, r); (iid2, last)] (normalEventCb s)
    = Some ([GetInstanceId iid1; RegisterRequest iid1 PLDM_GET_FIRSTPART 0 0]
            ++ delivery s r (retEventData r)
            ++ [GetInstanceId iid2;
                RegisterRequest iid2 PLDM_ACKNOWLEDGEMENT_ONLY 0
                  (retEventId r);
                MarkFree iid2], s') /\
    isProcessPolling s' = false /\ isPolling s' = false /\
    recvData s' = mkRecv 0 0 [] /\ reqData s' = mkReq 0 0 0.
Proof.
  intros Hd Hproc Hcrit Hp Hdata Hrc Hid Hflag Hrc' Hid'.
  assert (Hn : normalEventCb s
               = restart_pollEventReqTimer
                   (set_req (mkReq PLDM_GET_FIRSTPART 0 0) s)).
  { unfold normalEventCb. rewrite Hproc, Hcrit. reflexivity. }
  rewrite Hn. set (s0 := restart_pollEventReqTimer _).
  assert (Hacc : accepted (retEventId r) r s0).
  { repeat split; try assumption; try lia. left. reflexivity. }
  destruct (exchange_single_part iid1 r s0 Hd Hp Hacc Hflag eq_refl Hdata)
    as (s1 & Hx1 & Hp1 & Hreq1).
  assert (Hid1 : eventIdToAck (reqData s1) <> 0xffff).
  { rewrite Hreq1. cbn. lia. }
  pose proof (exchange_terminated iid2 last s1 Hp1 Hid1 Hrc' Hid') as Hx2.
  rewrite Hreq1 in Hx2. cbn [operationFlag dataTransferHandle eventIdToAck]
    in Hx2.
  cbn [exchanges]. rewrite Hx1. cbn [mbind option_bind].
  rewrite Hx2. cbn [mbind option_bind].
  eexists. split.
  { rewrite app_nil_r, <- app_assoc. reflexivity. }
  repeat split.
Qed.

(** X8: a poll for a critical event carries the Event ID as data
    transfer handle.  When it is answered right away by a MIDDLE, END or
    START_AND_END part, that handle is the insert offset; with an empty
    receive buffer and an Event ID above 0 it lies past the end of the
    buffer, which [std::vector::insert] does not define. *)
Theorem critical_poll_insert_offset (s : State) (evid : Z) (rest : list Z)
    (iid : Z) (r : PollResp) :
  flags_distinct ->
  isProcessPolling s = false -> isPolling s = false ->
  critEventQueue s = evid :: rest ->
  data (recvData s) = [] ->
  0 < evid < 0xffff ->
  rc r = PLDM_SUCCESS -> retEventId r = evid ->
  retTransferFlag r = PLDM_MIDDLE \/ retTransferFlag r = PLDM_END
  \/ retTransferFlag r = PLDM_START_AND_END ->
  dataTransferHandle (reqData (criticalEventCb s)) = evid /\
  exchange (iid, r) (criticalEventCb s) = None.
Proof.
  intros Hd Hproc Hp Hq Hdata Hev Hrc Hid Hflag.
  assert (Hc : criticalEventCb s
               = mkState (isProcessPolling s) (isPolling s)
                   (responseReceived s) true
                   (mkReq PLDM_GET_FIRSTPART evid evid) (recvData s) rest
                   (instanceId s) (eventHndls s) true
                   (pollReqTimeoutTimer s)).
  { unfold criticalEventCb. rewrite Hproc, Hq. reflexivity. }
  rewrite Hc. split; [reflexivity |].
  set (s0 := mkState _ _ _ _ _ _ _ _ _ _ _).
  assert (Hacc : accepted evid r s0).
  { repeat split; try assumption; try lia. right. reflexivity. }
  rewrite (exchange_accepted evid (iid, r) s0 Hp Hacc).
  apply flags_distinct_ne in Hd as (H1 & H2 & H3 & H4 & H5 & H6).
  assert (Hpart : receive_part evid r (recvData s) = None).
  { unfold receive_part. rewrite vector_insert_past_end; [reflexivity |].
    rewrite Hdata. cbn. lia. }
  unfold storePart. cbn [snd announce sent s0 reqData recvData
                         dataTransferHandle].
  destruct Hflag as [Hf | [Hf | Hf]]; rewrite Hf.
  - destruct (Z.eqb_spec PLDM_MIDDLE PLDM_START); [contradiction |].
    rewrite Z.eqb_refl, Hpart. reflexivity.
  - destruct (Z.eqb_spec PLDM_END PLDM_START); [contradiction |].
    destruct (Z.eqb_spec PLDM_END PLDM_MIDDLE); [contradiction |].
    rewrite Z.eqb_refl. cbn [orb]. rewrite Hpart. reflexivity.
  - destruct (Z.eqb_spec PLDM_START_AND_END PLDM_START); [contradiction |].
    destruct (Z.eqb_spec PLDM_START_AND_END PLDM_MIDDLE); [contradiction |].
    rewrite Z.eqb_refl, orb_true_r, Hpart. reflexivity.
Qed.

End PollerLoopProperties.

(** * Further properties of the responder *)

Section ObjMapsProperties.

Context {DbusObj : Type}.
Import Platform.

(** X9: after [addDbusObjMaps] for an id, [getDbusObjMaps] for that id
    and kind never throws: it returns the object registered first, which
    is the new one only if there was none.  The entries of every other
    id and of the other kind are as before. *)
Theorem getDbusObjMaps_addDbusObjMaps (id : Z) (obj : DbusObj) (t : TypeId)
    (m : ObjMaps DbusObj) :
  getDbusObjMaps id t (addDbusObjMaps id obj t m)
  = Some (default obj (getDbusObjMaps id t m)) /\
  (forall id' t',
     (id', t') <> (id, t) ->
     getDbusObjMaps id' t' (addDbusObjMaps id obj t m)
     = getDbusObjMaps id' t' m).
Proof.
  split.
  - destruct t; cbn; unfold map_emplace;
      match goal with
      | |- context [match ?x with _ => _ end] => destruct x eqn:E
      end; cbn; rewrite ?E, ?lookup_insert_eq; reflexivity.
  - intros id' t' Hne.
    destruct t, t'; cbn; try reflexivity; unfold map_emplace;
      match goal with
      | |- context [match ?x with _ => _ end] => destruct x eqn:E
      end; try reflexivity; apply lookup_insert_ne; congruence.
Qed.

End ObjMapsProperties.

Section ChangeProperties.

Context {types : Platform.Types} {env : Platform.Env}
        {chg : Platform.ChgEnv}.
Import Platform.

Lemma changeEntryAt_in_range (mem : list Z) (i : nat) :
  ((i + 1) * sizeof_ChangeEntry <= length mem)%nat ->
  changeEntryAt mem i
  = Some (ChangeEntry_of_bytes
            (take sizeof_ChangeEntry (drop (i * sizeof_ChangeEntry) mem))).
Proof.
  intros H. unfold changeEntryAt.
  rewrite length_take, length_drop.
  replace (sizeof_ChangeEntry `min` (length mem - i * sizeof_ChangeEntry))%nat
    with sizeof_ChangeEntry by lia.
  rewrite Nat.eqb_refl. reflexivity.
Qed.

Lemma pushEntries_in_range (mem : list Z) (n : nat) :
  forall (i : nat) (handles : list Z),
    ((i + n) * sizeof_ChangeEntry <= length mem)%nat ->
    pushEntries mem i n handles
    = Some (handles
            ++ map (fun i =>
                      ChangeEntry_of_bytes
                        (take sizeof_ChangeEntry
                           (drop (i * sizeof_ChangeEntry) mem)))
                 (seq i n)).
Proof.
  induction n as [| n IH]; intros i handles H.
  - cbn. rewrite app_nil_r. reflexivity.
  - cbn [pushEntries seq map].
    rewrite changeEntryAt_in_range by lia. cbn [mbind option_bind].
    rewrite IH by lia. rewrite <- app_assoc. reflexivity.
Qed.

Lemma getPDRRecordHandles_in_range (mem : list Z) (size n : Z)
    (handles : list Z) :
  (0 < sizeof_ChangeEntry)%nat -> 0 <= n ->
  size <= Z.of_nat (length mem) ->
  getPDRRecordHandles mem size n handles
  = Some (if size / Z.of_nat sizeof_ChangeEntry <? n
          then (PLDM_ERROR_INVALID_DATA, handles)
          else (PLDM_SUCCESS, handles ++ entriesOf mem (Z.to_nat n))).
Proof.
  intros Hsz Hn Hsize. unfold getPDRRecordHandles.
  destruct (Z.ltb_spec (size / Z.of_nat sizeof_ChangeEntry) n) as [Hlt | Hge];
    [reflexivity |].
  assert (Hmul : Z.of_nat sizeof_ChangeEntry * n <= size).
  { etransitivity; [| apply (Z.mul_div_le size (Z.of_nat sizeof_ChangeEntry));
                       lia].
    apply Z.mul_le_mono_nonneg_l; lia. }
  rewrite pushEntries_in_range; [reflexivity |]. nia.
Qed.

Lemma entriesOf_take (mem : list Z) (size n : nat) :
  (n * sizeof_ChangeEntry <= size)%nat ->
  entriesOf (take size mem) n = entriesOf mem n.
Proof.
  intros H. unfold entriesOf. apply map_ext_in. intros i Hi.
  apply in_seq in Hi. f_equal.
  rewrite !take_drop_commute, take_take. do 2 f_equal. nia.
Qed.

(** X10: [getPDRRecordHandles] reads no change entry outside the
    [changeEntryDataSize] bytes it is given.  When that many bytes are
    there, it returns [PLDM_ERROR_INVALID_DATA] and leaves the handles
    alone if the entries asked for do not fit into them, and otherwise
    appends exactly these entries, in order, and returns success; the
    bytes behind [changeEntryDataSize] do not matter. *)
Theorem getPDRRecordHandles_bounds (mem : list Z) (size n : Z)
    (handles : list Z) :
  (0 < sizeof_ChangeEntry)%nat -> 0 <= n ->
  0 <= size <= Z.of_nat (length mem) ->
  getPDRRecordHandles mem size n handles
  = Some (if size / Z.of_nat sizeof_ChangeEntry <? n
          then (PLDM_ERROR_INVALID_DATA, handles)
          else (PLDM_SUCCESS, handles ++ entriesOf mem (Z.to_nat n))) /\
  getPDRRecordHandles (take (Z.to_nat size) mem) size n handles
  = getPDRRecordHandles mem size n handles.
Proof.
  intros Hsz Hn Hsize. split.
  - apply getPDRRecordHandles_in_range; lia.
  - rewrite !getPDRRecordHandles_in_range; try lia.
    + destruct (Z.ltb_spec (size / Z.of_nat sizeof_ChangeEntry) n)
        as [Hlt | Hge]; [reflexivity |].
      rewrite entriesOf_take; [reflexivity |].
      assert (Hmul : Z.of_nat sizeof_ChangeEntry * n <= size).
      { etransitivity;
          [| apply (Z.mul_div_le size (Z.of_nat sizeof_ChangeEntry)); lia].
        apply Z.mul_le_mono_nonneg_l; lia. }
      nia.
    + rewrite length_take. lia.
Qed.

Lemma wrap_small (w x : Z) : 0 <= x < 2 ^ w -> wrap w x = x.
Proof. intros H. unfold wrap. apply Z.mod_small. exact H. Qed.

Lemma changedHandles_cons (op : Z) (es : list Z)
    (recs : list (Z * list Z)) :
  changedHandles ((op, es) :: recs)
  = (if (op =? PLDM_RECORDS_ADDED) || (op =? PLDM_RECORDS_MODIFIED)
     then es else []) ++ changedHandles recs.
Proof. reflexivity. Qed.

Lemma anyModified_cons (op : Z) (es : list Z) (recs : list (Z * list Z)) :
  anyModified ((op, es) :: recs)
  = (op =? PLDM_RECORDS_MODIFIED) || anyModified recs.
Proof. reflexivity. Qed.

Lemma changeRecords_collects (mem : list Z) (size : Z)
    (recs : list (Z * list Z)) :
  (0 < sizeof_ChangeEntry)%nat ->
  changeRecordsOf mem size recs ->
  forall (fuel : nat) (host : option HostPDRs) (handles : list Z),
    (length recs <= fuel)%nat ->
    (anyModified recs = true -> is_Some host) ->
    changeRecords fuel mem size host handles
    = Returns (None, handles ++ changedHandles recs,
               markModified recs <$> host).
Proof.
  intros Hsz Hrecs.
  induction Hrecs as [mem | mem size rec recs Hsize Hbound Hdec Hoff Hn Hfit
                          Hrest IH]; intros fuel host handles Hfuel Hhost.
  - destruct fuel; cbn; rewrite app_nil_r; destruct host; reflexivity.
  - destruct fuel as [| fuel]; [cbn in Hfuel; lia |].
    cbn [changeRecords].
    destruct (Z.eqb_spec size 0) as [-> | _]; [lia |].
    rewrite Hdec, Z.eqb_refl. cbn [negb].
    rewrite changedHandles_cons. unfold markModified.
    rewrite anyModified_cons in *.
    set (off := rec_dataOffset rec) in *.
    set (n := numberOfChangeEntries rec) in *.
    set (op := eventDataOperation rec) in *.
    assert (Hmul : 0 <= n * Z.of_nat sizeof_ChangeEntry) by nia.
    rewrite (wrap_small 64 (off + n * Z.of_nat sizeof_ChangeEntry)) by lia.
    rewrite (wrap_small 64 (size - (off + n * Z.of_nat sizeof_ChangeEntry)))
      by lia.
    rewrite (wrap_small 64 (size - off)) by lia.
    assert (Hfetch : getPDRRecordHandles (drop (Z.to_nat off) mem)
                       (size - off) n handles
                     = Some (PLDM_SUCCESS,
                             handles
                             ++ entriesOf (drop (Z.to_nat off) mem)
                                  (Z.to_nat n))).
    { rewrite getPDRRecordHandles_in_range;
        [| exact Hsz | exact Hn | rewrite length_drop; lia].
      destruct (Z.ltb_spec ((size - off) / Z.of_nat sizeof_ChangeEntry) n)
        as [Hlt | Hge]; [| reflexivity].
      exfalso.
      assert (n <= (size - off) / Z.of_nat sizeof_ChangeEntry);
        [apply Z.div_le_lower_bound; lia | lia]. }
    assert (Hin : (Z.of_nat (length mem)
                   <? off + n * Z.of_nat sizeof_ChangeEntry) = false)
      by (apply Z.ltb_ge; lia).
    cbn [length] in Hfuel.
    rewrite Hin.
    destruct (Z.eqb_spec op PLDM_RECORDS_MODIFIED) as [Hmod | Hmod].
    + rewrite orb_true_r. cbn [orb] in *.
      destruct (Hhost eq_refl) as [hs ->].
      rewrite Hfetch, Z.eqb_refl. cbn [negb].
      rewrite IH; [| lia | intros _; eexists; reflexivity].
      rewrite <- app_assoc. unfold markModified. cbn.
      destruct (anyModified recs); reflexivity.
    + rewrite orb_false_r. cbn [orb] in *.
      destruct (Z.eqb_spec op PLDM_RECORDS_ADDED) as [Hadd | Hadd].
      * rewrite Hfetch, Z.eqb_refl. cbn [negb].
        rewrite IH; [| lia | exact Hhost].
        rewrite <- app_assoc. reflexivity.
      * rewrite IH; [| lia | exact Hhost]. reflexivity.
Qed.

Lemma foldl_delete_lookup (ks : list Z) :
  forall (m : gmap Z (Z * Z * Z)) (k : Z),
    foldl (fun info handle => delete handle info) m ks !! k
    = if decide (k ∈ ks) then None else m !! k.
Proof.
  induction ks as [| k0 ks IH]; intros m k; cbn [foldl].
  - destruct (decide (k ∈ [])) as [H | _]; [| reflexivity].
    apply elem_of_nil in H. contradiction.
  - rewrite IH.
    destruct (decide (k ∈ ks)) as [Hin | Hout].
    + rewrite decide_True by (apply elem_of_cons; auto). reflexivity.
    + destruct (decide (k = k0)) as [-> | Hne].
      * rewrite decide_True by (apply elem_of_cons; auto).
        apply lookup_delete_eq.
      * rewrite decide_False
          by (intros H; apply elem_of_cons in H as [? | ?]; contradiction).
        apply lookup_delete_ne. congruence.
Qed.

Lemma elem_of_handlesOfTid (tid k : Z) (info : gmap Z (Z * Z * Z)) :
  k ∈ handlesOfTid tid info <->
  exists eid validity, info !! k = Some (tid, eid, validity).
Proof.
  unfold handlesOfTid. rewrite merge_sort_Permutation.
  rewrite list_elem_of_fmap. split.
  - intros ([k' [[t e] v]] & -> & Hin).
    apply list_elem_of_filter in Hin as [Ht Hin]. cbn in Ht. subst t.
    apply elem_of_map_to_list in Hin. eauto.
  - intros (eid & validity & Hk).
    exists (k, (tid, eid, validity)). split; [reflexivity |].
    apply list_elem_of_filter. split; [reflexivity |].
    apply elem_of_map_to_list. exact Hk.
Qed.

(** X11: a repository change event in the format [FORMAT_IS_PDR_TYPES]
    is refused with [PLDM_ERROR_INVALID_DATA] and changes nothing.  In
    the format [REFRESH_ENTIRE_REPOSITORY] the event succeeds; with a
    host PDR handler, the terminus handles recorded for the sender's TID
    are taken in ascending order, the PDRs of each are removed from the
    repository and its entry is erased from [tlPDRInfo], the entries of
    other TIDs stay, and [fetchPDR] is called without record handles. *)
Theorem pldmPDRRepositoryChgEvent_formats (fuel : nat) (request : pldm_msg)
    (payloadLength tid eventDataOffset : Z) (host : option HostPDRs)
    (repo : Repo) (ev : ChgEventData) :
  decode_pldm_pdr_repository_chg_event_data
    (drop (Z.to_nat eventDataOffset) (payload request))
    (wrap 64 (payloadLength - eventDataOffset))
  = (PLDM_SUCCESS, ev) ->
  (eventDataFormat ev = FORMAT_IS_PDR_TYPES ->
   pldmPDRRepositoryChgEvent fuel request payloadLength tid eventDataOffset
     host repo
   = Returns (mkChgOutcome PLDM_ERROR_INVALID_DATA host repo None)) /\
  (eventDataFormat ev = REFRESH_ENTIRE_REPOSITORY ->
   REFRESH_ENTIRE_REPOSITORY <> FORMAT_IS_PDR_TYPES ->
   REFRESH_ENTIRE_REPOSITORY <> FORMAT_IS_PDR_HANDLES ->
   match host with
   | None =>
       pldmPDRRepositoryChgEvent fuel request payloadLength tid
         eventDataOffset host repo
       = Returns (mkChgOutcome PLDM_SUCCESS None repo None)
   | Some hs =>
       exists info,
         pldmPDRRepositoryChgEvent fuel request payloadLength tid
           eventDataOffset host repo
         = Returns
             (mkChgOutcome PLDM_SUCCESS
                (Some (mkHostPDRs (isHostPdrModified hs) info))
                (foldl pldm_pdr_remove_pdrs_by_terminus_handle repo
                   (handlesOfTid tid (tlPDRInfo hs)))
                (Some [])) /\
         Sorted Z.le (handlesOfTid tid (tlPDRInfo hs)) /\
         (forall k,
            k ∈ handlesOfTid tid (tlPDRInfo hs) <->
            exists eid validity,
              tlPDRInfo hs !! k = Some (tid, eid, validity)) /\
         (forall k,
            info !! k
            = match tlPDRInfo hs !! k with
              | Some (t, eid, validity) =>
                  if decide (t = tid) then None else Some (t, eid, validity)
              | None => None
              end)
   end).
Proof.
  intros Hdec. unfold pldmPDRRepositoryChgEvent. rewrite Hdec, Z.eqb_refl.
  cbn [negb]. split.
  - intros ->. rewrite Z.eqb_refl. reflexivity.
  - intros -> Hnt Hnh.
    destruct (Z.eqb_spec REFRESH_ENTIRE_REPOSITORY FORMAT_IS_PDR_TYPES);
      [contradiction |].
    destruct (Z.eqb_spec REFRESH_ENTIRE_REPOSITORY FORMAT_IS_PDR_HANDLES);
      [contradiction |].
    rewrite Z.eqb_refl. destruct host as [hs |]; [| reflexivity].
    eexists. split; [reflexivity |]. split; [| split].
    + apply Sorted_merge_sort. intros x y. lia.
    + intros k. apply elem_of_handlesOfTid.
    + intros k. rewrite foldl_delete_lookup.
      destruct (decide (k ∈ handlesOfTid tid (tlPDRInfo hs))) as [Hin | Hout].
      * apply elem_of_handlesOfTid in Hin as (eid & validity & ->).
        rewrite decide_True by reflexivity. reflexivity.
      * destruct (tlPDRInfo hs !! k) as [[[t eid] validity] |] eqn:Hk;
          [| reflexivity].
        destruct (decide (t = tid)) as [-> | _]; [| reflexivity].
        exfalso. apply Hout. apply elem_of_handlesOfTid. eauto.
Qed.

(** X12: a repository change event in the format
    [FORMAT_IS_PDR_HANDLES] whose change records lie one behind the other
    within the message succeeds.  [fetchPDR] is called with the change
    entries of the records that add or modify PDRs, in message order;
    the entries of other records are skipped; [isHostPdrModified] is set
    when a record modifies PDRs; the repository and [tlPDRInfo] are not
    touched. *)
Theorem pldmPDRRepositoryChgEvent_handles (fuel : nat) (request : pldm_msg)
    (payloadLength tid eventDataOffset : Z) (hs : HostPDRs) (repo : Repo)
    (ev : ChgEventData) (recs : list (Z * list Z)) :
  (0 < sizeof_ChangeEntry)%nat ->
  FORMAT_IS_PDR_HANDLES <> FORMAT_IS_PDR_TYPES ->
  FORMAT_IS_PDR_HANDLES <> REFRESH_ENTIRE_REPOSITORY ->
  decode_pldm_pdr_repository_chg_event_data
    (drop (Z.to_nat eventDataOffset) (payload request))
    (wrap 64 (payloadLength - eventDataOffset))
  = (PLDM_SUCCESS, ev) ->
  eventDataFormat ev = FORMAT_IS_PDR_HANDLES ->
  changeRecordsOf
    (drop (Z.to_nat (chg_dataOffset ev))
       (drop (Z.to_nat eventDataOffset) (payload request)))
    (wrap 64 (wrap 64 (payloadLength - eventDataOffset) - chg_dataOffset ev))
    recs ->
  (length recs <= fuel)%nat ->
  pldmPDRRepositoryChgEvent fuel request payloadLength tid eventDataOffset
    (Some hs) repo
  = Returns
      (mkChgOutcome PLDM_SUCCESS (Some (markModified recs hs)) repo
         (Some (changedHandles recs))).
Proof.
  intros Hsz Hnt Hnr Hdec Hfmt Hrecs Hfuel.
  unfold pldmPDRRepositoryChgEvent. rewrite Hdec, Z.eqb_refl, Hfmt.
  cbn [negb].
  destruct (Z.eqb_spec FORMAT_IS_PDR_HANDLES FORMAT_IS_PDR_TYPES);
    [contradiction |].
  destruct (Z.eqb_spec FORMAT_IS_PDR_HANDLES REFRESH_ENTIRE_REPOSITORY);
    [contradiction |].
  rewrite Z.eqb_refl.
  rewrite (changeRecords_collects _ _ recs Hsz Hrecs fuel (Some hs) [] Hfuel)
    by (intros _; eexists; reflexivity).
  reflexivity.
Qed.

Lemma changeRecords_fuel (fuel : nat) :
  (forall mem size rec,
     decode_pldm_pdr_repository_change_record_data mem size
     = (PLDM_SUCCESS, rec) ->
     0 < wrap 64 (rec_dataOffset rec
                  + numberOfChangeEntries rec * Z.of_nat sizeof_ChangeEntry)) ->
  forall (mem : list Z) (size : Z) (host : option HostPDRs)
         (handles : list Z),
    (length mem < fuel)%nat ->
    changeRecords fuel mem size host handles <> OutOfFuel.
Proof.
  intros Hprogress.
  induction fuel as [| fuel IH]; intros mem size host handles Hfuel; [lia |].
  cbn [changeRecords].
  destruct (size =? 0); [discriminate |].
  destruct (decode_pldm_pdr_repository_change_record_data mem size)
    as [rc rec] eqn:Hdec.
  destruct (Z.eqb_spec rc PLDM_SUCCESS) as [-> | _]; cbn [negb];
    [| discriminate].
  specialize (Hprogress mem size rec Hdec).
  set (consumed := wrap 64 _) in *.
  assert (Hnext : forall host' handles',
            (if Z.of_nat (length mem) <? consumed
             then Undefined
             else changeRecords fuel (drop (Z.to_nat consumed) mem)
                    (wrap 64 (size - consumed)) host' handles')
            <> OutOfFuel).
  { intros host' handles'.
    destruct (Z.ltb_spec (Z.of_nat (length mem)) consumed); [discriminate |].
    apply IH. rewrite length_drop. lia. }
  destruct ((eventDataOperation rec =? PLDM_RECORDS_ADDED)
            || (eventDataOperation rec =? PLDM_RECORDS_MODIFIED));
    [| apply Hnext].
  destruct (eventDataOperation rec =? PLDM_RECORDS_MODIFIED).
  - destruct host as [hs |]; [| discriminate].
    destruct (getPDRRecordHandles _ _ _ _) as [[rc' handles'] |];
      [| discriminate].
    destruct (negb (rc' =? PLDM_SUCCESS)); [discriminate | apply Hnext].
  - destruct (getPDRRecordHandles _ _ _ _) as [[rc' handles'] |];
      [| discriminate].
    destruct (negb (rc' =? PLDM_SUCCESS)); [discriminate | apply Hnext].
Qed.

(** X13: the loop over the change records ends.  If every change record
    that decodes is at least one byte long, [pldmPDRRepositoryChgEvent]
    needs no more rounds than the message has bytes, whatever the
    message holds. *)
Theorem pldmPDRRepositoryChgEvent_terminates (request : pldm_msg)
    (payloadLength tid eventDataOffset : Z) (host : option HostPDRs)
    (repo : Repo) :
  (forall mem size rec,
     decode_pldm_pdr_repository_change_record_data mem size
     = (PLDM_SUCCESS, rec) ->
     0 < wrap 64 (rec_dataOffset rec
                  + numberOfChangeEntries rec * Z.of_nat sizeof_ChangeEntry)) ->
  pldmPDRRepositoryChgEvent (S (length (payload request))) request
    payloadLength tid eventDataOffset host repo
  <> OutOfFuel.
Proof.
  intros Hprogress. unfold pldmPDRRepositoryChgEvent.
  destruct (decode_pldm_pdr_repository_chg_event_data _ _) as [rc ev].
  destruct (negb (rc =? PLDM_SUCCESS)); [discriminate |].
  destruct (eventDataFormat ev =? FORMAT_IS_PDR_TYPES); [discriminate |].
  destruct (eventDataFormat ev =? FORMAT_IS_PDR_HANDLES).
  - match goal with
    | |- context [changeRecords ?f ?m ?s ?h ?l] =>
        pose proof (changeRecords_fuel f Hprogress m s h l) as Hrun;
        destruct (changeRecords f m s h l) as [| | [[[rc' |] handles] host']]
    end.
    + exfalso. apply Hrun; [| reflexivity]. rewrite !length_drop. lia.
    + discriminate.
    + discriminate.
    + destruct host' as [hs |]; [| discriminate].
      destruct (eventDataFormat ev =? REFRESH_ENTIRE_REPOSITORY);
        [destruct (refreshEntireRepository tid hs repo) |]; discriminate.
  - destruct host as [hs |]; [| discriminate].
    destruct (eventDataFormat ev =? REFRESH_ENTIRE_REPOSITORY);
      [destruct (refreshEntireRepository tid hs repo) |]; discriminate.
Qed.

End ChangeProperties.

Section EffecterProperties.

Context {types : Platform.Types} {env : Platform.Env}
        {eff : Platform.EffecterEnv}.
Import Platform.

Lemma findOemStateSensor_first (pdrs : list StateSensorPdr)
    (sensorId sensorRearmCount : Z) :
  findOemStateSensor pdrs sensorId sensorRearmCount
  = match list_find (fun pdr => pdr_sensor_id pdr = sensorId) pdrs with
    | Some (_, pdr) =>
        if (sensorRearmCount <=? composite_sensor_count pdr)
           && isOemRange (sensor_entity_type pdr) (sensor_state_set_id pdr)
        then Some (composite_sensor_count pdr, sensor_entity_type pdr,
                   sensor_entity_instance pdr, sensor_state_set_id pdr)
        else None
    | None => None
    end.
Proof.
  induction pdrs as [| pdr rest IH]; [reflexivity |].
  cbn [findOemStateSensor list_find].
  destruct (Z.eqb_spec (pdr_sensor_id pdr) sensorId) as [Heq | Hne].
  - rewrite decide_True by exact Heq. cbn [negb].
    rewrite Z.leb_antisym.
    destruct (composite_sensor_count pdr <? sensorRearmCount); reflexivity.
  - rewrite decide_False by exact Hne. cbn [negb]. rewrite IH.
    destruct (list_find _ rest) as [[i p] |]; reflexivity.
Qed.

Lemma findOemStateEffecter_first (pdrs : list StateEffecterPdr)
    (effecterId compEffecterCnt : Z) :
  findOemStateEffecter pdrs effecterId compEffecterCnt
  = match list_find (fun pdr => pdr_effecter_id pdr = effecterId) pdrs with
    | Some (_, pdr) =>
        if (compEffecterCnt <=? composite_effecter_count pdr)
           && isOemRange (effecter_entity_type pdr)
                (effecter_state_set_id pdr)
        then Some (effecter_entity_type pdr, effecter_entity_instance pdr,
                   effecter_state_set_id pdr)
        else None
    | None => None
    end.
Proof.
  induction pdrs as [| pdr rest IH]; [reflexivity |].
  cbn [findOemStateEffecter list_find].
  destruct (Z.eqb_spec (pdr_effecter_id pdr) effecterId) as [Heq | Hne].
  - rewrite decide_True by exact Heq. cbn [negb].
    rewrite Z.leb_antisym.
    destruct (composite_effecter_count pdr <? compEffecterCnt); reflexivity.
  - rewrite decide_False by exact Hne. cbn [negb]. rewrite IH.
    destruct (list_find _ rest) as [[i p] |]; reflexivity.
Qed.

(** X14: [isOemStateSensor] and [isOemStateEffecter] decide by the first
    PDR of the repository that carries the id, whatever PDRs with the
    same id follow it.  They answer yes, with the fields of that PDR,
    when the count asked for does not exceed its composite count and
    its entity type lies in the OEM range, both ends included, or its
    first state set id lies in the OEM range without the upper end; they
    answer no otherwise and when no PDR carries the id. *)
Theorem isOem_first_match (handler : Handler) (id count : Z) :
  isOemStateSensor handler id count
  = match list_find (fun pdr => pdr_sensor_id pdr = id)
            (stateSensorPDRs (pdrRepo handler)) with
    | Some (_, pdr) =>
        if (count <=? composite_sensor_count pdr)
           && (((PLDM_OEM_ENTITY_TYPE_START <=? sensor_entity_type pdr)
                && (sensor_entity_type pdr <=? PLDM_OEM_ENTITY_TYPE_END))
               || ((PLDM_OEM_STATE_SET_ID_START <=? sensor_state_set_id pdr)
                   && (sensor_state_set_id pdr <? PLDM_OEM_STATE_SET_ID_END)))
        then Some (composite_sensor_count pdr, sensor_entity_type pdr,
                   sensor_entity_instance pdr, sensor_state_set_id pdr)
        else None
    | None => None
    end /\
  isOemStateEffecter handler id count
  = match list_find (fun pdr => pdr_effecter_id pdr = id)
            (stateEffecterPDRs (pdrRepo handler)) with
    | Some (_, pdr) =>
        if (count <=? composite_effecter_count pdr)
           && (((PLDM_OEM_ENTITY_TYPE_START <=? effecter_entity_type pdr)
                && (effecter_entity_type pdr <=? PLDM_OEM_ENTITY_TYPE_END))
               || ((PLDM_OEM_STATE_SET_ID_START <=? effecter_state_set_id pdr)
                   && (effecter_state_set_id pdr
                       <? PLDM_OEM_STATE_SET_ID_END)))
        then Some (effecter_entity_type pdr, effecter_entity_instance pdr,
                   effecter_state_set_id pdr)
        else None
    | None => None
    end.
Proof.
  split.
  - apply findOemStateSensor_first.
  - apply findOemStateEffecter_first.
Qed.

Lemma setStateEffecterStates_finish (request : pldm_msg) (rc : Z)
    (w' : World) :
  exists response,
    (if negb (rc =? PLDM_SUCCESS) then (ccOnlyResponse request rc, w')
     else
       let '(rc', response) :=
         encode_set_state_effecter_states_resp (instance_id request) rc in
       if negb (rc' =? PLDM_SUCCESS) then (ccOnlyResponse request rc', w')
       else (response, w'))
    = (response, w') /\
    completion_code response = rc /\ body response = NoBody /\
    resp_instance_id response = instance_id request.
Proof.
  destruct (Z.eqb_spec rc PLDM_SUCCESS) as [-> | Hne]; cbn [negb].
  - unfold encode_set_state_effecter_states_resp. rewrite Z.eqb_refl.
    cbn [negb]. eexists. split; [reflexivity |]. repeat split.
  - eexists. split; [reflexivity |]. repeat split.
Qed.

(** X15: [setStateEffecterStates] refuses a payload longer than
    [PLDM_SET_STATE_EFFECTER_STATES_REQ_BYTES] or shorter than an id, a
    count and one state field with [PLDM_ERROR_INVALID_LENGTH], and a
    request that does not decode with the decoder's code, without
    calling a handler.  Otherwise the state fields are cut or padded
    to the composite count and one handler runs, whose code is the
    completion code: the OEM handler when [isOemStateEffecter] says yes,
    an OEM platform handler is set and no D-Bus object is registered for
    the effecter id, and the D-Bus handler in every other case, so
    always once [addDbusObjMaps] has registered the id. *)
Theorem setStateEffecterStates_dispatch {DbusObj : Type}
    (request : pldm_msg) (payloadLength : Z) (h : Handler)
    (maps : ObjMaps DbusObj) (w : World) :
  let decoded := decode_set_state_effecter_states_req request payloadLength in
  let effecterId := decoded.2.1.1 in
  let compEffecterCnt := decoded.2.1.2 in
  let stateField :=
    vector_resize (Z.to_nat compEffecterCnt) (0, 0) decoded.2.2 in
  let result := setStateEffecterStates request payloadLength h maps w in
  (PLDM_SET_STATE_EFFECTER_STATES_REQ_BYTES < payloadLength
   \/ payloadLength < 2 + 1 + sizeof_set_effecter_state_field ->
   result = (ccOnlyResponse request PLDM_ERROR_INVALID_LENGTH, w)) /\
  (2 + 1 + sizeof_set_effecter_state_field <= payloadLength
   <= PLDM_SET_STATE_EFFECTER_STATES_REQ_BYTES ->
   (decoded.1 <> PLDM_SUCCESS ->
    result = (ccOnlyResponse request decoded.1, w)) /\
   (decoded.1 = PLDM_SUCCESS ->
    let ran :=
      match isOemStateEffecter h effecterId compEffecterCnt,
            oemPlatformHandler h, effecterDbusObjMaps maps !! effecterId with
      | Some (entityType, entityInstance, stateSetId), Some _, None =>
          oemSetStateEffecterStatesHandler entityType entityInstance
            stateSetId compEffecterCnt stateField effecterId w
      | _, _, _ => setStateEffecterStatesHandler effecterId stateField w
      end in
    result.2 = ran.2 /\ completion_code result.1 = ran.1 /\
    body result.1 = NoBody /\
    resp_instance_id result.1 = instance_id request) /\
   (decoded.1 = PLDM_SUCCESS ->
    forall obj,
      let ran := setStateEffecterStatesHandler effecterId stateField w in
      let result' :=
        setStateEffecterStates request payloadLength h
          (addDbusObjMaps effecterId obj PLDM_EFFECTER_ID maps) w in
      result'.2 = ran.2 /\ completion_code result'.1 = ran.1)).
Proof.
  intros decoded effecterId compEffecterCnt stateField result.
  subst result. unfold setStateEffecterStates. fold decoded.
  split.
  - intros Hlen.
    destruct (Z.ltb_spec PLDM_SET_STATE_EFFECTER_STATES_REQ_BYTES
                payloadLength); [reflexivity |].
    destruct (Z.ltb_spec payloadLength
                (2 + 1 + sizeof_set_effecter_state_field)); [reflexivity |].
    lia.
  - intros Hlen.
    destruct (Z.ltb_spec PLDM_SET_STATE_EFFECTER_STATES_REQ_BYTES
                payloadLength); [lia |].
    destruct (Z.ltb_spec payloadLength
                (2 + 1 + sizeof_set_effecter_state_field)); [lia |].
    cbn [orb].
    subst effecterId compEffecterCnt stateField.
    destruct decoded as [rc [[effecterId compEffecterCnt] fields]].
    cbn [fst snd]. split; [| split].
    + intros Hrc. destruct (Z.eqb_spec rc PLDM_SUCCESS); [contradiction |].
      reflexivity.
    + intros ->. rewrite Z.eqb_refl. cbn [negb].
      match goal with
      | |- context [let '(rc, w') := ?run in _] =>
          destruct run as [rc w'] eqn:Hrun
      end.
      destruct (setStateEffecterStates_finish request rc w')
        as (response & -> & Hcc & Hbody & Hiid).
      cbn [fst snd]. repeat split; assumption.
    + intros -> obj. rewrite Z.eqb_refl. cbn [negb].
      assert (Hreg : effecterDbusObjMaps
                       (addDbusObjMaps effecterId obj PLDM_EFFECTER_ID maps)
                     !! effecterId <> None).
      { cbn. unfold map_emplace.
        destruct (effecterDbusObjMaps maps !! effecterId) eqn:E;
          [rewrite E; discriminate | rewrite lookup_insert_eq; discriminate]. }
      destruct (effecterDbusObjMaps
                  (addDbusObjMaps effecterId obj PLDM_EFFECTER_ID maps)
                !! effecterId) as [o |] eqn:E; [| contradiction].
      assert (Hrun : match isOemStateEffecter h effecterId compEffecterCnt,
                           oemPlatformHandler h, Some o with
                     | Some (entityType, entityInstance, stateSetId),
                       Some _, None =>
                         oemSetStateEffecterStatesHandler entityType
                           entityInstance stateSetId compEffecterCnt
                           (vector_resize (Z.to_nat compEffecterCnt) (0, 0)
                              fields) effecterId w
                     | _, _, _ =>
                         setStateEffecterStatesHandler effecterId
                           (vector_resize (Z.to_nat compEffecterCnt) (0, 0)
                              fields) w
                     end
                     = setStateEffecterStatesHandler effecterId
                         (vector_resize (Z.to_nat compEffecterCnt) (0, 0)
                            fields) w).
      { destruct (isOemStateEffecter h effecterId compEffecterCnt)
          as [[[t i] s] |]; destruct (oemPlatformHandler h); reflexivity. }
      rewrite Hrun.
      destruct (setStateEffecterStatesHandler effecterId _ w) as [rc w'].
      destruct (setStateEffecterStates_finish request rc w')
        as (response & -> & Hcc & _).
      cbn [fst snd]. split; [reflexivity | exact Hcc].
Qed.

(** X16: [setNumericEffecterValue] always answers with a completion code
    alone, under the instance id of the request.  It calls the handler
    only for a payload of 4 up to [3 + sizeof(union_effecter_data_size)]
    bytes that decodes, and then answers with the handler's code, also
    when that is success; a payload of another length gives
    [PLDM_ERROR_INVALID_LENGTH] and a decoding failure gives the
    decoder's code. *)
Theorem setNumericEffecterValue_outcomes (request : pldm_msg)
    (payloadLength : Z) (w : World) :
  let decoded := decode_set_numeric_effecter_value_req request payloadLength in
  let result := setNumericEffecterValue request payloadLength w in
  let inWindow :=
    (4 <=? payloadLength)
    && (payloadLength <=? 3 + sizeof_union_effecter_data_size) in
  body result.1 = NoBody /\
  resp_instance_id result.1 = instance_id request /\
  (inWindow = false ->
   result = (ccOnlyResponse request PLDM_ERROR_INVALID_LENGTH, w)) /\
  (inWindow = true -> decoded.1 <> PLDM_SUCCESS ->
   result = (ccOnlyResponse request decoded.1, w)) /\
  (inWindow = true -> decoded.1 = PLDM_SUCCESS ->
   let ran :=
     setNumericEffecterValueHandler decoded.2.1.1 decoded.2.1.2 decoded.2.2
       4 w in
   result = (ccOnlyResponse request ran.1, ran.2)).
Proof.
  intros decoded result inWindow. subst result inWindow.
  unfold setNumericEffecterValue. fold decoded.
  destruct decoded as [rc [[effecterId effecterDataSize] effecterValue]].
  cbn [fst snd].
  destruct (Z.ltb_spec (2 + 1 + sizeof_union_effecter_data_size)
              payloadLength) as [Hhi | Hhi];
    destruct (Z.ltb_spec payloadLength (2 + 1 + 1)) as [Hlo | Hlo];
    destruct (Z.leb_spec 4 payloadLength) as [Hlo' | Hlo'];
    destruct (Z.leb_spec payloadLength
                (3 + sizeof_union_effecter_data_size)) as [Hhi' | Hhi'];
    try lia; cbn [orb andb];
    try (repeat split; try reflexivity; intros; discriminate).
  destruct (Z.eqb_spec rc PLDM_SUCCESS) as [-> | Hne].
  - destruct (setNumericEffecterValueHandler _ _ _ _ _) as [rc' w'].
    cbn [fst snd]. repeat split; try reflexivity; intros; try discriminate.
    contradiction.
  - repeat split; try reflexivity; intros; try discriminate.
    contradiction.
Qed.

End EffecterProperties.

Section GenerateProperties.

Context {Json Gen : Type}
        {generators : Platform.Generators (Json := Json) (Gen := Gen)}.
Import Platform.

Lemma generateEntries_unknown_type (pre post : list Json) (bad : Json) :
  generateHandlers (pdrTypeOf bad) = None ->
  forall g,
    generateEntries (pre ++ bad :: post) g
    = ((generateEntries pre g).1, true).
Proof.
  intros Hbad. induction pre as [| entry pre IH]; intros g.
  - cbn. rewrite Hbad. reflexivity.
  - cbn [app generateEntries].
    destruct (generateHandlers (pdrTypeOf entry)) as [handler |];
      [| reflexivity].
    destruct (handler entry g) as [g' threw].
    destruct threw; [reflexivity | apply IH].
Qed.

(** X17: [generate] leaves everything as it is when the directory does
    not exist.  Otherwise an entry whose ["pdrType"] has no generator
    ends the work on its file: the entries before it have been
    generated, the entries behind it, and the ["sensorPDRs"] when it
    stands among the ["effecterPDRs"], are skipped; the files that
    follow are processed all the same. *)
Theorem generate_unknown_type (pre post sensors : list Json) (bad : Json)
    (before after : list PdrFile) (g : Gen) :
  generateHandlers (pdrTypeOf bad) = None ->
  Handler_generate false
    (before ++ mkPdrFile (pre ++ bad :: post) sensors :: after) g = g /\
  Handler_generate true
    (before ++ mkPdrFile (pre ++ bad :: post) sensors :: after) g
  = Handler_generate true (before ++ mkPdrFile pre [] :: after) g /\
  Handler_generate true
    (before ++ mkPdrFile pre (sensors ++ bad :: post) :: after) g
  = Handler_generate true (before ++ mkPdrFile pre sensors :: after) g.
Proof.
  intros Hbad. split; [reflexivity |].
  unfold Handler_generate. cbn [negb]. rewrite !foldl_app. cbn [foldl].
  split; f_equal; unfold generateFile; cbn [effecterPDRs sensorPDRs].
  - rewrite (generateEntries_unknown_type pre post bad Hbad).
    destruct (generateEntries pre _) as [g1 threw]. cbn.
    destruct threw; reflexivity.
  - destruct (generateEntries pre _) as [g1 threw].
    destruct threw; [reflexivity |].
    rewrite (generateEntries_unknown_type sensors post bad Hbad).
    reflexivity.
Qed.

End GenerateProperties.

Section HandlerEdgeProperties.

Context {types : Platform.Types} {env : Platform.Env}.
Import Platform.

(** X18: whatever the size of the record, a [getPDR] response with a
    body is a success response in one part, and its response count is
    the number of record bytes it carries: the smaller of the requested
    size and the record size modulo 2^16.  The bytes are a prefix of
    the record the handle names, never more than were asked for. *)
Theorem getPDR_response_count (request : pldm_msg) (len : Z) (h : Handler)
    (nrh ndth tf cnt : Z) (bytes : list Z) (crc : Z) :
  0 <= reqSizeBytes (decode_get_pdr_req request len).2 ->
  body (getPDR request len h).1 = GetPdrBody nrh ndth tf cnt bytes crc ->
  let req := (decode_get_pdr_req request len).2 in
  exists e,
    getRecordByHandle (pdrRepo (buildRepo h)) (recordHandle req) = Some e /\
    completion_code (getPDR request len h).1 = PLDM_SUCCESS /\
    cnt = Z.min (reqSizeBytes req) (entry_size e mod 2 ^ 16) /\
    cnt = Z.of_nat (length bytes) /\
    bytes = take (Z.to_nat cnt) (entry_data e) /\
    nrh = nextRecordHandle e /\ ndth = 0 /\ tf = PLDM_START_AND_END /\
    crc = 0.
Proof.
  intros Hreq Hbody req. subst req. revert Hbody. unfold getPDR.
  destruct (bmcNotReady h); [discriminate |].
  destruct (negb (len =? PLDM_GET_PDR_REQ_BYTES)); [discriminate |].
  destruct (decode_get_pdr_req request len) as [rc req]. cbn [snd] in *.
  destruct (negb (rc =? PLDM_SUCCESS)); [discriminate |].
  destruct (getRecordByHandle (pdrRepo (buildRepo h)) (recordHandle req))
    as [e |]; [| discriminate].
  unfold encode_get_pdr_resp. rewrite Z.eqb_refl. cbn [negb fst body].
  assert (Hmod : 0 <= entry_size e mod 2 ^ 16 <= entry_size e).
  { unfold entry_size. split; [apply Z.mod_pos_bound; lia |].
    apply Z.mod_le; lia. }
  intros Hbody. inversion Hbody; subst. clear Hbody.
  exists e. split; [reflexivity |]. split; [reflexivity |].
  unfold wrap.
  destruct (Z.eqb_spec (reqSizeBytes req) 0) as [H0 | H0]; cbn [negb].
  - repeat split; try reflexivity. lia.
  - destruct (Z.ltb_spec (reqSizeBytes req) (entry_size e mod 2 ^ 16));
      (repeat split; try reflexivity; [lia |]);
      rewrite length_take; unfold entry_size in *; lia.
Qed.

(** X19: [getPDR] builds the repository on the first call that passes
    the readiness gate, also when it then refuses the request, and never
    again: a call refused with [PLDM_ERROR_NOT_READY] leaves the handler
    as it is; after any other call [pdrCreated] is set, and a later call
    applies [buildFRUTable] if there is a FRU handler and nothing else,
    whatever the two requests are. *)
Theorem getPDR_builds_once (request request' : pldm_msg) (len len' : Z)
    (h : Handler) :
  (bmcNotReady h = true ->
   getPDR request len h = (ccOnlyResponse request PLDM_ERROR_NOT_READY, h)) /\
  (bmcNotReady h = false ->
   let h1 := (getPDR request len h).2 in
   let h2 := (getPDR request' len' h1).2 in
   h1 = buildRepo h /\ pdrCreated h1 = true /\ pdrCreated h2 = true /\
   pdrRepo h2
   = (if fruHandler h then buildFRUTable (pdrRepo h1) else pdrRepo h1)).
Proof.
  split.
  - intros Hgate. unfold getPDR. rewrite Hgate. reflexivity.
  - intros Hgate h1 h2.
    assert (Hstate : forall req l h0,
              bmcNotReady h0 = false -> (getPDR req l h0).2 = buildRepo h0).
    { intros req l h0 Hg. unfold getPDR. rewrite Hg.
      destruct (negb (l =? PLDM_GET_PDR_REQ_BYTES)); [reflexivity |].
      destruct (decode_get_pdr_req req l) as [rc r].
      destruct (negb (rc =? PLDM_SUCCESS)); [reflexivity |].
      destruct (getRecordByHandle _ _); [| reflexivity].
      unfold encode_get_pdr_resp. rewrite Z.eqb_refl. reflexivity. }
    assert (Hbuilt : forall h0, pdrCreated (buildRepo h0) = true).
    { intros h0. unfold buildRepo. destruct (pdrCreated h0); reflexivity. }
    assert (Hgate1 : bmcNotReady (buildRepo h) = false).
    { unfold bmcNotReady, buildRepo in *.
      destruct (pdrCreated h); exact Hgate. }
    subst h2 h1. rewrite (Hstate request len h Hgate).
    rewrite (Hstate request' len' (buildRepo h) Hgate1).
    split; [reflexivity |]. split; [apply Hbuilt |].
    split; [apply Hbuilt |].
    unfold buildRepo at 1. rewrite Hbuilt.
    replace (fruHandler (buildRepo h)) with (fruHandler h)
      by (unfold buildRepo; destruct (pdrCreated h); reflexivity).
    destruct (fruHandler h); reflexivity.
Qed.

(** X20: [getPDR] checks the payload length before it decodes, and after
    it has built the repository: a request that passes the readiness
    gate with another payload length than [PLDM_GET_PDR_REQ_BYTES] gets
    [PLDM_ERROR_INVALID_LENGTH], one with that length that does not
    decode gets the decoder's code, both in a response without body
    under the instance id of the request and with the repository
    built. *)
Theorem getPDR_rejections (request : pldm_msg) (len : Z) (h : Handler) :
  bmcNotReady h = false ->
  (len <> PLDM_GET_PDR_REQ_BYTES ->
   getPDR request len h
   = (ccOnlyResponse request PLDM_ERROR_INVALID_LENGTH, buildRepo h)) /\
  (len = PLDM_GET_PDR_REQ_BYTES ->
   (decode_get_pdr_req request len).1 <> PLDM_SUCCESS ->
   getPDR request len h
   = (ccOnlyResponse request (decode_get_pdr_req request len).1,
      buildRepo h)).
Proof.
  intros Hgate. unfold getPDR. rewrite Hgate. split.
  - intros Hlen.
    destruct (Z.eqb_spec len PLDM_GET_PDR_REQ_BYTES); [contradiction |].
    reflexivity.
  - intros -> Hrc. rewrite Z.eqb_refl. cbn [negb].
    destruct (decode_get_pdr_req request PLDM_GET_PDR_REQ_BYTES) as [rc req].
    cbn [fst] in *.
    destruct (Z.eqb_spec rc PLDM_SUCCESS); [contradiction |]. reflexivity.
Qed.

Lemma runHandlers_instance_id (request : pldm_msg) (len : Z)
    (req : EventMsgReq) (handlers : list EventHandler) :
  forall w response w',
    runHandlers request len req handlers w = (inl response, w') ->
    resp_instance_id response = instance_id request.
Proof.
  induction handlers as [| handler rest IH]; intros w response w' Hrun;
    [discriminate |].
  cbn [runHandlers] in Hrun.
  destruct (handler request len (formatVersion req) (req_tid req)
              (eventDataOffset req) w) as [[rc |] w1].
  - destruct (negb (rc =? PLDM_SUCCESS)).
    + inversion Hrun. reflexivity.
    + exact (IH w1 response w' Hrun).
  - inversion Hrun. reflexivity.
Qed.

(** X21: [platformEventMessage] answers every request under the
    instance id of the request.  A request that does not decode gets the
    decoder's code and an event class without handlers gets
    [PLDM_ERROR_INVALID_DATA], both without a body and without any
    effect.  A heartbeat-timer-elapsed event gets a success response
    with status [PLDM_EVENT_NO_LOGGING]; it resets the watchdog timer if
    there is an OEM platform handler and calls no registered handler. *)
Theorem platformEventMessage_edges (request : pldm_msg) (len : Z)
    (h : Handler) (w : World) :
  let decoded := decode_platform_event_message_req request len in
  let result := platformEventMessage request len h w in
  resp_instance_id result.1 = instance_id request /\
  (decoded.1 <> PLDM_SUCCESS ->
   result = (ccOnlyResponse request decoded.1, w)) /\
  (decoded.1 = PLDM_SUCCESS ->
   req_eventClass decoded.2 <> PLDM_HEARTBEAT_TIMER_ELAPSED_EVENT ->
   eventHandlers h !! req_eventClass decoded.2 = None ->
   result = (ccOnlyResponse request PLDM_ERROR_INVALID_DATA, w)) /\
  (decoded.1 = PLDM_SUCCESS ->
   req_eventClass decoded.2 = PLDM_HEARTBEAT_TIMER_ELAPSED_EVENT ->
   result
   = (mkResponse (instance_id request) PLDM_PLATFORM
        PLDM_PLATFORM_EVENT_MESSAGE PLDM_SUCCESS
        (PlatformEventBody PLDM_EVENT_NO_LOGGING),
      match oemPlatformHandler h with
      | Some _ => resetWatchDogTimer w
      | None => w
      end)).
Proof.
  intros decoded result. subst result. unfold platformEventMessage.
  fold decoded. destruct decoded as [rc req]. cbn [fst snd].
  unfold encode_platform_event_message_resp. rewrite Z.eqb_refl.
  cbn [negb].
  destruct (Z.eqb_spec rc PLDM_SUCCESS) as [-> | Hrc]; cbn [negb].
  - destruct (Z.eqb_spec (req_eventClass req)
                PLDM_HEARTBEAT_TIMER_ELAPSED_EVENT) as [Hcls | Hcls].
    + repeat split; try reflexivity; intros; contradiction.
    + destruct (eventHandlers h !! req_eventClass req) as [handlers |] eqn:Hh.
      * destruct (runHandlers request len req handlers w)
          as [[response | []] w'] eqn:Hrun; cbn [fst].
        -- split; [exact (runHandlers_instance_id _ _ _ _ _ _ _ Hrun) |].
           repeat split; intros; try contradiction; discriminate.
        -- repeat split; intros; try contradiction; discriminate.
      * repeat split; intros; try contradiction; reflexivity.
  - repeat split; intros; try contradiction; reflexivity.
Qed.

(** X22: a state sensor event whose sensor the host PDR handler knows,
    under the sender's TID or else under [PLDM_TID_RESERVED], is checked
    against the sensor's PDR after the signal has gone out: a sensor
    offset that is not below the number of composite sensors and an
    event state outside the possible states of that offset give
    [PLDM_ERROR_INVALID_DATA]; otherwise [handleStateSensorEvent] is
    called with the entity of the sensor and its code is returned.  An
    entry under the sender's TID takes precedence over one under
    [PLDM_TID_RESERVED]. *)
Theorem sensorEvent_known_sensor (request : pldm_msg) (len tid offset : Z)
    (h : Handler) (host : HostPDRHandler) (ev : SensorEventData)
    (sd : StateSensorData) (info : SensorInfo) :
  hostPDRHandler h = Some host ->
  decode_sensor_event_data (drop (Z.to_nat offset) (payload request))
    (wrap 64 (len - offset)) = (PLDM_SUCCESS, ev) ->
  sensorEventClass ev = PLDM_STATE_SENSOR_STATE ->
  decode_state_sensor_data
    (drop (Z.to_nat (offset + eventClassDataOffset ev)) (payload request))
    (wrap 64 (len - offset - eventClassDataOffset ev)) = (PLDM_SUCCESS, sd) ->
  0 <= sensorOffset sd ->
  sensorMap host !! (tid, sensorId ev) = Some info
  \/ (sensorMap host !! (tid, sensorId ev) = None
      /\ sensorMap host !! (PLDM_TID_RESERVED, sensorId ev) = Some info) ->
  let signal :=
    EmitStateSensorEventSignal tid (sensorId ev) (sensorOffset sd)
      (eventState sd) (previousEventState sd) in
  let entry :=
    mkStateSensorEntry (containerId (entityInfo info))
      (entityType (entityInfo info)) (entityInstance (entityInfo info))
      (sensorOffset sd) in
  sensorEvent request len tid offset h
  = match compositeSensorStates info !! Z.to_nat (sensorOffset sd) with
    | Some possibleStates =>
        if decide (eventState sd ∈ possibleStates)
        then (handleStateSensorEvent entry (eventState sd),
              [signal; HandleStateSensorEvent entry (eventState sd)])
        else (PLDM_ERROR_INVALID_DATA, [signal])
    | None => (PLDM_ERROR_INVALID_DATA, [signal])
    end.
Proof.
  intros Hhost Hev Hcls Hsd Hoff Hinfo signal entry.
  unfold sensorEvent. rewrite Hev, Z.eqb_refl, Hcls, Z.eqb_refl, Hsd.
  rewrite Z.eqb_refl, Hhost. cbn [negb]. unfold lookupSensorInfo.
  assert (Hfound : match sensorMap host !! (tid, sensorId ev) with
                   | Some i => Some i
                   | None => sensorMap host !! (PLDM_TID_RESERVED, sensorId ev)
                   end = Some info).
  { destruct Hinfo as [-> | [-> ->]]; reflexivity. }
  rewrite Hfound.
  destruct (compositeSensorStates info !! Z.to_nat (sensorOffset sd))
    as [possibleStates |] eqn:Hstates.
  - apply lookup_lt_Some in Hstates.
    destruct (Z.leb_spec (Z.of_nat (length (compositeSensorStates info)))
                (sensorOffset sd)); [lia |].
    cbn [default].
    destruct (decide (eventState sd ∈ possibleStates)) as [Hin | Hout].
    + rewrite bool_decide_eq_true_2 by exact Hin. reflexivity.
    + rewrite bool_decide_eq_false_2 by exact Hout. reflexivity.
  - apply lookup_ge_None in Hstates.
    destruct (Z.leb_spec (Z.of_nat (length (compositeSensorStates info)))
                (sensorOffset sd)); [reflexivity | lia].
Qed.

(** X23: [sensorEvent] emits nothing for an event it cannot read: when
    the sensor event data do not decode it returns the decoder's code,
    for an event class other than state and numeric
    [PLDM_ERROR_INVALID_DATA], and when the class data do not decode
    [PLDM_ERROR] instead of the decoder's code.  A numeric sensor event
    that decodes emits the numeric signal and succeeds.  A state sensor
    event that decodes emits the state signal first, whatever the
    outcome is, and calls [handleStateSensorEvent] at most once. *)
Theorem sensorEvent_signals (request : pldm_msg) (len tid offset : Z)
    (h : Handler) :
  let first :=
    decode_sensor_event_data (drop (Z.to_nat offset) (payload request))
      (wrap 64 (len - offset)) in
  let ev := first.2 in
  let classData :=
    drop (Z.to_nat (offset + eventClassDataOffset ev)) (payload request) in
  let classSize := wrap 64 (len - offset - eventClassDataOffset ev) in
  let state := decode_state_sensor_data classData classSize in
  let numeric := decode_numeric_sensor_data classData classSize in
  let result := sensorEvent request len tid offset h in
  (first.1 <> PLDM_SUCCESS -> result = (first.1, [])) /\
  (first.1 = PLDM_SUCCESS ->
   (sensorEventClass ev <> PLDM_STATE_SENSOR_STATE ->
    sensorEventClass ev <> PLDM_NUMERIC_SENSOR_STATE ->
    result = (PLDM_ERROR_INVALID_DATA, [])) /\
   (sensorEventClass ev = PLDM_STATE_SENSOR_STATE ->
    (state.1 <> PLDM_SUCCESS -> result = (PLDM_ERROR, [])) /\
    (state.1 = PLDM_SUCCESS ->
     exists rest,
       result.2
       = EmitStateSensorEventSignal tid (sensorId ev) (sensorOffset state.2)
           (eventState state.2) (previousEventState state.2) :: rest /\
       (rest = [] \/
        exists entry,
          rest = [HandleStateSensorEvent entry (eventState state.2)] /\
          result.1 = handleStateSensorEvent entry (eventState state.2)))) /\
   (sensorEventClass ev <> PLDM_STATE_SENSOR_STATE ->
    sensorEventClass ev = PLDM_NUMERIC_SENSOR_STATE ->
    (numeric.1 <> PLDM_SUCCESS -> result = (PLDM_ERROR, [])) /\
    (numeric.1 = PLDM_SUCCESS ->
     result
     = (PLDM_SUCCESS,
        [EmitNumericSensorEventSignal tid (sensorId ev)
           (num_eventState numeric.2) (num_preEventState numeric.2)
           (sensorDataSize numeric.2) (presentReading numeric.2)])))).
Proof.
  intros first ev classData classSize state numeric result.
  subst result. unfold sensorEvent. fold first.
  subst ev. destruct first as [rc ev] eqn:Hfirst. cbn [fst snd] in *.
  split.
  - intros Hrc. destruct (Z.eqb_spec rc PLDM_SUCCESS); [contradiction |].
    reflexivity.
  - intros ->. rewrite Z.eqb_refl. cbn [negb].
    fold classData classSize. fold state numeric.
    split; [| split].
    + intros Hs Hn.
      destruct (Z.eqb_spec (sensorEventClass ev) PLDM_STATE_SENSOR_STATE);
        [contradiction |].
      destruct (Z.eqb_spec (sensorEventClass ev) PLDM_NUMERIC_SENSOR_STATE);
        [contradiction |].
      reflexivity.
    + intros ->. rewrite Z.eqb_refl.
      destruct state as [rc sd]. cbn [fst snd]. split.
      * intros Hrc. destruct (Z.eqb_spec rc PLDM_SUCCESS); [contradiction |].
        reflexivity.
      * intros ->. rewrite Z.eqb_refl. cbn [negb].
        destruct (hostPDRHandler h) as [host |];
          [| eexists; split; [reflexivity | left; reflexivity]].
        destruct (match lookupSensorInfo host (tid, sensorId ev) with
                  | Some info => Some info
                  | None =>
                      lookupSensorInfo host (PLDM_TID_RESERVED, sensorId ev)
                  end) as [info |];
          [| eexists; split; [reflexivity | left; reflexivity]].
        destruct (Z.of_nat (length (compositeSensorStates info))
                  <=? sensorOffset sd);
          [eexists; split; [reflexivity | left; reflexivity] |].
        destruct (bool_decide _);
          [| eexists; split; [reflexivity | left; reflexivity]].
        eexists. split; [reflexivity |]. right. eexists.
        split; reflexivity.
    + intros Hs Hn. rewrite Hn.
      destruct (Z.eqb_spec PLDM_NUMERIC_SENSOR_STATE PLDM_STATE_SENSOR_STATE);
        [congruence |].
      rewrite Z.eqb_refl. destruct numeric as [rc nd]. cbn [fst snd]. split.
      * intros Hrc. destruct (Z.eqb_spec rc PLDM_SUCCESS); [contradiction |].
        reflexivity.
      * intros ->. rewrite Z.eqb_refl. reflexivity.
Qed.

End HandlerEdgeProperties.

(** * Further properties of the BIOS registry *)

Section RegistryProperties.

Context {types : BiosParser.Types} {env : BiosParser.Env}
        {bus : BiosParser.DBus}.
Import BiosParser.

Lemma assoc_has_app (k : PropertyValue) (m1 m2 : list (PropertyValue * string)) :
  assoc_has k (m1 ++ m2) = assoc_has k m1 || assoc_has k m2.
Proof.
  induction m1 as [| [k' v] m1 IH]; [reflexivity |]. cbn.
  destruct (decide (k' = k)); [reflexivity | exact IH].
Qed.

Lemma populateMapping_from_defined (type : string) (pv : list string)
    (dBusValues : list JsonValue) :
  forall (pos : nat) (value : PropertyValue)
         (valueMap : list (PropertyValue * string)),
    is_Some (populateMapping_from type dBusValues pv pos value valueMap) <->
    dBusValues = [] \/ (pos + length dBusValues <= length pv)%nat.
Proof.
  induction dBusValues as [| it rest IH]; intros pos value valueMap.
  - cbn. split; [intros _; left; reflexivity | intros _; eexists; reflexivity].
  - cbn [populateMapping_from length].
    destruct (pv !! pos) as [p |] eqn:Hp; cbn [mbind option_bind].
    + apply lookup_lt_Some in Hp. rewrite IH. split.
      * intros [-> | H]; right; cbn; lia.
      * intros [H | H]; [discriminate |]. right. lia.
    + apply lookup_ge_None in Hp. split.
      * intros [x Hx]. discriminate.
      * intros [H | H]; [discriminate | lia].
Qed.

Lemma populateMapping_from_zip (type : string) (pv : list string)
    (dBusValues : list JsonValue) :
  forall (ks : list PropertyValue) (pos : nat) (value : PropertyValue)
         (valueMap : list (PropertyValue * string)),
    Forall2 (fun v k => convert type v = Some k) dBusValues ks ->
    NoDup ks ->
    (forall k, k ∈ ks -> assoc_has k valueMap = false) ->
    (pos + length dBusValues <= length pv)%nat ->
    populateMapping_from type dBusValues pv pos value valueMap
    = Some (valueMap ++ zip ks (drop pos pv)).
Proof.
  induction dBusValues as [| it rest IH];
    intros ks pos value valueMap Hconv Hnd Hfresh Hlen.
  - inversion Hconv. subst. cbn. rewrite app_nil_r. reflexivity.
  - inversion Hconv as [| it' k rest' ks' Hk Hrest]. subst.
    cbn [populateMapping_from length] in *. rewrite Hk. cbn [default].
    destruct (lookup_lt_is_Some_2 pv pos) as [p Hp]; [lia |].
    rewrite Hp. cbn [mbind option_bind]. unfold id.
    apply NoDup_cons in Hnd as [Hnotin Hnd].
    unfold assoc_emplace. rewrite (Hfresh k) by (apply elem_of_cons; auto).
    rewrite (IH ks' (S pos) k (valueMap ++ [(k, p)]) Hrest Hnd); [| | lia].
    + rewrite <- app_assoc. rewrite (drop_S pv p pos Hp). reflexivity.
    + intros k' Hk'. rewrite assoc_has_app.
      rewrite (Hfresh k') by (apply elem_of_cons; auto). cbn.
      destruct (decide (k = k')) as [-> | _]; [contradiction | reflexivity].
Qed.

Lemma assoc_find_zip (ks : list PropertyValue) :
  forall (ps : list string),
    NoDup ks -> (length ks <= length ps)%nat ->
    (forall i k, ks !! i = Some k -> assoc_find k (zip ks ps) = ps !! i) /\
    (forall k, k ∉ ks -> assoc_find k (zip ks ps) = None).
Proof.
  induction ks as [| k0 ks IH]; intros ps Hnd Hlen.
  - split; [intros i k H; discriminate | reflexivity].
  - destruct ps as [| p ps]; [cbn in Hlen; lia |].
    apply NoDup_cons in Hnd as [Hnotin Hnd].
    destruct (IH ps Hnd) as [IHin IHout]; [cbn in Hlen; lia |].
    split.
    + intros [| i] k Hk; cbn in Hk |- *.
      * inversion Hk. subst. rewrite decide_True by reflexivity. reflexivity.
      * destruct (decide (k0 = k)) as [-> | _].
        -- exfalso. apply Hnotin. apply list_elem_of_lookup. eauto.
        -- apply IHin. exact Hk.
    + intros k Hk. cbn.
      destruct (decide (k0 = k)) as [-> | _].
      * exfalso. apply Hk. apply elem_of_cons. auto.
      * apply IHout. intros H. apply Hk. apply elem_of_cons. auto.
Qed.

Lemma populateMapping_zip (type : string) (dBusValues : list JsonValue)
    (pv : list string) (ks : list PropertyValue) :
  Forall2 (fun v k => convert type v = Some k) dBusValues ks ->
  NoDup ks ->
  (length dBusValues <= length pv)%nat ->
  populateMapping type dBusValues pv = Some (zip ks pv).
Proof.
  intros Hconv Hnd Hlen. unfold populateMapping.
  rewrite (populateMapping_from_zip type pv dBusValues ks 0
             defaultPropertyValue [] Hconv Hnd); [reflexivity | | lia].
  reflexivity.
Qed.

(** X24: [populateMapping] stays within the possible values exactly
    when there are no more D-Bus property values than possible values;
    with more of them it reads [pv[pos]] past the end.  When the
    property values convert to different D-Bus values, the map it
    builds takes the value at each position to the possible value at
    that position and knows no other value. *)
Theorem populateMapping_positions (type : string)
    (dBusValues : list JsonValue) (pv : list string) :
  (is_Some (populateMapping type dBusValues pv) <->
   (length dBusValues <= length pv)%nat) /\
  (forall ks valueMap,
     Forall2 (fun v k => convert type v = Some k) dBusValues ks ->
     NoDup ks ->
     populateMapping type dBusValues pv = Some valueMap ->
     (forall i k, ks !! i = Some k -> assoc_find k valueMap = pv !! i) /\
     (forall k, k ∉ ks -> assoc_find k valueMap = None)).
Proof.
  assert (Hdef : is_Some (populateMapping type dBusValues pv) <->
                 (length dBusValues <= length pv)%nat).
  { unfold populateMapping. rewrite populateMapping_from_defined. split.
    - intros [-> | H]; cbn; lia.
    - intros H. right. lia. }
  split; [exact Hdef |].
  intros ks valueMap Hconv Hnd Hrun.
  assert (Hlen : (length dBusValues <= length pv)%nat).
  { apply Hdef. eexists. exact Hrun. }
  rewrite (populateMapping_zip type dBusValues pv ks Hconv Hnd Hlen) in Hrun.
  inversion Hrun. subst valueMap.
  apply assoc_find_zip; [exact Hnd |].
  rewrite <- (Forall2_length _ _ _ Hconv). exact Hlen.
Qed.

Lemma setupAll_app (xs ys : list (string * Entry)) :
  forall r, setupAll (xs ++ ys) r = setupAll xs r ≫= setupAll ys.
Proof.
  induction xs as [| x xs IH]; intros r; [reflexivity |].
  cbn [app setupAll].
  destruct (setupEntry x r) as [r1 |]; cbn [mbind option_bind];
    [apply IH | reflexivity].
Qed.

Lemma setupEntries_setupAll (jsonName : string) (entries : list Entry) :
  forall r,
    setupEntries jsonName entries r
    = setupAll (map (pair jsonName) entries) r.
Proof.
  induction entries as [| entry rest IH]; intros r; [reflexivity |].
  cbn [setupEntries map setupAll]. unfold setupEntry. cbn [fst snd].
  destruct (setupBIOSType jsonName entry _) as [[code r3] |];
    cbn [mbind option_bind]; [apply IH | reflexivity].
Qed.

Lemma setupFiles_setupAll (d : Dir) (names : list string) :
  forall r,
    setupFiles d names r
    = setupAll
        (flat_map (fun jsonName =>
                     map (pair jsonName) (default [] (dir_entries d jsonName)))
           names) r.
Proof.
  induction names as [| jsonName rest IH]; intros r; [reflexivity |].
  cbn [setupFiles flat_map]. rewrite setupAll_app.
  destruct (dir_entries d jsonName) as [entries |]; cbn [default].
  - rewrite setupEntries_setupAll.
    destruct (setupAll _ r) as [r1 |]; cbn [mbind option_bind];
      [apply IH | reflexivity].
  - cbn. apply IH.
Qed.

Lemma setupConfig_empty (d : Dir) :
  setupConfig d emptyRegistry
  = if negb (dir_exists d) || dir_is_empty d
    then Some (-1, emptyRegistry)
    else
      r' ← setupAll (processed d) emptyRegistry;
      Some (if bool_decide (BIOSStrings r' = []) then -1 else 0, r').
Proof.
  unfold setupConfig. cbn [emptyRegistry BIOSStrings].
  rewrite bool_decide_eq_true_2 by reflexivity. cbn [negb andb].
  destruct (negb (dir_exists d) || dir_is_empty d); [reflexivity |].
  rewrite setupFiles_setupAll. fold (processed d).
  destruct (setupAll (processed d) emptyRegistry) as [r' |];
    cbn [mbind option_bind]; [| reflexivity].
  destruct (bool_decide (BIOSStrings r' = [])); reflexivity.
Qed.

Lemma setupEntry_strings (x : string * Entry) (r r' : Registry) :
  setupEntry x r = Some r' ->
  BIOSStrings r' = BIOSStrings r ++ entryStrings x /\
  BIOSAttrLookup r'
  = map_emplace (attribute_name x.2) (dBusMapOf x.2) (BIOSAttrLookup r).
Proof.
  destruct x as [n e]. unfold setupEntry. cbn [fst snd].
  destruct (setupBIOSType n e _) as [[code r3] |] eqn:Htype;
    cbn [mbind option_bind]; [| discriminate].
  intros Hr. inversion Hr. subst r3.
  apply setupBIOSType_frame in Htype as [Hs Hl]. rewrite Hs, Hl.
  cbn [set_lookup set_strings BIOSStrings BIOSAttrLookup].
  split; [| reflexivity].
  unfold setupBIOSStrings, entryStrings, enum_setupBIOSStrings. cbn [fst snd].
  destruct (String.eqb n bIOSEnumJson); rewrite <- ?app_assoc; reflexivity.
Qed.

Lemma setupAll_strings (xs : list (string * Entry)) :
  forall r r',
    setupAll xs r = Some r' ->
    BIOSStrings r' = BIOSStrings r ++ flat_map entryStrings xs.
Proof.
  induction xs as [| x xs IH]; intros r r' Hrun.
  - inversion Hrun. subst. cbn. rewrite app_nil_r. reflexivity.
  - cbn [setupAll] in Hrun.
    destruct (setupEntry x r) as [r1 |] eqn:Hx; cbn in Hrun; [| discriminate].
    apply setupEntry_strings in Hx as [Hs _].
    rewrite (IH r1 r' Hrun), Hs. cbn [flat_map].
    rewrite <- app_assoc. reflexivity.
Qed.

Lemma map_emplace_lookup `{Countable K} {V} (k k' : K) (v : V)
    (m : gmap K V) :
  map_emplace k v m !! k'
  = if decide (k' = k) then Some (default v (m !! k)) else m !! k'.
Proof.
  unfold map_emplace. destruct (decide (k' = k)) as [-> | Hne].
  - destruct (m !! k) eqn:Hk; [rewrite Hk | rewrite lookup_insert_eq];
      reflexivity.
  - destruct (m !! k); [reflexivity |]. apply lookup_insert_ne. congruence.
Qed.

Section EmplacedMaps.

(** A map of the registry to which each entry that satisfies [c] is
    emplaced under its attribute name. *)
Context {V : Type} (f : Registry -> gmap string V)
        (c : string * Entry -> bool) (v : string * Entry -> V).

Hypothesis step :
  forall x r r',
    setupEntry x r = Some r' ->
    f r' = if c x then map_emplace (attribute_name x.2) (v x) (f r) else f r.

Lemma setupAll_absent (k : string) (xs : list (string * Entry)) :
  forall r r',
    setupAll xs r = Some r' ->
    (forall y, y ∈ xs -> c y = true -> attribute_name y.2 <> k) ->
    f r' !! k = f r !! k.
Proof.
  induction xs as [| x xs IH]; intros r r' Hrun Hfresh.
  - inversion Hrun. reflexivity.
  - cbn [setupAll] in Hrun.
    destruct (setupEntry x r) as [r1 |] eqn:Hx; cbn in Hrun; [| discriminate].
    rewrite (IH r1 r' Hrun)
      by (intros y Hy; apply Hfresh; apply elem_of_cons; auto).
    rewrite (step x r r1 Hx).
    destruct (c x) eqn:Hc; [| reflexivity].
    rewrite map_emplace_lookup.
    destruct (decide (k = attribute_name x.2)) as [-> | _]; [| reflexivity].
    exfalso. apply (Hfresh x); [apply elem_of_cons; auto | exact Hc |].
    reflexivity.
Qed.

Lemma setupAll_stable (k : string) (a : V) (xs : list (string * Entry)) :
  forall r r',
    setupAll xs r = Some r' -> f r !! k = Some a -> f r' !! k = Some a.
Proof.
  induction xs as [| x xs IH]; intros r r' Hrun Hk.
  - inversion Hrun. subst. exact Hk.
  - cbn [setupAll] in Hrun.
    destruct (setupEntry x r) as [r1 |] eqn:Hx; cbn in Hrun; [| discriminate].
    apply (IH r1 r' Hrun). rewrite (step x r r1 Hx).
    destruct (c x); [| exact Hk]. rewrite map_emplace_lookup.
    destruct (decide (k = attribute_name x.2)) as [-> | _]; [| exact Hk].
    rewrite Hk. reflexivity.
Qed.

Lemma setupAll_first (pre post : list (string * Entry))
    (x : string * Entry) (r r' : Registry) :
  setupAll (pre ++ x :: post) r = Some r' ->
  f r !! attribute_name x.2 = None ->
  (forall y, y ∈ pre -> attribute_name y.2 <> attribute_name x.2) ->
  (c x = true -> f r' !! attribute_name x.2 = Some (v x)) /\
  (c x = false ->
   (forall y, y ∈ post -> attribute_name y.2 <> attribute_name x.2) ->
   f r' !! attribute_name x.2 = None).
Proof.
  intros Hrun Hnone Hpre. rewrite setupAll_app in Hrun.
  destruct (setupAll pre r) as [r1 |] eqn:Hr1;
    cbn [mbind option_bind setupAll] in Hrun; [| discriminate].
  destruct (setupEntry x r1) as [r2 |] eqn:Hx;
    cbn [mbind option_bind] in Hrun; [| discriminate].
  assert (H1 : f r1 !! attribute_name x.2 = None).
  { rewrite (setupAll_absent (attribute_name x.2) pre r r1 Hr1); [exact Hnone |].
    intros y Hy _. apply Hpre. exact Hy. }
  pose proof (step x r1 r2 Hx) as H2. split.
  - intros Hc. rewrite Hc in H2.
    apply (setupAll_stable _ _ post r2 r' Hrun).
    rewrite H2, map_emplace_lookup, decide_True by reflexivity.
    rewrite H1. reflexivity.
  - intros Hc Hpost. rewrite Hc in H2.
    rewrite (setupAll_absent (attribute_name x.2) post r2 r' Hrun).
    + rewrite H2. exact H1.
    + intros y Hy _. apply Hpost. exact Hy.
Qed.

End EmplacedMaps.

Lemma step_lookup (x : string * Entry) (r r' : Registry) :
  setupEntry x r = Some r' ->
  BIOSAttrLookup r'
  = if true
    then map_emplace (attribute_name x.2) (dBusMapOf x.2) (BIOSAttrLookup r)
    else BIOSAttrLookup r.
Proof. intros H. apply setupEntry_strings in H as [_ H]. exact H. Qed.

Lemma enum_ne_str : String.eqb bIOSStrJson bIOSEnumJson = false.
Proof. reflexivity. Qed.

Lemma enum_ne_int : String.eqb bIOSIntegerJson bIOSEnumJson = false.
Proof. reflexivity. Qed.

Lemma str_ne_int : String.eqb bIOSIntegerJson bIOSStrJson = false.
Proof. reflexivity. Qed.


Lemma step_enum_dbus (x : string * Entry) (r r' : Registry) :
  setupEntry x r = Some r' ->
  enum_dbusValToValMaps r'
  = if String.eqb x.1 bIOSEnumJson && bool_decide (is_Some (dbus x.2))
    then map_emplace (attribute_name x.2)
           (default []
              (dBusEntry ← dbus x.2;
               populateMapping (property_type dBusEntry)
                 (property_values dBusEntry) (possible_values x.2)))
           (enum_dbusValToValMaps r)
    else enum_dbusValToValMaps r.
Proof.
  destruct x as [n e]. unfold setupEntry, setupBIOSType. cbn [fst snd].
  destruct (String.eqb n bIOSEnumJson); cbn [andb].
  - unfold enum_setup.
    destruct (dbus e) as [db |]; cbn [mbind option_bind].
    + destruct (populateMapping _ _ _); cbn; [| discriminate].
      intros H. inversion H. reflexivity.
    + cbn. intros H. inversion H. reflexivity.
  - destruct (String.eqb n bIOSStrJson).
    + unfold string_setup.
      destruct (strTypeMap !! string_type e); [destruct (negb _) |]; cbn;
        intros H; inversion H; reflexivity.
    + destruct (String.eqb n bIOSIntegerJson).
      * unfold integer_setup. destruct (negb _); cbn; intros H; inversion H;
          reflexivity.
      * cbn. intros H. inversion H. reflexivity.
Qed.

Lemma step_string_valueMap (x : string * Entry) (r r' : Registry) :
  setupEntry x r = Some r' ->
  string_valueMap r'
  = if String.eqb x.1 bIOSStrJson && stringAccepted x.2
    then map_emplace (attribute_name x.2)
           (bool_decide (dbus x.2 = None),
            default 0 (strTypeMap !! string_type x.2),
            wrap 16 (minimum_string_length x.2),
            wrap 16 (maximum_string_length x.2),
            wrap 16 (default_string_length x.2), default_string x.2)
           (string_valueMap r)
    else string_valueMap r.
Proof.
  destruct x as [n e]. unfold setupEntry, setupBIOSType. cbn [fst snd].
  destruct (String.eqb_spec n bIOSEnumJson) as [-> | _].
  - rewrite String.eqb_sym, enum_ne_str. cbn [andb]. unfold enum_setup.
    destruct (dbus e) as [db |]; cbn [mbind option_bind].
    + destruct (populateMapping _ _ _); cbn; [| discriminate].
      intros H. inversion H. reflexivity.
    + cbn. intros H. inversion H. reflexivity.
  - destruct (String.eqb n bIOSStrJson); cbn [andb].
    + unfold string_setup, stringAccepted.
      destruct (strTypeMap !! string_type e) as [strType |];
        [destruct (string_info_check _ _ _ _ _) |]; cbn;
        intros H; inversion H; reflexivity.
    + destruct (String.eqb n bIOSIntegerJson).
      * unfold integer_setup. destruct (negb _); cbn; intros H; inversion H;
          reflexivity.
      * cbn. intros H. inversion H. reflexivity.
Qed.

Lemma step_integer_valueMap (x : string * Entry) (r r' : Registry) :
  setupEntry x r = Some r' ->
  integer_valueMap r'
  = if String.eqb x.1 bIOSIntegerJson && integerAccepted x.2
    then map_emplace (attribute_name x.2)
           (bool_decide (dbus x.2 = None), wrap 64 (lower_bound x.2),
            wrap 64 (upper_bound x.2), wrap 32 (scalar_increment x.2),
            wrap 64 (default_value x.2))
           (integer_valueMap r)
    else integer_valueMap r.
Proof.
  destruct x as [n e]. unfold setupEntry, setupBIOSType. cbn [fst snd].
  destruct (String.eqb_spec n bIOSEnumJson) as [-> | _].
  - rewrite String.eqb_sym, enum_ne_int. cbn [andb]. unfold enum_setup.
    destruct (dbus e) as [db |]; cbn [mbind option_bind].
    + destruct (populateMapping _ _ _); cbn; [| discriminate].
      intros H. inversion H. reflexivity.
    + cbn. intros H. inversion H. reflexivity.
  - destruct (String.eqb_spec n bIOSStrJson) as [-> | _].
    + rewrite String.eqb_sym, str_ne_int. cbn [andb]. unfold string_setup.
      destruct (strTypeMap !! string_type e); [destruct (negb _) |]; cbn;
        intros H; inversion H; reflexivity.
    + destruct (String.eqb n bIOSIntegerJson); cbn [andb].
      * unfold integer_setup, integerAccepted.
        destruct (integer_info_check _ _ _ _); cbn; intros H; inversion H;
          reflexivity.
      * cbn. intros H. inversion H. reflexivity.
Qed.





Lemma setupConfig_ran (d : Dir) (r' : Registry) :
  setupConfig d emptyRegistry = Some (0, r') ->
  setupAll (processed d) emptyRegistry = Some r'.
Proof.
  rewrite setupConfig_empty.
  destruct (negb (dir_exists d) || dir_is_empty d); [discriminate |].
  destruct (setupAll (processed d) emptyRegistry) as [r1 |]; cbn;
    [| discriminate].
  destruct (bool_decide (BIOSStrings r1 = [])); intros H; inversion H.
  reflexivity.
Qed.


(** X27: an entry that [bios_string::setup] or [bios_integer::setup]
    turns down is registered by half.  If it is the only entry of its
    name, then after a [setupConfig] that returned 0 its name is among
    [BIOSStrings] and in [BIOSAttrLookup], but in no value map, and
    [getAttrValue] for it leaves through [std::out_of_range] when the
    entry has no ["dbus"] object. *)
Theorem getAttrValue_rejected_entry (d : Dir) (r' : Registry)
    (pre post : list (string * Entry)) (jsonName : string) (e : Entry) :
  setupConfig d emptyRegistry = Some (0, r') ->
  processed d = pre ++ (jsonName, e) :: post ->
  (forall y, y ∈ pre ++ post -> attribute_name y.2 <> attribute_name e) ->
  dbus e = None ->
  (jsonName = bIOSStrJson /\ stringAccepted e = false)
  \/ (jsonName = bIOSIntegerJson /\ integerAccepted e = false) ->
  attribute_name e ∈ BIOSStrings r' /\
  BIOSAttrLookup r' !! attribute_name e = Some None /\
  string_valueMap r' !! attribute_name e = None /\
  integer_valueMap r' !! attribute_name e = None /\
  string_getAttrValue (attribute_name e) r' = None /\
  integer_getAttrValue (attribute_name e) r' = None.
Proof.
  intros Hcfg Hsplit Hother Hdbus Hrej.
  apply setupConfig_ran in Hcfg. rewrite Hsplit in Hcfg.
  assert (Hpre : forall y, y ∈ pre -> attribute_name y.2 <> attribute_name e)
    by (intros y Hy; apply Hother, elem_of_app; auto).
  assert (Hpost : forall y, y ∈ post -> attribute_name y.2 <> attribute_name e)
    by (intros y Hy; apply Hother, elem_of_app; auto).
  assert (Hlookup : BIOSAttrLookup r' !! attribute_name e = Some None).
  { destruct (setupAll_first BIOSAttrLookup (fun _ => true)
                (fun x => dBusMapOf x.2) step_lookup pre post (jsonName, e)
                emptyRegistry r' Hcfg (lookup_empty _) Hpre) as [H _].
    cbn [fst snd] in H. rewrite (H eq_refl).
    unfold dBusMapOf. rewrite Hdbus. reflexivity. }
  assert (Hstr : string_valueMap r' !! attribute_name e = None).
  { destruct (setupAll_first string_valueMap _ _ step_string_valueMap pre
                post (jsonName, e) emptyRegistry r' Hcfg (lookup_empty _)
                Hpre) as [_ H].
    apply H; [| exact Hpost]. cbn [fst snd].
    destruct Hrej as [[-> ->] | [-> _]]; [apply andb_false_r |].
    rewrite str_ne_int. reflexivity. }
  assert (Hint : integer_valueMap r' !! attribute_name e = None).
  { destruct (setupAll_first integer_valueMap _ _ step_integer_valueMap pre
                post (jsonName, e) emptyRegistry r' Hcfg (lookup_empty _)
                Hpre) as [_ H].
    apply H; [| exact Hpost]. cbn [fst snd].
    destruct Hrej as [[-> _] | [-> ->]]; [| apply andb_false_r].
    rewrite String.eqb_sym, str_ne_int. reflexivity. }
  split; [| split; [exact Hlookup | split; [exact Hstr | split;
                                                          [exact Hint |]]]].
  - rewrite (setupAll_strings _ _ _ Hcfg). cbn [emptyRegistry BIOSStrings app].
    rewrite flat_map_app. apply elem_of_app. right. cbn [flat_map].
    apply elem_of_app. left. unfold entryStrings. cbn [fst snd].
    apply elem_of_cons. left. reflexivity.
  - unfold string_getAttrValue, integer_getAttrValue.
    rewrite Hlookup. cbn [mbind option_bind]. rewrite Hstr, Hint.
    split; reflexivity.
Qed.

(** X28: an enumeration attribute backed by D-Bus.  If the first entry
    of the name is an enumeration entry whose ["dbus"] object names
    path, interface and property and whose property values convert to
    different D-Bus values, then after a [setupConfig] that returned 0
    [bios_enum::getAttrValue] reads that property and returns the one
    possible value at the position of the value read, and no value at
    all, not the default, when the value read is none of the property
    values. *)
Theorem enum_getAttrValue_dbus (d : Dir) (r' : Registry)
    (pre post : list (string * Entry)) (e : Entry) (dBusEntry : DbusEntry)
    (ks : list PropertyValue) :
  setupConfig d emptyRegistry = Some (0, r') ->
  processed d = pre ++ (bIOSEnumJson, e) :: post ->
  (forall y, y ∈ pre -> attribute_name y.2 <> attribute_name e) ->
  dbus e = Some dBusEntry ->
  object_path dBusEntry <> ""%string ->
  interface_name dBusEntry <> ""%string ->
  property_name dBusEntry <> ""%string ->
  Forall2 (fun v k => convert (property_type dBusEntry) v = Some k)
    (property_values dBusEntry) ks ->
  NoDup ks ->
  let propValue :=
    getDbusPropertyVariant (object_path dBusEntry) (property_name dBusEntry)
      (interface_name dBusEntry) in
  (forall i, ks !! i = Some propValue ->
   exists p, possible_values e !! i = Some p /\
             enum_getAttrValue (attribute_name e) r' = Some [p]) /\
  (propValue ∉ ks -> enum_getAttrValue (attribute_name e) r' = Some []).
Proof.
  intros Hcfg Hsplit Hpre Hdbus Hpath Hiface Hprop Hconv Hnd propValue.
  apply setupConfig_ran in Hcfg. rewrite Hsplit in Hcfg.
  assert (Hlookup : BIOSAttrLookup r' !! attribute_name e
                    = Some (Some (mkDBusMapping (object_path dBusEntry)
                                    (interface_name dBusEntry)
                                    (property_name dBusEntry)))).
  { destruct (setupAll_first BIOSAttrLookup (fun _ => true)
                (fun x => dBusMapOf x.2) step_lookup pre post
                (bIOSEnumJson, e) emptyRegistry r' Hcfg (lookup_empty _) Hpre)
      as [H _].
    cbn [fst snd] in H. rewrite (H eq_refl). unfold dBusMapOf. rewrite Hdbus.
    destruct (String.eqb_spec (object_path dBusEntry) ""); [contradiction |].
    destruct (String.eqb_spec (interface_name dBusEntry) "");
      [contradiction |].
    destruct (String.eqb_spec (property_name dBusEntry) "");
      [contradiction |].
    reflexivity. }
  assert (Hdef : exists m,
             populateMapping (property_type dBusEntry)
               (property_values dBusEntry) (possible_values e) = Some m).
  { rewrite setupAll_app in Hcfg.
    destruct (setupAll pre emptyRegistry) as [r1 |];
      cbn [mbind option_bind setupAll] in Hcfg; [| discriminate].
    destruct (setupEntry (bIOSEnumJson, e) r1) as [r2 |] eqn:Hx;
      cbn [mbind option_bind] in Hcfg; [| discriminate].
    unfold setupEntry, setupBIOSType, enum_setup in Hx. cbn [fst snd] in Hx.
    rewrite String.eqb_refl, Hdbus in Hx. cbn [mbind option_bind] in Hx.
    destruct (populateMapping _ _ _) as [m |]; [eauto | discriminate]. }
  destruct Hdef as [m Hm].
  assert (Hmaps : enum_dbusValToValMaps r' !! attribute_name e = Some m).
  { destruct (setupAll_first enum_dbusValToValMaps _ _ step_enum_dbus pre
                post (bIOSEnumJson, e) emptyRegistry r' Hcfg (lookup_empty _)
                Hpre) as [H _].
    cbn [fst snd] in H. rewrite H.
    - rewrite Hdbus. cbn [mbind option_bind]. rewrite Hm. reflexivity.
    - rewrite String.eqb_refl, Hdbus.
      rewrite bool_decide_eq_true_2 by (eexists; reflexivity). reflexivity. }
  assert (Hlen : (length (property_values dBusEntry)
                  <= length (possible_values e))%nat).
  { destruct (proj1 (populateMapping_from_defined (property_type dBusEntry)
                         (possible_values e) (property_values dBusEntry) 0
                         defaultPropertyValue [])) as [H | H].
    - eexists. exact Hm.
    - rewrite H. cbn. lia.
    - lia. }
  rewrite (populateMapping_zip _ _ _ ks Hconv Hnd Hlen) in Hm.
  inversion Hm. subst m.
  destruct (assoc_find_zip ks (possible_values e) Hnd) as [Hin Hout].
  { rewrite <- (Forall2_length _ _ _ Hconv). exact Hlen. }
  unfold enum_getAttrValue. rewrite Hlookup. cbn [mbind option_bind].
  rewrite Hmaps. cbn [mbind option_bind objectPath propertyName interface].
  fold propValue. split.
  - intros i Hi. rewrite (Hin i propValue Hi).
    destruct (lookup_lt_is_Some_2 (possible_values e) i) as [p Hp].
    { apply lookup_lt_Some in Hi.
      rewrite <- (Forall2_length _ _ _ Hconv) in Hi. lia. }
    exists p. rewrite Hp. split; reflexivity.
  - intros Hnot. rewrite (Hout propValue Hnot). reflexivity.
Qed.

End RegistryProperties.

(** * The further properties on concrete inputs *)

Section PollerLoopExamples.

#[local] Existing Instance Example.poller_env.
#[local] Existing Instance Example.named.

Lemma coherent_run_witness :
  exists s',
    turns [NormalTimer; PollRequestTimer 7 0 0;
           ResponseArrives (snd Example.start_AB); EnqueueCritical 0x1234;
           PollRequestTimer 8 0 0; ResponseArrives (snd Example.end_CD);
           PollRequestTimer 9 1 0; PollTimeout] Example.idle
    = Some s' /\
    coherent Example.idle /\ coherent s'.
Proof.
  assert (H0 : coherent Example.idle) by (split; [discriminate | reflexivity]).
  eexists. split; [vm_compute; reflexivity |]. split; [exact H0 |].
  refine (coherent_run
            [NormalTimer; PollRequestTimer 7 0 0;
             ResponseArrives (snd Example.start_AB); EnqueueCritical 0x1234;
             PollRequestTimer 8 0 0; ResponseArrives (snd Example.end_CD);
             PollRequestTimer 9 1 0; PollTimeout] Example.idle _ H0 _).
  vm_compute. reflexivity.
Defined.

Lemma queue_ok_run_witness :
  exists s',
    turns [EnqueueCritical 1; EnqueueCritical 2; EnqueueCritical 1;
           EnqueueCritical 3; EnqueueCritical 4; CriticalTimer;
           EnqueueCritical 5] Example.idle
    = Some s' /\
    Poller.critEventQueue s' = [2; 3; 5] /\
    queue_ok Example.idle /\ queue_ok s'.
Proof.
  assert (H0 : queue_ok Example.idle).
  { split; [apply NoDup_nil_2 | cbn; lia]. }
  eexists. split; [vm_compute; reflexivity |]. split; [reflexivity |].
  split; [exact H0 |].
  refine (queue_ok_run
            [EnqueueCritical 1; EnqueueCritical 2; EnqueueCritical 1;
             EnqueueCritical 3; EnqueueCritical 4; CriticalTimer;
             EnqueueCritical 5] Example.idle _ H0 _).
  vm_compute. reflexivity.
Defined.

Lemma critical_queue_fifo_witness :
  served 2
    (snd (Poller.enqueueCriticalEvent 0x5678
            (snd (Poller.enqueueCriticalEvent 0x1234 Example.idle))))
  = [0x1234; 0x5678].
Proof.
  refine (critical_queue_fifo 0x5678
            (snd (Poller.enqueueCriticalEvent 0x1234 Example.idle)) _ _);
    reflexivity.
Defined.

Lemma pollReqTimeoutHdl_after_send_witness :
  fst (Poller.pollReqTimeoutHdl Example.polling)
  = [Poller.MarkFree (handlers := Example.named) 7] /\
  Poller.isProcessPolling (snd (Poller.pollReqTimeoutHdl Example.polling))
  = false.
Proof.
  destruct (pollReqTimeoutHdl_after_send (env := Example.poller_env) 7
              (Poller.normalEventCb Example.idle) eq_refl
              ltac:(vm_compute; discriminate))
    as [(Hfree & _ & Hproc & _) _].
  split; [exact Hfree | exact Hproc].
Defined.

Lemma single_part_event_witness :
  exists s',
    Poller.exchanges [(7, Example.single_123); (8, Example.terminate)]
      (Poller.normalEventCb Example.idle)
    = Some ([Poller.GetInstanceId 7; Poller.RegisterRequest 7 1 0 0;
             Poller.InvokeHandler (handlers := Example.named)
               "class5"%string 1 5 9 [0x01; 0x02; 0x03];
             Poller.GetInstanceId 8; Poller.RegisterRequest 8 2 0 9;
             Poller.MarkFree 8], s') /\
    Poller.isProcessPolling s' = false /\ Poller.isPolling s' = false /\
    Poller.recvData s' = Poller.mkRecv 0 0 [] /\
    Poller.reqData s' = Poller.mkReq 0 0 0.
Proof.
  exact (single_part_event Example.idle 7 8 Example.single_123
           Example.terminate example_flags_distinct eq_refl eq_refl eq_refl
           eq_refl eq_refl (conj eq_refl eq_refl) eq_refl eq_refl eq_refl).
Defined.

Lemma critical_poll_insert_offset_witness :
  Poller.dataTransferHandle
    (Poller.reqData
       (Poller.criticalEventCb
          (snd (Poller.enqueueCriticalEvent 0x1234 Example.idle))))
  = 0x1234 /\
  Poller.exchange (7, Example.resp 0x1234 0 0x05 5 [0x01; 0x02; 0x03] 0)
    (Poller.criticalEventCb
       (snd (Poller.enqueueCriticalEvent 0x1234 Example.idle)))
  = None.
Proof.
  refine (critical_poll_insert_offset
            (snd (Poller.enqueueCriticalEvent 0x1234 Example.idle)) 0x1234 []
            7 (Example.resp 0x1234 0 0x05 5 [0x01; 0x02; 0x03] 0)
            example_flags_distinct eq_refl eq_refl eq_refl eq_refl
            (conj eq_refl eq_refl) eq_refl eq_refl _).
  right. right. reflexivity.
Defined.

End PollerLoopExamples.

Section ResponderEdgeExamples.

#[local] Existing Instance Example.platform_types.
#[local] Existing Instance Example.platform_env.
#[local] Existing Instance Example.chg_env.
#[local] Existing Instance Example.effecter_env.
#[local] Existing Instance Example.generators.

Lemma getPDRRecordHandles_bounds_witness :
  Platform.getPDRRecordHandles [1; 0; 0; 0; 2; 1; 0; 0; 3; 0; 0; 0] 8 2 [9]
  = Some (0x00, [9; 1; 258]) /\
  Platform.getPDRRecordHandles [1; 0; 0; 0; 2; 1; 0; 0; 3; 0; 0; 0] 8 3 [9]
  = Some (0x02, [9]) /\
  Platform.getPDRRecordHandles [1; 0; 0; 0; 2; 1; 0; 0] 8 2 [9]
  = Platform.getPDRRecordHandles [1; 0; 0; 0; 2; 1; 0; 0; 3; 0; 0; 0] 8 2 [9].
Proof.
  split; [| split].
  - refine (proj1 (getPDRRecordHandles_bounds
                     [1; 0; 0; 0; 2; 1; 0; 0; 3; 0; 0; 0] 8 2 [9] _ _ _));
      cbn; lia.
  - refine (proj1 (getPDRRecordHandles_bounds
                     [1; 0; 0; 0; 2; 1; 0; 0; 3; 0; 0; 0] 8 3 [9] _ _ _));
      cbn; lia.
  - refine (proj2 (getPDRRecordHandles_bounds
                     [1; 0; 0; 0; 2; 1; 0; 0; 3; 0; 0; 0] 8 2 [9] _ _ _));
      cbn; lia.
Defined.

Lemma pldmPDRRepositoryChgEvent_formats_witness :
  Platform.pldmPDRRepositoryChgEvent 0 (Example.chg_event 0x01 0 []) 5 1 3
    (Some Example.host_pdrs) Example.host_repo
  = Platform.Returns
      (Platform.mkChgOutcome 0x02 (Some Example.host_pdrs) Example.host_repo
         None) /\
  exists info,
    Platform.pldmPDRRepositoryChgEvent 0 (Example.chg_event 0x00 0 []) 5 1 3
      (Some Example.host_pdrs) Example.host_repo
    = Platform.Returns
        (Platform.mkChgOutcome 0x00
           (Some (Platform.mkHostPDRs false info)) [(11, [2; 0xB0])]
           (Some [])) /\
    info !! 1 = None /\ info !! 2 = Some (5, 10, 1) /\ info !! 3 = None.
Proof.
  split.
  - refine (proj1 (pldmPDRRepositoryChgEvent_formats 0
                     (Example.chg_event 0x01 0 []) 5 1 3
                     (Some Example.host_pdrs) Example.host_repo
                     (Platform.mkChgEventData 0x01 0 2) eq_refl) eq_refl).
  - destruct (proj2 (pldmPDRRepositoryChgEvent_formats
                       (env := Example.platform_env)
                       (chg := Example.chg_env) 0
                       (Example.chg_event 0x00 0 []) 5 1 3
                       (Some Example.host_pdrs) Example.host_repo
                       (Platform.mkChgEventData 0x00 0 2)
                       ltac:(vm_compute; reflexivity))
                eq_refl ltac:(discriminate) ltac:(discriminate))
      as (info & Hrun & _ & _ & Hinfo).
    exists info. split; [exact Hrun |].
    rewrite !Hinfo. repeat split.
Defined.

Ltac next_record op n :=
  match goal with
  | |- changeRecordsOf ?mem ?size _ =>
      refine (next_change_record mem size (Platform.mkChangeRecord op n 2) _
                _ _ _ _ _ _ _);
      [ vm_compute; split; [reflexivity | discriminate]
      | vm_compute; reflexivity
      | vm_compute; reflexivity
      | vm_compute; discriminate
      | vm_compute; discriminate
      | vm_compute; discriminate
      | ]
  end.

Lemma three_records_decode :
  changeRecordsOf
    (drop 2 (drop 3 (Platform.payload
                       (Example.chg_event 0x02 3 Example.three_records))))
    (wrap 64 (wrap 64 (27 - 3) - 2))
    [(0x02, [258; 3]); (0x01, [9]); (0x03, [4])].
Proof.
  next_record 0x02 2. next_record 0x01 1. next_record 0x03 1.
  apply no_change_record.
Qed.

Lemma pldmPDRRepositoryChgEvent_handles_witness :
  Platform.pldmPDRRepositoryChgEvent 3
    (Example.chg_event 0x02 3 Example.three_records) 27 1 3
    (Some Example.host_pdrs) Example.host_repo
  = Platform.Returns
      (Platform.mkChgOutcome 0x00
         (Some (Platform.mkHostPDRs true
                  (Platform.tlPDRInfo Example.host_pdrs)))
         Example.host_repo (Some [258; 3; 4])).
Proof.
  refine (pldmPDRRepositoryChgEvent_handles 3
            (Example.chg_event 0x02 3 Example.three_records) 27 1 3
            Example.host_pdrs Example.host_repo
            (Platform.mkChgEventData 0x02 3 2)
            [(0x02, [258; 3]); (0x01, [9]); (0x03, [4])]
            _ _ _ eq_refl eq_refl three_records_decode _);
    try discriminate; cbn; lia.
Defined.

Lemma example_records_advance (mem : list Z) (size : Z)
    (rec : Platform.ChangeRecord) :
  Platform.decode_pldm_pdr_repository_change_record_data mem size
  = (Platform.PLDM_SUCCESS, rec) ->
  0 < wrap 64 (Platform.rec_dataOffset rec
               + Platform.numberOfChangeEntries rec
                 * Z.of_nat Platform.sizeof_ChangeEntry).
Proof.
  cbn. intros H. inversion H. subst. cbn. unfold wrap.
  pose proof (Z.mod_pos_bound (Example.byte_at mem 1) 256 ltac:(lia)).
  rewrite Z.mod_small; lia.
Qed.

Lemma pldmPDRRepositoryChgEvent_terminates_witness :
  Platform.pldmPDRRepositoryChgEvent 10
    (Example.chg_event 0x02 1 [0x01; 200; 1; 2]) 9 1 3 None Example.host_repo
  <> Platform.OutOfFuel /\
  Platform.pldmPDRRepositoryChgEvent 10
    (Example.chg_event 0x02 1 [0x01; 200; 1; 2]) 9 1 3 None Example.host_repo
  = Platform.Undefined.
Proof.
  split; [| reflexivity].
  exact (pldmPDRRepositoryChgEvent_terminates
           (Example.chg_event 0x02 1 [0x01; 200; 1; 2]) 9 1 3 None
           Example.host_repo example_records_advance).
Defined.

Lemma generate_unknown_type_witness :
  Platform.Handler_generate true
    [Platform.mkPdrFile [(11, "a"%string)] [];
     Platform.mkPdrFile [(11, "b"); (99, "x"); (9, "c")]%string
       [(4, "s"%string)];
     Platform.mkPdrFile [] [(4, "t"%string)]] []
  = ["effecter:a"; "effecter:b"; "sensor:t"]%string.
Proof.
  refine (eq_trans
            (proj1 (proj2 (generate_unknown_type [(11, "b"%string)]
                             [(9, "c"%string)] [(4, "s"%string)]
                             (99, "x"%string)
                             [Platform.mkPdrFile [(11, "a"%string)] []]
                             [Platform.mkPdrFile [] [(4, "t"%string)]] []
                             eq_refl))) _).
  reflexivity.
Defined.

Lemma getPDR_response_count_witness :
  Platform.body
    (Platform.getPDR (Example.getPDR_req 1 3) 13 Example.responder).1
  = Platform.GetPdrBody 2 0 0x05 3 [0x10; 0x11; 0x12] 0 /\
  exists e,
    Example.find_record Example.repo3 1 = Some e /\
    3 = Z.min 3 (Platform.entry_size e mod 2 ^ 16) /\
    [0x10; 0x11; 0x12] = take 3 (Platform.entry_data e).
Proof.
  assert (Hbody : Platform.body
                    (Platform.getPDR (Example.getPDR_req 1 3) 13
                       Example.responder).1
                  = Platform.GetPdrBody 2 0 0x05 3 [0x10; 0x11; 0x12] 0)
    by reflexivity.
  split; [exact Hbody |].
  destruct (getPDR_response_count (env := Example.platform_env)
              (Example.getPDR_req 1 3) 13
              Example.responder 2 0 0x05 3 [0x10; 0x11; 0x12] 0
              ltac:(vm_compute; discriminate) Hbody)
    as (e & He & _ & Hcnt & _ & Hbytes & _).
  exists e. split; [exact He |]. split; [exact Hcnt | exact Hbytes].
Defined.

Lemma getPDR_rejections_witness :
  Platform.getPDR (Example.getPDR_req 1 3) 12 Example.responder
  = (Platform.mkResponse 3 0x02 0x51 0x03 Platform.NoBody,
     Example.responder).
Proof.
  refine (proj1 (getPDR_rejections (Example.getPDR_req 1 3) 12
                   Example.responder eq_refl) _).
  discriminate.
Defined.

Lemma sensorEvent_known_sensor_witness :
  Platform.sensorEvent (Example.state_sensor_event 9) 9 1 3
    Example.responder_with_host
  = (0x00,
     [Platform.EmitStateSensorEventSignal 1 9 0 2 1;
      Platform.HandleStateSensorEvent
        (Platform.mkStateSensorEntry 0 67 1 0) 2]) /\
  Platform.sensorEvent (Example.event_req 0x00 [9; 0; 0x01; 0x00; 0x03; 0x01])
    9 1 3 Example.responder_with_host
  = (0x02, [Platform.EmitStateSensorEventSignal 1 9 0 3 1]) /\
  Platform.sensorEvent (Example.event_req 0x00 [9; 0; 0x01; 0x01; 0x02; 0x01])
    9 1 3 Example.responder_with_host
  = (0x02, [Platform.EmitStateSensorEventSignal 1 9 1 2 1]).
Proof.
  split; [| split].
  - refine (eq_trans
              (sensorEvent_known_sensor (Example.state_sensor_event 9) 9 1 3
                 Example.responder_with_host
                 (Platform.mkHost false
                    {[ (1, 9) :=
                         Platform.mkSensorInfo (Platform.mkEntityInfo 0 67 1)
                           [ {[ 1; 2 ]} ] ]})
                 (Platform.mkSensorEventData 9 0x01 3)
                 (Platform.mkStateSensorData 0 2 1)
                 (Platform.mkSensorInfo (Platform.mkEntityInfo 0 67 1)
                    [ {[ 1; 2 ]} ])
                 eq_refl eq_refl eq_refl eq_refl ltac:(cbn; lia)
                 (or_introl eq_refl)) _).
    vm_compute. reflexivity.
  - refine (eq_trans
              (sensorEvent_known_sensor
                 (Example.event_req 0x00 [9; 0; 0x01; 0x00; 0x03; 0x01]) 9 1 3
                 Example.responder_with_host
                 (Platform.mkHost false
                    {[ (1, 9) :=
                         Platform.mkSensorInfo (Platform.mkEntityInfo 0 67 1)
                           [ {[ 1; 2 ]} ] ]})
                 (Platform.mkSensorEventData 9 0x01 3)
                 (Platform.mkStateSensorData 0 3 1)
                 (Platform.mkSensorInfo (Platform.mkEntityInfo 0 67 1)
                    [ {[ 1; 2 ]} ])
                 eq_refl eq_refl eq_refl eq_refl ltac:(cbn; lia)
                 (or_introl eq_refl)) _).
    vm_compute. reflexivity.
  - refine (eq_trans
              (sensorEvent_known_sensor
                 (Example.event_req 0x00 [9; 0; 0x01; 0x01; 0x02; 0x01]) 9 1 3
                 Example.responder_with_host
                 (Platform.mkHost false
                    {[ (1, 9) :=
                         Platform.mkSensorInfo (Platform.mkEntityInfo 0 67 1)
                           [ {[ 1; 2 ]} ] ]})
                 (Platform.mkSensorEventData 9 0x01 3)
                 (Platform.mkStateSensorData 1 2 1)
                 (Platform.mkSensorInfo (Platform.mkEntityInfo 0 67 1)
                    [ {[ 1; 2 ]} ])
                 eq_refl eq_refl eq_refl eq_refl ltac:(cbn; lia)
                 (or_introl eq_refl)) _).
    vm_compute. reflexivity.
Defined.

End ResponderEdgeExamples.

Section RegistryExamples.

#[local] Existing Instance Example.bios_types.
#[local] Existing Instance Example.bios_env.
#[local] Existing Instance Example.bios_dbus.

Ltac other_names :=
  let y := fresh "y" in
  let Hy := fresh "Hy" in
  intros y Hy;
  repeat (apply elem_of_cons in Hy as [-> | Hy]; [discriminate |]);
  apply elem_of_nil in Hy; contradiction.


Lemma example_setup :
  exists r',
    BiosParser.setupConfig Example.bios_dir2 BiosParser.emptyRegistry
    = Some (0, r').
Proof. eexists. vm_compute. reflexivity. Qed.



Lemma getAttrValue_rejected_entry_witness :
  exists r',
    BiosParser.setupConfig Example.bios_dir2 BiosParser.emptyRegistry
    = Some (0, r') /\
    "str_utf16be"%string ∈ BiosParser.BIOSStrings r' /\
    BiosParser.BIOSAttrLookup r' !! "str_utf16be"%string = Some None /\
    BiosParser.string_getAttrValue "str_utf16be" r' = None.
Proof.
  destruct example_setup as [r' Hfirst]. exists r'.
  split; [exact Hfirst |].
  destruct (getAttrValue_rejected_entry Example.bios_dir2 r'
              [(BiosParser.bIOSEnumJson, Example.enum_entry);
               (BiosParser.bIOSEnumJson, Example.readonly_entry);
               (BiosParser.bIOSEnumJson, Example.shadowed_entry);
               (BiosParser.bIOSStrJson, Example.string_entry)]
              [(BiosParser.bIOSIntegerJson, Example.integer_entry)]
              BiosParser.bIOSStrJson Example.utf16be_entry
              Hfirst eq_refl ltac:(other_names) eq_refl
              (or_introl (conj eq_refl eq_refl)))
    as (Hin & Hlookup & _ & _ & Hget & _).
  split; [exact Hin |]. split; [exact Hlookup | exact Hget].
Defined.

Lemma enum_getAttrValue_dbus_witness :
  exists r',
    BiosParser.setupConfig Example.bios_dir2 BiosParser.emptyRegistry
    = Some (0, r') /\
    BiosParser.enum_getAttrValue "FWBootSide" r' = Some ["Temp"%string].
Proof.
  destruct example_setup as [r' Hfirst]. exists r'.
  split; [exact Hfirst |].
  destruct (proj1 (enum_getAttrValue_dbus Example.bios_dir2 r' []
                     [(BiosParser.bIOSEnumJson, Example.readonly_entry);
                      (BiosParser.bIOSEnumJson, Example.shadowed_entry);
                      (BiosParser.bIOSStrJson, Example.string_entry);
                      (BiosParser.bIOSStrJson, Example.utf16be_entry);
                      (BiosParser.bIOSIntegerJson, Example.integer_entry)]
                     Example.enum_entry
                     (BiosParser.mkDbusEntry (types := Example.bios_types)
                        "/xyz/abc/def" "xyz.openbmc.FWBoot.Side" "Side"
                        "uint8_t" [0; 1])
                     [0; 1] Hfirst eq_refl ltac:(other_names) eq_refl
                     ltac:(discriminate) ltac:(discriminate)
                     ltac:(discriminate)
                     ltac:(repeat constructor)
                     ltac:(apply (bool_decide_unpack _); vm_compute; exact I))
              1%nat eq_refl)
    as (p & Hp & Hget).
  inversion Hp. subst p. exact Hget.
Defined.

End RegistryExamples.

Section FurtherExamples.

#[local] Existing Instance Example.poller_env.
#[local] Existing Instance Example.named.
#[local] Existing Instance Example.platform_types.
#[local] Existing Instance Example.platform_env.
#[local] Existing Instance Example.effecter_env.
#[local] Existing Instance Example.bios_types.
#[local] Existing Instance Example.bios_env.

Lemma registerEventHandler_first_wins_witness :
  Poller.eventHndls
    (Poller.registerEventHandler 5 "other"%string Example.idle) !! 5
  = Some "class5"%string /\
  Poller.eventHndls
    (Poller.registerEventHandler 6 "class6"%string Example.idle) !! 6
  = Some "class6"%string.
Proof.
  destruct (registerEventHandler_first_wins (handlers := Example.named) 5
              "other"%string Example.idle) as (_ & Hkeep & _).
  destruct (registerEventHandler_first_wins (handlers := Example.named) 6
              "class6"%string Example.idle) as (Hnew & _).
  split; [| exact (Hnew eq_refl)].
  exact (eq_trans
           (f_equal (fun m : gmap Z string => m !! 5)
              (Hkeep "class5"%string eq_refl)) eq_refl).
Defined.

Lemma pollEventReqCb_outcomes_witness :
  fst (Poller.pollEventReqCb 7 0 1 (Poller.normalEventCb Example.idle))
  = [Poller.GetInstanceId (handlers := Example.named) 7;
     Poller.RegisterRequest 7 1 0 0; Poller.MarkFree 7] /\
  fst (Poller.pollEventReqCb 7 1 0 (Poller.normalEventCb Example.idle))
  = [Poller.GetInstanceId (handlers := Example.named) 7] /\
  Poller.pollEventReqCb 8 0 0 Example.polling = ([], Example.polling).
Proof.
  destruct (pollEventReqCb_outcomes (env := Example.poller_env) 7 0 1
              (Poller.normalEventCb Example.idle))
    as [_ Hsend].
  destruct (Hsend eq_refl ltac:(vm_compute; discriminate))
    as (_ & Hregister & _).
  destruct (pollEventReqCb_outcomes (env := Example.poller_env) 7 1 0
              (Poller.normalEventCb Example.idle))
    as [_ Hencode].
  destruct (Hencode eq_refl ltac:(vm_compute; discriminate))
    as (Hfailed & _).
  destruct (pollEventReqCb_outcomes (env := Example.poller_env) 8 0 0
              Example.polling) as [Hbusy _].
  split; [exact (proj1 (Hregister eq_refl ltac:(discriminate))) |].
  split; [exact (proj1 (Hfailed ltac:(discriminate))) |].
  exact (Hbusy (or_introl eq_refl)).
Defined.

Lemma getDbusObjMaps_addDbusObjMaps_witness :
  Platform.getDbusObjMaps 7 Platform.PLDM_SENSOR_ID
    (Platform.addDbusObjMaps 7 "second"%string Platform.PLDM_SENSOR_ID
       (Platform.addDbusObjMaps 7 "first"%string Platform.PLDM_SENSOR_ID
          (Platform.mkObjMaps ∅ ∅)))
  = Some "first"%string /\
  Platform.getDbusObjMaps 7 Platform.PLDM_EFFECTER_ID
    (Platform.addDbusObjMaps 7 "first"%string Platform.PLDM_SENSOR_ID
       (Platform.mkObjMaps ∅ ∅))
  = None.
Proof.
  split.
  - exact (proj1 (getDbusObjMaps_addDbusObjMaps 7 "second"%string
                    Platform.PLDM_SENSOR_ID
                    (Platform.addDbusObjMaps 7 "first"%string
                       Platform.PLDM_SENSOR_ID (Platform.mkObjMaps ∅ ∅)))).
  - refine (proj2 (getDbusObjMaps_addDbusObjMaps 7 "first"%string
                     Platform.PLDM_SENSOR_ID (Platform.mkObjMaps ∅ ∅))
              7 Platform.PLDM_EFFECTER_ID _).
    discriminate.
Defined.

Lemma isOem_first_match_witness :
  Platform.isOemStateSensor Example.oem_responder 7 2
  = Some (2, 24577, 1, 196) /\
  Platform.isOemStateEffecter Example.oem_responder 7 2
  = Some (24577, 1, 196) /\
  Platform.isOemStateEffecter Example.oem_responder 7 3 = None.
Proof.
  split; [| split].
  - exact (proj1 (isOem_first_match (eff := Example.effecter_env)
                    Example.oem_responder 7 2)).
  - exact (proj2 (isOem_first_match (eff := Example.effecter_env)
                    Example.oem_responder 7 2)).
  - exact (proj2 (isOem_first_match (eff := Example.effecter_env)
                    Example.oem_responder 7 3)).
Defined.

Lemma setStateEffecterStates_dispatch_witness :
  (Platform.setStateEffecterStates (DbusObj := string) Example.set_states_req
     7 Example.oem_responder (Platform.mkObjMaps ∅ ∅) []).2
  = ["oem"%string] /\
  (Platform.setStateEffecterStates (DbusObj := string) Example.set_states_req
     7 Example.oem_responder
     (Platform.addDbusObjMaps 7 "obj"%string Platform.PLDM_EFFECTER_ID
        (Platform.mkObjMaps ∅ ∅)) []).2
  = ["dbus"%string] /\
  Platform.setStateEffecterStates (DbusObj := string) Example.set_states_req
    4 Example.oem_responder (Platform.mkObjMaps ∅ ∅) []
  = (Platform.mkResponse 5 0x02 0x39 0x03 Platform.NoBody, []).
Proof.
  destruct (setStateEffecterStates_dispatch (env := Example.platform_env)
              (eff := Example.effecter_env) (DbusObj := string)
              Example.set_states_req 7 Example.oem_responder
              (Platform.mkObjMaps ∅ ∅) []) as [_ Hwindow].
  assert (Hlen : 2 + 1 + Platform.sizeof_set_effecter_state_field <= 7
                 <= Platform.PLDM_SET_STATE_EFFECTER_STATES_REQ_BYTES)
    by (vm_compute; split; discriminate).
  destruct (Hwindow Hlen) as (_ & Hran & Hregistered).
  destruct (setStateEffecterStates_dispatch (env := Example.platform_env)
              (eff := Example.effecter_env) (DbusObj := string)
              Example.set_states_req 4 Example.oem_responder
              (Platform.mkObjMaps ∅ ∅) []) as [Hshort _].
  split; [exact (proj1 (Hran eq_refl)) |].
  split; [exact (proj1 (Hregistered eq_refl "obj"%string)) |].
  assert (Hlow : 4 < 2 + 1 + Platform.sizeof_set_effecter_state_field)
    by (vm_compute; reflexivity).
  exact (Hshort (or_intror Hlow)).
Defined.

Lemma setNumericEffecterValue_outcomes_witness :
  Platform.setNumericEffecterValue Example.set_numeric_req 5 []
  = (Platform.mkResponse 5 0x02 0x31 0x00 Platform.NoBody,
     ["numeric"%string]) /\
  Platform.setNumericEffecterValue Example.short_numeric_req 3 []
  = (Platform.mkResponse 5 0x02 0x31 0x03 Platform.NoBody, []).
Proof.
  destruct (setNumericEffecterValue_outcomes (env := Example.platform_env)
              (eff := Example.effecter_env) Example.set_numeric_req 5 [])
    as (_ & _ & _ & _ & Hran).
  destruct (setNumericEffecterValue_outcomes (env := Example.platform_env)
              (eff := Example.effecter_env) Example.short_numeric_req 3 [])
    as (_ & _ & Hshort & _).
  split; [exact (Hran eq_refl eq_refl) | exact (Hshort eq_refl)].
Defined.

Lemma getPDR_builds_once_witness :
  Platform.getPDR (Example.getPDR_req 1 3) 13 Example.responder_not_ready
  = (Platform.mkResponse 3 0x02 0x51 0x04 Platform.NoBody,
     Example.responder_not_ready) /\
  Platform.pdrCreated
    (Platform.getPDR (Example.getPDR_req 1 3) 12
       (Platform.mkHandler (types := Example.platform_types) None None false
          false Example.repo3 ∅)).2
  = true.
Proof.
  destruct (getPDR_builds_once (env := Example.platform_env)
              (Example.getPDR_req 1 3) (Example.getPDR_req 1 3) 13 13
              Example.responder_not_ready) as [Hgate _].
  destruct (getPDR_builds_once (env := Example.platform_env)
              (Example.getPDR_req 1 3) (Example.getPDR_req 1 3) 12 13
              (Platform.mkHandler (types := Example.platform_types) None None
                 false false Example.repo3 ∅)) as [_ Hbuilt].
  split; [exact (Hgate eq_refl) |].
  exact (proj1 (proj2 (Hbuilt eq_refl))).
Defined.

Lemma platformEventMessage_edges_witness :
  Platform.platformEventMessage (Example.event_req 0x06 [0]) 4
    Example.responder []
  = (Platform.mkResponse 4 0x02 0x0A 0x00 (Platform.PlatformEventBody 0x00),
     []) /\
  Platform.platformEventMessage (Example.event_req 0x09 [0]) 4
    Example.responder []
  = (Platform.mkResponse 4 0x02 0x0A 0x02 Platform.NoBody, []) /\
  Platform.platformEventMessage (Example.event_req 0x00 []) 3
    Example.responder []
  = (Platform.mkResponse 4 0x02 0x0A 0x03 Platform.NoBody, []).
Proof.
  destruct (platformEventMessage_edges (env := Example.platform_env)
              (Example.event_req 0x06 [0]) 4 Example.responder [])
    as (_ & _ & _ & Hheartbeat).
  destruct (platformEventMessage_edges (env := Example.platform_env)
              (Example.event_req 0x09 [0]) 4 Example.responder [])
    as (_ & _ & Hunknown & _).
  destruct (platformEventMessage_edges (env := Example.platform_env)
              (Example.event_req 0x00 []) 3 Example.responder [])
    as (_ & Hdecode & _).
  split; [exact (Hheartbeat eq_refl eq_refl) |].
  split; [exact (Hunknown eq_refl ltac:(discriminate) eq_refl) |].
  exact (Hdecode ltac:(discriminate)).
Defined.

Lemma sensorEvent_signals_witness :
  Platform.sensorEvent (Example.event_req 0x00 [9; 0; 0x02; 1; 2; 4; 77]) 10
    1 3 Example.responder
  = (0x00, [Platform.EmitNumericSensorEventSignal 1 9 1 2 4 77]) /\
  Platform.sensorEvent (Example.event_req 0x00 [9; 0; 0x07; 1; 2; 4; 77]) 10
    1 3 Example.responder
  = (0x02, []) /\
  Platform.sensorEvent (Example.event_req 0x00 [9; 0; 0x01; 0; 2]) 8 1 3
    Example.responder
  = (0x01, []).
Proof.
  destruct (sensorEvent_signals (env := Example.platform_env)
              (Example.event_req 0x00 [9; 0; 0x02; 1; 2; 4; 77]) 10 1 3
              Example.responder) as [_ Hnumeric].
  destruct (Hnumeric eq_refl) as (_ & _ & Hnum).
  destruct (sensorEvent_signals (env := Example.platform_env)
              (Example.event_req 0x00 [9; 0; 0x07; 1; 2; 4; 77]) 10 1 3
              Example.responder) as [_ Hother].
  destruct (Hother eq_refl) as (Hclass & _).
  destruct (sensorEvent_signals (env := Example.platform_env)
              (Example.event_req 0x00 [9; 0; 0x01; 0; 2]) 8 1 3
              Example.responder) as [_ Hstate].
  destruct (Hstate eq_refl) as (_ & Hst & _).
  split; [exact (proj2 (Hnum ltac:(discriminate) eq_refl) eq_refl) |].
  split; [exact (Hclass ltac:(discriminate) ltac:(discriminate)) |].
  exact (proj1 (Hst eq_refl) ltac:(discriminate)).
Defined.

Lemma populateMapping_positions_witness :
  BiosParser.populateMapping "uint8_t" [0; 1; 2] ["a"; "b"]%string = None /\
  BiosParser.assoc_find 1 [(0, "a"); (1, "b")]%string = Some "b"%string /\
  BiosParser.assoc_find 2 [(0, "a"); (1, "b")]%string = None.
Proof.
  destruct (populateMapping_positions (env := Example.bios_env) "uint8_t"
              [0; 1; 2] ["a"; "b"]%string) as [Hdefined _].
  destruct (populateMapping_positions (env := Example.bios_env) "uint8_t"
              [0; 1] ["a"; "b"]%string) as [_ Hmap].
  destruct (Hmap [0; 1] [(0, "a"); (1, "b")]%string
              ltac:(repeat constructor)
              ltac:(apply (bool_decide_unpack _); vm_compute; exact I)
              eq_refl) as [Hin Hout].
  split; [| split].
  - apply eq_None_not_Some. intros Hsome.
    apply Hdefined in Hsome. cbn in Hsome. lia.
  - exact (Hin 1%nat 1 eq_refl).
  - apply Hout. intros H.
    repeat (apply elem_of_cons in H as [H | H]; [discriminate |]).
    apply elem_of_nil in H. exact H.
Defined.

End FurtherExamples.
